(** * lang_code_reader: the storage client, the code-source service and the
      exploration state, embedded from the Python sources.

    Layout: Part I holds the embedding (definitions only), Part II the lemmas
    and the theorems about it.

    Conventions of the embedding.
    - A Python [str] is a [string]: the sequence of its UTF-8 bytes.  The
      operations used by the program ([startswith], [endswith], [in],
      [count], [split], [strip]) commute with UTF-8 encoding, so they are
      defined on the bytes.  [str.lower] consults the Unicode tables and is a
      parameter ([lower]) of everything that calls it.
    - A Python [int] is a [Z]; a Python [float] is a binary64 value
      ([float]).  The score that [_calculate_score] accumulates in a float
      only ever holds sums of the integers 100/80/60/40, [max(0, 20 - depth)]
      and 5, on which float addition is exact: the embedding computes the
      integer and holds it in a float where the result is stored
      ([int_to_float]).
    - [await] is sequential composition in the monad [M] that threads the
      state of the outside world through the provider calls. *)

From Stdlib Require Import ZArith Lia Ascii String List Permutation Sorted SpecFloat.
From stdpp Require Import base option gmap strings list.

Set Warnings "-register-all".
Local Open Scope string_scope.
Local Open Scope list_scope.
Local Open Scope Z_scope.

(* ####################################################################### *)
(** * Part I. The embedding *)
(* ####################################################################### *)

(** ** Python strings *)

Module PyStr.

(** [s.startswith(q)] *)
Fixpoint startswith (s q : string) {struct q} : bool :=
  match q with
  | EmptyString => true
  | String c q' =>
      match s with
      | EmptyString => false
      | String d s' => if Ascii.eqb d c then startswith s' q' else false
      end
  end.

(** [q in s] *)
Fixpoint contains (q s : string) {struct s} : bool :=
  if startswith s q then true
  else match s with
       | EmptyString => false
       | String _ s' => contains q s'
       end.

(** [s.endswith(suf)] *)
Fixpoint endswith (s suf : string) {struct s} : bool :=
  if String.eqb s suf then true
  else match s with
       | EmptyString => false
       | String _ s' => endswith s' suf
       end.

(** [s.count(c)] for a one-character [c] *)
Fixpoint count (c : ascii) (s : string) : Z :=
  match s with
  | EmptyString => 0
  | String d s' => (if Ascii.eqb d c then 1 else 0) + count c s'
  end.

(** [s.split(sep)] for a one-character [sep]: never the empty list *)
Fixpoint split (sep : ascii) (s : string) : list string :=
  match s with
  | EmptyString => [EmptyString]
  | String d s' =>
      if Ascii.eqb d sep then EmptyString :: split sep s'
      else match split sep s' with
           | seg :: segs => String d seg :: segs
           | [] => [String d EmptyString]
           end
  end.

(** [s.lstrip(c)] and [s.rstrip(c)] and [s.strip(c)] for a one-character [c] *)
Fixpoint lstrip (c : ascii) (s : string) : string :=
  match s with
  | EmptyString => EmptyString
  | String d s' => if Ascii.eqb d c then lstrip c s' else s
  end.

Fixpoint rstrip (c : ascii) (s : string) : string :=
  match s with
  | EmptyString => EmptyString
  | String d s' =>
      match rstrip c s' with
      | EmptyString => if Ascii.eqb d c then EmptyString else String d EmptyString
      | r => String d r
      end
  end.

Definition strip (c : ascii) (s : string) : string := rstrip c (lstrip c s).

(** [sep.join(parts)] *)
Fixpoint join (sep : string) (parts : list string) : string :=
  match parts with
  | [] => EmptyString
  | [p] => p
  | p :: ps => p +:+ sep +:+ join sep ps
  end.

(** [s.isascii()]: every character is below 128; on the UTF-8 bytes, every
    byte is. *)
Fixpoint isascii (s : string) : bool :=
  match s with
  | EmptyString => true
  | String c s' => (N_of_ascii c <? 128)%N && isascii s'
  end.

(** Truth value of a string: [bool(s)] *)
Definition truthy (s : string) : bool :=
  match s with EmptyString => false | _ => true end.

(** [str.lower] restricted to ASCII letters; it agrees with Python on
    strings of ASCII characters and instantiates [lower] in the examples. *)
Definition ascii_lower_char (c : ascii) : ascii :=
  let n := N_of_ascii c in
  if ((65 <=? n) && (n <=? 90))%N then ascii_of_N (n + 32) else c.

Fixpoint ascii_lower (s : string) : string :=
  match s with
  | EmptyString => EmptyString
  | String c s' => String (ascii_lower_char c) (ascii_lower s')
  end.

(** What the tests mean, as relations. *)
Definition is_prefix (q s : string) : Prop := exists t, s = q +:+ t.
Definition is_suffix (q s : string) : Prop := exists t, s = t +:+ q.
Definition is_substring (q s : string) : Prop := exists a b, s = a +:+ q +:+ b.

End PyStr.

(** ** Exceptions and the world-passing monad *)

Inductive exn : Type :=
| GraphQLException                 (* gidgethub.GraphQLException and its subclasses *)
| FileNotFoundError (msg : string)
| ValueError (msg : string)
| ValidationError                  (* pydantic *)
| TypeError
| AttributeError
| binascii_Error
| UnicodeDecodeError
| ProviderError (msg : string)     (* any other Exception of the HTTP layer *)
| CancelledError.                  (* a BaseException that is not an Exception *)

(** [isinstance(e, Exception)]: what a bare [except Exception] catches. *)
Definition is_Exception (e : exn) : bool :=
  match e with
  | CancelledError => false
  | _ => true
  end.

Inductive result (A : Type) : Type :=
| Ok (a : A)
| Raise (e : exn).
Arguments Ok {A} a.
Arguments Raise {A} e.

Definition M (World A : Type) : Type := World -> result A * World.

Definition ret {World A} (a : A) : M World A := fun w => (Ok a, w).
Definition raise {World A} (e : exn) : M World A := fun w => (Raise e, w).
Definition bind {World A B} (m : M World A) (k : A -> M World B) : M World B :=
  fun w => match m w with
           | (Ok a, w') => k a w'
           | (Raise e, w') => (Raise e, w')
           end.
Definition lift {World A} (r : result A) : M World A := fun w => (r, w).

Notation "'let*' x ':=' m 'in' k" := (bind m (fun x => k))
  (at level 10, x pattern, m at level 100, k at level 200).

(** [try: m  except C: h] where [C] is given by the test [catches]. *)
Definition try_except {World A} (m : M World A) (catches : exn -> bool)
    (h : exn -> M World A) : M World A :=
  fun w => match m w with
           | (Raise e, w') => if catches e then h e w' else (Raise e, w')
           | r => r
           end.

(** The same on pure results. *)
Definition rbind {A B} (r : result A) (k : A -> result B) : result B :=
  match r with
  | Ok a => k a
  | Raise e => Raise e
  end.

Notation "'let+' x ':=' r 'in' k" := (rbind r (fun x => k))
  (at level 10, x pattern, r at level 100, k at level 200).

(** ** Python floats

    A [float] is an IEEE 754 binary64 value, in the representation of the
    Standard Library's specification of floating-point numbers: a signed
    zero, an infinity, NaN, or a sign, a mantissa and an exponent. *)

Definition float : Type := spec_float.

(** The float nearest to an integer, ties to even; it is infinite when the
    integer is beyond the range of the floats. *)
Definition int_to_float (n : Z) : float := binary_normalize 53 1024 n 0 false.

(** [float(n)] for an int [n]; [None] stands for OverflowError. *)
Definition float_of_int (n : Z) : option float :=
  match int_to_float n with
  | S754_infinity _ => None
  | f => Some f
  end.

(** The integer a float equals ([int(f)] when [f.is_integer()]); [None] for
    a float with a fractional part, an infinity and NaN. *)
Definition float_as_int (f : float) : option Z :=
  match f with
  | S754_zero _ => Some 0
  | S754_finite s m e =>
      let n := if 0 <=? e then Some (Z.pos m * 2 ^ e)
               else if Z.pos m mod 2 ^ (- e) =? 0 then Some (Z.pos m / 2 ^ (- e))
               else None in
      option_map (fun n => if s then - n else n) n
  | _ => None
  end.

(** [a < b] *)
Definition float_lt (a b : float) : bool := SFltb a b.

(** [bool(a)]: the two zeros are falsy, every other float (NaN too) is
    truthy. *)
Definition float_truthy (a : float) : bool := negb (SFeqb a (S754_zero false)).

(** ** The values the provider returns: those of JSON, as [json.loads]
    builds them *)

Inductive json : Type :=
| JNull
| JBool (b : bool)
| JNum (n : Z)
| JFloat (f : float)
| JStr (s : string)
| JArr (l : list json)
| JObj (d : gmap string json).

(** [j.get(key)] and [j.get(key, default)]: only a dict has [get]. *)
Definition py_get (j : json) (key : string) (default : json) : result json :=
  match j with
  | JObj d => Ok (match d !! key with Some v => v | None => default end)
  | _ => Raise AttributeError
  end.

(** The characters of a string, as iteration yields them.  On the bytes of
    a non-ASCII string this yields more items than Python does; the loops
    that iterate fail on the first item of a string either way. *)
Fixpoint chars (s : string) : list json :=
  match s with
  | EmptyString => []
  | String c s' => JStr (String c EmptyString) :: chars s'
  end.

(** [for item in j]: a list yields its elements, a dict its keys, a string
    its characters; the other values are not iterable. *)
Definition py_iter (j : json) : result (list json) :=
  match j with
  | JArr l => Ok l
  | JObj d => Ok (map (fun kv => JStr (fst kv)) (map_to_list d))
  | JStr s => Ok (chars s)
  | _ => Raise TypeError
  end.

(** [j == JStr s] for a string literal [s]. *)
Definition json_is_str (j : json) (s : string) : bool :=
  match j with
  | JStr t => String.eqb t s
  | _ => false
  end.

(** A method call on a value that must be a [str] ([path.endswith],
    [path.split]): every other value lacks the attribute. *)
Definition as_str (j : json) : result string :=
  match j with
  | JStr s => Ok s
  | _ => Raise AttributeError
  end.

(** ** The Python runtime and the libraries the program calls

    None of these is code of the repository; each is taken as it is
    documented.  [None] from a numeric parser means that the string is not a
    number. *)

Record ParseResult : Type := mkParseResult {
  scheme : string;
  netloc : string;
  url_path : string;
  url_params : string;
  url_query : string;
  fragment : string;
}.

Class PyLib : Type := {
  lower : string -> string;                 (* str.lower *)
  b64decode : string -> option string;      (* binascii.a2b_base64, None: binascii.Error *)
  decode_utf8 : string -> option string;    (* bytes.decode('utf-8'), None: UnicodeDecodeError *)
  str_as_int : string -> option Z;          (* pydantic, lax mode: "12" for an int *)
  str_as_float : string -> option float;    (* pydantic, lax mode: "1.5" for a float *)
  urlparse : string -> option ParseResult;  (* urllib.parse.urlparse, None: ValueError *)
}.

(** A library call that signals failure by raising [e]. *)
Definition or_raise {A} (o : option A) (e : exn) : result A :=
  match o with
  | Some a => Ok a
  | None => Raise e
  end.

(** [base64.b64decode(s)] for a [str]: the string is first encoded as
    ASCII, and a character outside ASCII raises [ValueError]; the bytes
    are then decoded by [binascii.a2b_base64]. *)
Definition base64_b64decode `{PyLib} (s : string) : result string :=
  if PyStr.isascii s then or_raise (b64decode s) binascii_Error
  else Raise (ValueError "string argument should contain only ASCII characters").

(** ** pydantic field validation (lax mode, the default) *)

(** [str]: only a string validates; numbers are not turned into strings. *)
Definition v_str (j : json) : result string :=
  match j with
  | JStr s => Ok s
  | _ => Raise ValidationError
  end.

(** [int]: an int, a float without fractional part that lies within the
    64-bit integers, a bool (1 or 0) or a numeric string. *)
Definition v_int `{PyLib} (j : json) : result Z :=
  match j with
  | JNum n => Ok n
  | JFloat f =>
      match float_as_int f with
      | Some n => if (- 2 ^ 63 <? n) && (n <? 2 ^ 63) then Ok n else Raise ValidationError
      | None => Raise ValidationError
      end
  | JBool b => Ok (Z.b2z b)
  | JStr s => match str_as_int s with Some n => Ok n | None => Raise ValidationError end
  | _ => Raise ValidationError
  end.

(** [float]: a float as it is (infinities and NaN included), an int
    converted to the nearest float and refused when it is out of range, a
    bool (1.0 or 0.0) or a numeric string. *)
Definition v_float `{PyLib} (j : json) : result float :=
  match j with
  | JFloat f => Ok f
  | JNum n => or_raise (float_of_int n) ValidationError
  | JBool b => Ok (int_to_float (Z.b2z b))
  | JStr s => match str_as_float s with Some f => Ok f | None => Raise ValidationError end
  | _ => Raise ValidationError
  end.

(** [Optional[T]]: [None] is accepted before [T] is tried. *)
Definition v_optional {A} (v : json -> result A) (j : json) : result (option A) :=
  match j with
  | JNull => Ok None
  | _ => let+ a := v j in Ok (Some a)
  end.

(** A required field of a model built from keyword arguments [**data]. *)
Definition field {A} (d : gmap string json) (key : string)
    (v : json -> result A) : result A :=
  match d !! key with
  | Some j => v j
  | None => Raise ValidationError
  end.

(** A field with default [None]. *)
Definition field_default_None {A} (d : gmap string json) (key : string)
    (v : json -> result (option A)) : result (option A) :=
  match d !! key with
  | Some j => v j
  | None => Ok None
  end.

(** Validation fails with [ValidationError] only. *)
Definition validation_only {A} (r : result A) : Prop :=
  forall e, r = Raise e -> e = ValidationError.

(** ** The data models of storage_interface.py *)

Module SearchOptions.
Record t : Type := mk {
  extension : option string;
  max_results : Z;
  include_content : bool;
  search_in_content : bool;
}.

(** [extension_must_start_with_dot] *)
Definition extension_must_start_with_dot (v : option string) : result (option string) :=
  match v with
  | Some e =>
      if negb (PyStr.startswith e ".")
      then Raise (ValueError "extension must start with '.'")
      else Ok v
  | None => Ok v
  end.

(** [SearchOptions(extension=.., max_results=.., ..)]: the field validator
    and the [ge=1] constraint; any failure surfaces as pydantic's
    [ValidationError]. *)
Definition new (extension : option string) (max_results : Z)
    (include_content search_in_content : bool) : result t :=
  match extension_must_start_with_dot extension with
  | Raise _ => Raise ValidationError
  | Ok ext =>
      if max_results >=? 1
      then Ok (mk ext max_results include_content search_in_content)
      else Raise ValidationError
  end.
End SearchOptions.

Module FileSearchResultModel.
Record t : Type := mk {
  path : string;
  name : string;
  type : string;                (* "file" or "directory" *)
  size : option Z;
  content : option string;
  sha : option string;
  url : option string;
  score : option float;
}.

(** The constructor, on the values passed as keyword arguments. *)
Definition new `{PyLib} (path name type size content sha url score : json) : result t :=
  let+ path := v_str path in
  let+ name := v_str name in
  let+ type := v_str type in
  let+ size := v_optional v_int size in
  let+ content := v_optional v_str content in
  let+ sha := v_optional v_str sha in
  let+ url := v_optional v_str url in
  let+ score := v_optional v_float score in
  Ok (mk path name type size content sha url score).

(** [fsr.content = c] *)
Definition set_content (fsr : t) (c : option string) : t :=
  mk (path fsr) (name fsr) (type fsr) (size fsr) c (sha fsr) (url fsr) (score fsr).
End FileSearchResultModel.

Module GitHubFileContentModel.
Record t : Type := mk {
  type : string;
  encoding : string;
  content : string;
  sha : string;
  size : Z;
  name : string;
  path : string;
  url : string;
  git_url : string;
  html_url : string;
  download_url : option string;
}.

(** [GitHubFileContentModel( **data )]: [data] must be a mapping; keys
    that are not fields are ignored. *)
Definition new `{PyLib} (data : json) : result t :=
  match data with
  | JObj d =>
      let+ type := field d "type" v_str in
      let+ encoding := field d "encoding" v_str in
      let+ content := field d "content" v_str in
      let+ sha := field d "sha" v_str in
      let+ size := field d "size" v_int in
      let+ name := field d "name" v_str in
      let+ path := field d "path" v_str in
      let+ url := field d "url" v_str in
      let+ git_url := field d "git_url" v_str in
      let+ html_url := field d "html_url" v_str in
      let+ download_url := field_default_None d "download_url" (v_optional v_str) in
      Ok (mk type encoding content sha size name path url git_url html_url download_url)
  | _ => Raise TypeError
  end.
End GitHubFileContentModel.

(** ** The provider behind the client

    [self._gh.getitem(endpoint, params=..)] is a call into the HTTP layer: it
    returns the decoded JSON body or raises, and it may change the world. *)

Record request : Type := mkRequest {
  endpoint : string;
  params : list (string * json);
}.

(** A provider that also logs the requests it receives. *)
Definition recording {World} (gh : request -> M World json)
    : request -> M (list request * World) json :=
  fun req lw =>
    match gh req (snd lw) with
    | (r, w') => (r, (fst lw ++ [req], w'))
    end.

(** [a or b] on an optional string: [None] and the empty string are falsy. *)
Definition or_str (a : option string) (b : string) : string :=
  match a with
  | Some r => if PyStr.truthy r then r else b
  | None => b
  end.

(** [x.score or 0]: [None] and a zero both give the int [0], which compares
    with floats as the float zero does. *)
Definition or_zero (a : option float) : float :=
  match a with
  | Some s => if float_truthy s then s else int_to_float 0
  | None => int_to_float 0
  end.

(** [l.sort(key=key, reverse=True)], the keys compared with [lt] (Python's
    [<]).  Python's sort is stable and keeps the original order of elements
    with equal keys also when reversed; on keys that [lt] orders this fixes
    the result, which is computed here by insertion from the right. *)
Fixpoint list_insert {A K} (lt : K -> K -> bool) (key : A -> K) (x : A) (l : list A)
    : list A :=
  match l with
  | [] => [x]
  | y :: l' => if lt (key x) (key y) then y :: list_insert lt key x l' else x :: l
  end.

Fixpoint list_sort {A K} (lt : K -> K -> bool) (key : A -> K) (l : list A) : list A :=
  match l with
  | [] => []
  | x :: l' => list_insert lt key x (list_sort lt key l')
  end.

Definition is_GraphQLException (e : exn) : bool :=
  match e with
  | GraphQLException => true
  | _ => false
  end.

Module GitHubClient.
Section Client.
Context `{PyLib} {World : Type}.

Record t : Type := mk {
  owner : string;
  repo : string;
  token : option string;
  default_ref : string;
  _gh : request -> M World json;
}.

Definition common_extensions : list string :=
  [".py"; ".ts"; ".js"; ".md"; ".json"; ".tsx"; ".jsx"].

(** [for ext in [...]: if filename.endswith(ext): score += 5; break] *)
Fixpoint extension_bonus (filename : string) (exts : list string) (score : Z) : Z :=
  match exts with
  | [] => score
  | ext :: exts' =>
      if PyStr.endswith filename ext then score + 5
      else extension_bonus filename exts' score
  end.

(** [_calculate_score]: the integer that the float [score] holds. *)
Definition _calculate_score (path filename query : string) : Z :=
  let ql := lower query in
  let fnl := lower filename in
  let pl := lower path in
  let score := 0 in
  let score :=
    if String.eqb fnl ql then score + 100
    else if PyStr.startswith fnl ql then score + 80
    else if PyStr.contains ql fnl then score + 60
    else if PyStr.contains ql pl then score + 40
    else score in
  let depth := PyStr.count "/" path in
  let score := score + Z.max 0 (20 - depth) in
  extension_bonus filename common_extensions score.

Definition read_file (self : t) (path : string) (ref : option string) : M World string :=
  let ref := or_str ref (default_ref self) in
  let endpoint := "/repos/" +:+ owner self +:+ "/" +:+ repo self +:+ "/contents/" +:+ path in
  let* data :=
    try_except (_gh self (mkRequest endpoint []))
      is_GraphQLException
      (fun _ => raise (FileNotFoundError
                         ("File not found: " +:+ path +:+ " (ref: " +:+ ref +:+ ")"))) in
  let* gh_file := lift (GitHubFileContentModel.new data) in
  if negb (String.eqb (GitHubFileContentModel.type gh_file) "file") then
    raise (ValueError ("Path " +:+ path +:+ " is not a file, got type "
                       +:+ GitHubFileContentModel.type gh_file))
  else if negb (String.eqb (GitHubFileContentModel.encoding gh_file) "base64") then
    raise (ValueError ("Unsupported encoding: " +:+ GitHubFileContentModel.encoding gh_file))
  else
    let* content_bytes :=
      lift (base64_b64decode (GitHubFileContentModel.content gh_file)) in
    let* content_str := lift (or_raise (decode_utf8 content_bytes) UnicodeDecodeError) in
    ret content_str.

(** [try: fsr.content = await self.read_file(path, ref=self.default_ref)
     except Exception: fsr.content = None].  [path] is the string that
    [fsr] was built from. *)
Definition fetch_content (self : t) (fsr : FileSearchResultModel.t)
    : M World FileSearchResultModel.t :=
  try_except
    (let* content := read_file self (FileSearchResultModel.path fsr)
                       (Some (default_ref self)) in
     ret (FileSearchResultModel.set_content fsr (Some content)))
    is_Exception
    (fun _ => ret (FileSearchResultModel.set_content fsr None)).

(** The loop of the content-search branch. *)
Fixpoint content_loop (self : t) (opts : SearchOptions.t) (items : list json)
    (results : list FileSearchResultModel.t) : M World (list FileSearchResultModel.t) :=
  match items with
  | [] => ret results
  | item :: items' =>
      let* name := lift (py_get item "name" JNull) in
      let* path := lift (py_get item "path" JNull) in
      let* sha := lift (py_get item "sha" JNull) in
      let* score := lift (py_get item "score" JNull) in
      let* url := lift (py_get item "url" JNull) in
      let* fsr := lift (FileSearchResultModel.new path name (JStr "file") JNull JNull
                          sha url score) in
      let* fsr := if SearchOptions.include_content opts
                  then fetch_content self fsr else ret fsr in
      content_loop self opts items' (results ++ [fsr])
  end.

(** The loop of the tree branch: [continue] is the recursive call with the
    state unchanged, [break] returns the results collected so far. *)
Fixpoint tree_loop (self : t) (query : string) (opts : SearchOptions.t)
    (tree : list json) (count : Z) (results : list FileSearchResultModel.t)
    : M World (list FileSearchResultModel.t) :=
  match tree with
  | [] => ret results
  | item :: tree' =>
      let* ty := lift (py_get item "type" JNull) in
      if negb (json_is_str ty "blob") then tree_loop self query opts tree' count results
      else
        let* path := lift (py_get item "path" JNull) in
        let* skip :=
          lift (match SearchOptions.extension opts with
                | Some ext =>
                    if PyStr.truthy ext
                    then let+ p := as_str path in Ok (negb (PyStr.endswith p ext))
                    else Ok false
                | None => Ok false
                end) in
        if skip then tree_loop self query opts tree' count results
        else
          let* path := lift (as_str path) in
          let filename := List.last (PyStr.split "/" path) EmptyString in
          let query_lower := lower query in
          if negb (PyStr.contains query_lower (lower path))
             && negb (PyStr.contains query_lower (lower filename))
          then tree_loop self query opts tree' count results
          else
            let* size := lift (py_get item "size" JNull) in
            let* sha := lift (py_get item "sha" JNull) in
            let* url := lift (py_get item "url" JNull) in
            let* fsr := lift (FileSearchResultModel.new (JStr path) (JStr filename)
                                (JStr "file") size JNull sha url
                                (JFloat (int_to_float
                                           (_calculate_score path filename query)))) in
            let* fsr := if SearchOptions.include_content opts
                        then fetch_content self fsr else ret fsr in
            let results := results ++ [fsr] in
            let count := count + 1 in
            if count >=? SearchOptions.max_results opts then ret results
            else tree_loop self query opts tree' count results
  end.

Definition search_files (self : t) (query : string) (options : SearchOptions.t)
    : M World (list FileSearchResultModel.t) :=
  let results := [] in
  let opts := options in
  if SearchOptions.search_in_content opts then
    let query_parts := [query; "repo:" +:+ owner self +:+ "/" +:+ repo self] in
    let query_parts :=
      match SearchOptions.extension opts with
      | Some ext =>
          if PyStr.truthy ext
          then query_parts ++ ["extension:" +:+ PyStr.lstrip "." ext]
          else query_parts
      | None => query_parts
      end in
    let q := PyStr.join " " query_parts in
    let* resp := _gh self (mkRequest "/search/code"
                             [("q", JStr q); ("per_page", JNum (SearchOptions.max_results opts))]) in
    let* items := lift (py_get resp "items" (JArr [])) in
    let* items := lift (py_iter items) in
    content_loop self opts items results
  else
    let* resp := _gh self (mkRequest ("/repos/" +:+ owner self +:+ "/" +:+ repo self
                                      +:+ "/git/trees/" +:+ default_ref self)
                             [("recursive", JStr "1")]) in
    let* tree := lift (py_get resp "tree" (JArr [])) in
    let* tree := lift (py_iter tree) in
    let* results := tree_loop self query opts tree 0 results in
    ret (list_sort float_lt (fun x => or_zero (FileSearchResultModel.score x)) results).

(** One entry of a listing, or the single file. *)
Definition entry (item : json) : result FileSearchResultModel.t :=
  let+ name := py_get item "name" JNull in
  let+ item_type := py_get item "type" JNull in
  let+ size := py_get item "size" JNull in
  let+ sha := py_get item "sha" JNull in
  let+ url := py_get item "url" JNull in
  let+ path := py_get item "path" JNull in
  FileSearchResultModel.new path name
      (JStr (if json_is_str item_type "file" then "file" else "directory"))
      size JNull sha url JNull.

Fixpoint entries (items : list json) (results : list FileSearchResultModel.t)
    : result (list FileSearchResultModel.t) :=
  match items with
  | [] => Ok results
  | item :: items' =>
      let+ fsr := entry item in
      entries items' (results ++ [fsr])
  end.

Definition get_directory_structure (self : t) (path : string) (ref : option string)
    : M World (list FileSearchResultModel.t) :=
  let ref := or_str ref (default_ref self) in
  let endpoint := "/repos/" +:+ owner self +:+ "/" +:+ repo self +:+ "/contents/" +:+ path in
  let* resp :=
    try_except (_gh self (mkRequest endpoint [("ref", JStr ref)]))
      is_GraphQLException
      (fun _ => raise (FileNotFoundError
                         ("Directory or file not found: " +:+ path
                          +:+ " (ref: " +:+ ref +:+ ")"))) in
  let results := [] in
  match resp with
  | JArr items => lift (entries items results)
  | _ => let* fsr := lift (entry resp) in ret (results ++ [fsr])
  end.

End Client.
Arguments t : clear implicits.
End GitHubClient.

(** ** Names for what the client sends and raises *)

Section ClientVocabulary.
Context {World : Type}.
Implicit Types self : GitHubClient.t World.

(** The request of [read_file]: the contents endpoint, no parameters. *)
Definition contents_request self (path : string) : request :=
  mkRequest ("/repos/" +:+ GitHubClient.owner self +:+ "/" +:+ GitHubClient.repo self
             +:+ "/contents/" +:+ path) [].

(** The request of [get_directory_structure]: the same endpoint with the
    revision as parameter. *)
Definition listing_request self (path ref : string) : request :=
  mkRequest ("/repos/" +:+ GitHubClient.owner self +:+ "/" +:+ GitHubClient.repo self
             +:+ "/contents/" +:+ path) [("ref", JStr ref)].

(** The request of the tree branch of [search_files]. *)
Definition tree_request self : request :=
  mkRequest ("/repos/" +:+ GitHubClient.owner self +:+ "/" +:+ GitHubClient.repo self
             +:+ "/git/trees/" +:+ GitHubClient.default_ref self) [("recursive", JStr "1")].

(** The same client over another provider. *)
Definition with_provider {World'} self (gh : request -> M World' json)
    : GitHubClient.t World' :=
  GitHubClient.mk (GitHubClient.owner self) (GitHubClient.repo self)
                  (GitHubClient.token self) (GitHubClient.default_ref self) gh.

(** The provider never raises an exception that [except Exception] lets
    through (a cancellation). *)
Definition raises_only_Exceptions self : Prop :=
  forall req w e w', GitHubClient._gh self req w = (Raise e, w') -> is_Exception e = true.
End ClientVocabulary.

(** The error taxonomy of the specification, as the exceptions of the client. *)
Definition NotFound (path ref : string) : exn :=
  FileNotFoundError ("File not found: " +:+ path +:+ " (ref: " +:+ ref +:+ ")").

Definition NotFound_listing (path ref : string) : exn :=
  FileNotFoundError ("Directory or file not found: " +:+ path +:+ " (ref: " +:+ ref +:+ ")").

Definition NotAFile (path type : string) : exn :=
  ValueError ("Path " +:+ path +:+ " is not a file, got type " +:+ type).

Definition UnsupportedEncoding (encoding : string) : exn :=
  ValueError ("Unsupported encoding: " +:+ encoding).

(** ** The abstract interface [CodeStorageClient] and the service on top *)

Record CodeStorageClient (World : Type) : Type := mkCodeStorageClient {
  cs_read_file : string -> M World string;
  cs_search_files : string -> SearchOptions.t -> M World (list FileSearchResultModel.t);
  cs_get_directory_structure : string -> M World (list FileSearchResultModel.t);
}.
Arguments cs_read_file {World} _ _.
Arguments cs_search_files {World} _ _ _.
Arguments cs_get_directory_structure {World} _ _.

(** [GitHubClient] seen through the interface: the optional [ref] takes its
    default. *)
Definition GitHubClient_as_storage `{PyLib} {World} (c : GitHubClient.t World)
    : CodeStorageClient World :=
  {| cs_read_file := fun path => GitHubClient.read_file c path None;
     cs_search_files := GitHubClient.search_files c;
     cs_get_directory_structure := fun path => GitHubClient.get_directory_structure c path None |}.

(** config/schema.py, the part the service reads. *)
Record GithubConfig : Type := mkGithubConfig {
  cfg_token : string;
  api_url : string;
  timeout : Z;
  max_retries : Z;
  user_agent : option string;
}.

Record AppConfig : Type := mkAppConfig {
  github : GithubConfig;
  debug : bool;
  log_level : string;
  environment : string;
}.

Module CodeSourceService.
Section Service.
Context `{PyLib} {World : Type}.
(** [gh_aiohttp.GitHubAPI(session, requester, oauth_token=token)] *)
Variable GitHubAPI : string -> option string -> request -> M World json.

Record t : Type := mk {
  code_client : GitHubClient.t World;
}.

(** [GitHubClient.__init__] *)
Definition GitHubClient_init (owner repo : string) (token : option string)
    (default_ref : string) : GitHubClient.t World :=
  GitHubClient.mk owner repo token default_ref
    (GitHubAPI (owner +:+ "/" +:+ repo) token).

(** [CodeSourceService.new(conf, source, path, ref)] *)
Definition new (conf : AppConfig) (source path ref : string) : result t :=
  if String.eqb source "github" then
    let+ parsed := or_raise (urlparse path) (ValueError "Invalid URL") in
    if negb (String.eqb (netloc parsed) "github.com") then
      Raise (ValueError ("Invalid github url: " +:+ path))
    else
      let parts := PyStr.split "/" (PyStr.strip "/" (url_path parsed)) in
      if Z.of_nat (length parts) <? 2 then
        Raise (ValueError ("Invalid github path: " +:+ path))
      else
        match firstn 2 parts with
        | [owner; repo] =>
            Ok (mk (GitHubClient_init owner repo (Some (cfg_token (github conf))) ref))
        | _ => Raise (ValueError "not enough values to unpack")
        end
  else Raise (ValueError ("Unknown source: " +:+ source)).

Definition read_file (self : t) (path : string) : M World string :=
  cs_read_file (GitHubClient_as_storage (code_client self)) path.
End Service.
End CodeSourceService.

(** ** agent/graph/types.py

    The classes of the feedback are plain dataclasses.  The generated
    [__init__] takes one argument for every field, raises [TypeError] when
    a field without a default is not given, and stores the arguments as
    they are: the annotations ([Literal["accept"]], [str], [Optional[str]])
    are not checked.  A field of a feedback object therefore holds any
    value; the values are taken from [json] ([None], bools, numbers,
    strings, lists and dicts).  The records of the session state below are
    given the types of their annotations: they are only built by the state
    machine modelled from the specification, which builds them well
    typed. *)

(** An argument of a dataclass constructor: passed or left out. *)
Inductive arg (A : Type) : Type :=
| Given (a : A)
| Missing.
Arguments Given {A} a.
Arguments Missing {A}.

Definition required {A} (a : arg A) : result A :=
  match a with
  | Given v => Ok v
  | Missing => Raise TypeError
  end.

Definition defaulted {A} (a : arg A) (d : A) : A :=
  match a with
  | Given v => v
  | Missing => d
  end.

Record FileAnalysis : Type := mkFileAnalysis {
  understanding : string;
}.

Module CurrentFile.
Record t : Type := mk {
  name : string;
  analysis : option FileAnalysis;
}.
End CurrentFile.

Module NextFile.
Record t : Type := mk {
  name : string;
  reason : string;
}.
End NextFile.

Module UserFeedbackAccept.
Record t : Type := mk {
  action : json;
  reason : json;
}.
Definition init (action reason : arg json) : result t :=
  let+ action := required action in
  Ok (mk action (defaulted reason JNull)).
End UserFeedbackAccept.

Module UserFeedbackReject.
Record t : Type := mk {
  action : json;
  reason : json;
}.
Definition init (action reason : arg json) : result t :=
  let+ action := required action in
  let+ reason := required reason in
  Ok (mk action reason).
End UserFeedbackReject.

Module UserFeedbackRefine.
Record t : Type := mk {
  action : json;
  userUnderstanding : json;
  reason : json;
  nextFile : json;
}.
Definition init (action userUnderstanding reason nextFile : arg json) : result t :=
  let+ action := required action in
  let+ userUnderstanding := required userUnderstanding in
  Ok (mk action userUnderstanding (defaulted reason JNull) (defaulted nextFile JNull)).
End UserFeedbackRefine.

Module UserFeedbackFinish.
Record t : Type := mk {
  action : json;
}.
Definition init (action : arg json) : result t :=
  let+ action := required action in
  Ok (mk action).
End UserFeedbackFinish.

(** [UserFeedback = Union[...]]: an object of one of the four classes. *)
Inductive UserFeedback : Type :=
| IsAccept (f : UserFeedbackAccept.t)
| IsReject (f : UserFeedbackReject.t)
| IsRefine (f : UserFeedbackRefine.t)
| IsFinish (f : UserFeedbackFinish.t).

(** The tag field [action] of a feedback object. *)
Definition feedback_tag (f : UserFeedback) : json :=
  match f with
  | IsAccept a => UserFeedbackAccept.action a
  | IsReject r => UserFeedbackReject.action r
  | IsRefine r => UserFeedbackRefine.action r
  | IsFinish f => UserFeedbackFinish.action f
  end.

Inductive FileStatus : Type := pending | ignored | done.
Inductive FileType : Type := file | directory.
Inductive FeedbackAction : Type := accept | reject | refine | finish.
Inductive CallToAction : Type := improve_basic_input | cta_user_feedback | cta_finish | null.

Module FileItem.
Record t : Type := mk {
  path : string;
  status : FileStatus;
  type : FileType;
  understanding : option string;
}.
End FileItem.

Module HistoryEntry.
Record t : Type := mk {
  filePath : string;
  feedback_action : FeedbackAction;
  timestamp : Z;
  reason : option string;
}.
End HistoryEntry.

Record Basic : Type := mkBasic {
  repo_name : string;
  main_goal : string;
  files : list FileItem.t;
  specific_areas : option string;
  github_url : option string;
  github_ref : option string;
  ask_user : option string;
  previous_wrong_path : option string;
}.

Record State (AnyMessage : Type) : Type := mkState {
  messages : list AnyMessage;
  basic : Basic;
  history : list HistoryEntry.t;
  current_file : option CurrentFile.t;
  next_file : option NextFile.t;
  user_feedback : option UserFeedback;
  reduced_output : option string;
  completed : bool;
  call_to_action : option CallToAction;
  last_heartbeat : option Z;
}.
Arguments mkState {AnyMessage}.
Arguments messages {AnyMessage}.
Arguments basic {AnyMessage}.
Arguments history {AnyMessage}.
Arguments current_file {AnyMessage}.
Arguments next_file {AnyMessage}.
Arguments user_feedback {AnyMessage}.
Arguments reduced_output {AnyMessage}.
Arguments completed {AnyMessage}.
Arguments call_to_action {AnyMessage}.
Arguments last_heartbeat {AnyMessage}.

(** ** The feedback and the exploration state machine of the specification *)

(** Modelled from the spec: Feedback, the closed set of variants of
    section 3: Accept with an optional note, Reject with a reason, Refine
    with a new understanding, an optional reason and an optional override
    of the next file, Finish without payload. *)
Inductive Feedback : Type :=
| Accept (note : option string)
| Reject (reason : string)
| Refine (understanding : string) (reason next_file : option string)
| Finish.

(** An optional string as a Python value. *)
Definition optional_str (o : option string) : json :=
  match o with
  | Some s => JStr s
  | None => JNull
  end.

(** Modelled from the spec: the feedback objects that have one of the four
    shapes, each with the Feedback it stands for: the class, the tag and
    the types of the payload agree. *)
Inductive stands_for : UserFeedback -> Feedback -> Prop :=
| stands_for_accept note :
    stands_for (IsAccept (UserFeedbackAccept.mk (JStr "accept") (optional_str note)))
               (Accept note)
| stands_for_reject reason :
    stands_for (IsReject (UserFeedbackReject.mk (JStr "reject") (JStr reason)))
               (Reject reason)
| stands_for_refine understanding reason next_file :
    stands_for (IsRefine (UserFeedbackRefine.mk (JStr "refine") (JStr understanding)
                            (optional_str reason) (optional_str next_file)))
               (Refine understanding reason next_file)
| stands_for_finish :
    stands_for (IsFinish (UserFeedbackFinish.mk (JStr "finish"))) Finish.

(** Modelled from the spec: the states of section 4.2; the sources have no
    such type. *)
Inductive phase : Type :=
| awaiting_next_file
| analyzing
| awaiting_feedback
| finished.

(** Modelled from the spec: the errors of section 7 that a session
    operation reports. *)
Inductive session_error : Type :=
| SessionClosed
| InvalidTransition.

(** Modelled from the spec: the result of a session operation, the updated
    state or the error. *)
Inductive outcome (A : Type) : Type :=
| Applied (a : A)
| Refused (e : session_error).
Arguments Applied {A} a.
Arguments Refused {A} e.

Section Session.
Context {AnyMessage : Type}.

(** Modelled from the spec: the states of the exploration state machine
    (section 4.2), which the sources do not define, read off the fields of
    [State]: finished once [completed]; otherwise awaiting_next_file with
    no CurrentFile, analyzing with a CurrentFile that has no understanding
    yet, awaiting_feedback once the understanding is recorded. *)
Definition phase_of (s : State AnyMessage) : phase :=
  if completed s then finished
  else match current_file s with
       | None => awaiting_next_file
       | Some cf =>
           match CurrentFile.analysis cf with
           | None => analyzing
           | Some _ => awaiting_feedback
           end
       end.

(** Modelled from the spec: "marks the TrackedFile for CurrentFile's path"
    with a status; the tracked files are [basic.files], keyed by path. *)
Definition mark_file (path : string) (st : FileStatus) (understanding : option string)
    (f : FileItem.t) : FileItem.t :=
  if String.eqb (FileItem.path f) path
  then FileItem.mk (FileItem.path f) st (FileItem.type f)
         (match understanding with Some u => Some u | None => FileItem.understanding f end)
  else f.

(** [basic.files = fs] *)
Definition with_files (b : Basic) (fs : list FileItem.t) : Basic :=
  mkBasic (repo_name b) (main_goal b) fs (specific_areas b) (github_url b)
          (github_ref b) (ask_user b) (previous_wrong_path b).

(** Modelled from the spec: what every decision does: one HistoryEntry is
    appended and the pending feedback is consumed; the tracked files, the
    current file, the next proposal and the completion flag are as the
    variant says. *)
Definition record_decision (s : State AnyMessage) (fs : list FileItem.t)
    (e : HistoryEntry.t) (cur : option CurrentFile.t) (next : option NextFile.t)
    (closed : bool) : State AnyMessage :=
  mkState (messages s)
          (with_files (basic s) fs)
          (history s ++ [e])
          cur
          next
          None
          (reduced_output s)
          closed
          (call_to_action s)
          (last_heartbeat s).

(** Modelled from the spec: [apply_feedback] of section 4.2, absent from
    the sources (types.py declares only the data).  It is valid only in
    awaiting_feedback; after Finish every call fails with SessionClosed.
    Accept marks the file done; Reject marks it ignored and records the
    reason; Refine keeps it pending, records the new understanding and
    makes the override path, if any, the next proposal; Finish completes
    the session.  Accept, Reject and Refine clear CurrentFile.  [now] is
    the timestamp of the HistoryEntry.  The heartbeat lock of section 5
    concerns concurrent callers and is outside this sequential model. *)
Definition apply_feedback (now : Z) (fb : Feedback) (s : State AnyMessage)
    : outcome (State AnyMessage) :=
  match phase_of s with
  | finished => Refused SessionClosed
  | awaiting_feedback =>
      match current_file s with
      | None => Refused InvalidTransition
      | Some cf =>
          let p := CurrentFile.name cf in
          let fs := files (basic s) in
          match fb with
          | Accept note =>
              Applied (record_decision s (map (mark_file p done None) fs)
                         (HistoryEntry.mk p accept now note)
                         None (next_file s) false)
          | Reject reason =>
              Applied (record_decision s (map (mark_file p ignored None) fs)
                         (HistoryEntry.mk p reject now (Some reason))
                         None (next_file s) false)
          | Refine understanding reason next =>
              Applied (record_decision s
                         (map (mark_file p pending (Some understanding)) fs)
                         (HistoryEntry.mk p refine now reason)
                         None
                         (match next with
                          | Some n => Some (NextFile.mk n EmptyString)
                          | None => None
                          end)
                         false)
          | Finish =>
              Applied (record_decision s fs (HistoryEntry.mk p finish now None)
                         (current_file s) (next_file s) true)
          end
      end
  | _ => Refused InvalidTransition
  end.
End Session.

(** ** Concrete instances used by the examples

    They agree with Python on the inputs of the examples: ASCII text,
    base64 in the standard alphabet with padding, URLs of the shape
    [scheme://netloc/path]. *)

Module Sample.

Definition b64_value (c : ascii) : option N :=
  let n := N_of_ascii c in
  if ((65 <=? n) && (n <=? 90))%N then Some (n - 65)%N
  else if ((97 <=? n) && (n <=? 122))%N then Some (n - 71)%N
  else if ((48 <=? n) && (n <=? 57))%N then Some (n + 4)%N
  else if (n =? 43)%N then Some 62%N
  else if (n =? 47)%N then Some 63%N
  else None.

Definition byte (n : N) : ascii := ascii_of_N (n mod 256).

Fixpoint b64decode_std (s : string) : option string :=
  match s with
  | EmptyString => Some EmptyString
  | String a (String b (String c (String d rest))) =>
      match b64_value a, b64_value b with
      | Some x, Some y =>
          let b1 := byte (x * 4 + y / 16) in
          match b64_value c, b64_value d with
          | Some z, Some u =>
              let b2 := byte ((y mod 16) * 16 + z / 4) in
              let b3 := byte ((z mod 4) * 64 + u) in
              match b64decode_std rest with
              | Some r => Some (String b1 (String b2 (String b3 r)))
              | None => None
              end
          | Some z, None =>
              if Ascii.eqb d "=" && String.eqb rest EmptyString
              then Some (String b1 (String (byte ((y mod 16) * 16 + z / 4)) EmptyString))
              else None
          | None, _ =>
              if Ascii.eqb c "=" && Ascii.eqb d "=" && String.eqb rest EmptyString
              then Some (String b1 EmptyString)
              else None
          end
      | _, _ => None
      end
  | _ => None
  end.

(** [s] up to the first character of [stops], and the rest from there. *)
Fixpoint span_until (stops : string) (s : string) : string * string :=
  match s with
  | EmptyString => (EmptyString, EmptyString)
  | String c s' =>
      if PyStr.contains (String c EmptyString) stops then (EmptyString, s)
      else let (a, b) := span_until stops s' in (String c a, b)
  end.

(** The text before and after the first occurrence of [sep]. *)
Fixpoint partition (sep : string) (s : string) : option (string * string) :=
  if PyStr.startswith s sep
  then Some (EmptyString, substring (String.length sep) (String.length s) s)
  else match s with
       | EmptyString => None
       | String c s' =>
           match partition sep s' with
           | Some (a, b) => Some (String c a, b)
           | None => None
           end
       end.

Definition drop1 (s : string) : string :=
  match s with
  | EmptyString => EmptyString
  | String _ s' => s'
  end.

Definition urlparse_simple (u : string) : ParseResult :=
  let '(sch, rest, has_netloc) :=
    match partition "://" u with
    | Some (a, b) => (PyStr.ascii_lower a, b, true)
    | None => (EmptyString, u, false)
    end in
  let '(loc, rest) := if has_netloc then span_until "/?#" rest else (EmptyString, rest) in
  let '(pth, rest) := span_until "?#" rest in
  let '(qry, frag) := if PyStr.startswith rest "?"
                      then span_until "#" (drop1 rest) else (EmptyString, rest) in
  mkParseResult sch loc pth EmptyString qry (drop1 frag).

Definition ascii_lib : PyLib := {|
  lower := PyStr.ascii_lower;
  b64decode := b64decode_std;
  decode_utf8 := fun b => if PyStr.isascii b then Some b else None;
  str_as_int := fun _ => None;
  str_as_float := fun _ => None;
  urlparse := fun u => Some (urlparse_simple u);
|}.

(** A small repository [o/r] behind a provider that counts its calls:
    README.md at the root, a directory src, a large binary whose content
    the provider does not encode, and a tree of five entries.  The content
    of docs/readme.txt cannot be fetched (the provider fails); every other
    path is unknown to the provider. *)
Definition obj (kvs : list (string * json)) : json := JObj (list_to_map kvs).

Definition file_entry (path name : string) (size : Z) : json :=
  obj [("type", JStr "file"); ("name", JStr name); ("path", JStr path);
       ("size", JNum size); ("sha", JStr ("sha-" +:+ name));
       ("url", JStr ("https://api.github.com/repos/o/r/contents/" +:+ path))].

Definition file_body (path name encoding content : string) (size : Z) : json :=
  obj [("type", JStr "file"); ("encoding", JStr encoding); ("content", JStr content);
       ("sha", JStr ("sha-" +:+ name)); ("size", JNum size); ("name", JStr name);
       ("path", JStr path);
       ("url", JStr ("https://api.github.com/repos/o/r/contents/" +:+ path));
       ("git_url", JStr ("https://api.github.com/repos/o/r/git/blobs/sha-" +:+ name));
       ("html_url", JStr ("https://github.com/o/r/blob/main/" +:+ path));
       ("download_url", JNull)].

Definition src_listing : json :=
  JArr [file_entry "src/main.py" "main.py" 10;
        obj [("type", JStr "dir"); ("name", JStr "util"); ("path", JStr "src/util");
             ("size", JNum 0); ("sha", JStr "sha-util"); ("url", JNull)]].

Definition blob (path : string) (size : Z) : json :=
  obj [("path", JStr path); ("mode", JStr "100644"); ("type", JStr "blob");
       ("sha", JStr ("sha-" +:+ path)); ("size", JNum size); ("url", JNull)].

Definition tree_listing : list json :=
  [blob "README.md" 5;
   obj [("path", JStr "src"); ("mode", JStr "040000"); ("type", JStr "tree");
        ("sha", JStr "sha-src")];
   blob "src/main.py" 10;
   blob "docs/readme.txt" 7;
   blob "src/readme_utils.py" 3].

Definition github (req : request) : M nat json :=
  fun calls =>
    let e := endpoint req in
    (if String.eqb e "/repos/o/r/contents/README.md"
     then Ok (file_body "README.md" "README.md" "base64" "aGVsbG8=" 5)
     else if String.eqb e "/repos/o/r/contents/src/readme_utils.py"
     then Ok (file_body "src/readme_utils.py" "readme_utils.py" "base64" "aGk=" 2)
     else if String.eqb e "/repos/o/r/contents/big.bin"
     then Ok (file_body "big.bin" "big.bin" "none" "" 2000000)
     else if String.eqb e "/repos/o/r/contents/src" then Ok src_listing
     else if String.eqb e "/repos/o/r/contents/docs/readme.txt"
     then Raise (ProviderError "rate limit exceeded")
     else if String.eqb e "/repos/o/r/git/trees/main"
     then Ok (obj [("sha", JStr "sha-root"); ("tree", JArr tree_listing);
                   ("truncated", JBool false)])
     else Raise GraphQLException,
     S calls).

Definition client : GitHubClient.t nat := GitHubClient.mk "o" "r" None "main" github.

(** What the search for "readme" finds in the tree, best first. *)
Definition readme_results : list FileSearchResultModel.t :=
  [FileSearchResultModel.mk "README.md" "README.md" "file" (Some 5) None
     (Some "sha-README.md") None (Some (int_to_float 105));
   FileSearchResultModel.mk "src/readme_utils.py" "readme_utils.py" "file" (Some 3) None
     (Some "sha-src/readme_utils.py") None (Some (int_to_float 104));
   FileSearchResultModel.mk "docs/readme.txt" "readme.txt" "file" (Some 7) None
     (Some "sha-docs/readme.txt") None (Some (int_to_float 99))].


(** The configuration of the command-line reader, and the provider
    constructor that ignores the credentials. *)
Definition conf : AppConfig :=
  mkAppConfig (mkGithubConfig "token" "https://api.github.com" 30 3 None)
              false "INFO" "development".

Definition GitHubAPI (requester : string) (oauth_token : option string)
    : request -> M nat json := github.

(** A session whose current file, src/main.go, is analysed and waits for the
    decision of the user. *)
Definition session : State string :=
  mkState []
    (mkBasic "repo" "goal"
       [FileItem.mk "README.md" done file None;
        FileItem.mk "src/main.go" pending file None]
       None None None None None)
    []
    (Some (CurrentFile.mk "src/main.go" (Some (mkFileAnalysis "entry point"))))
    None None None false None None.

End Sample.

(** ** The scoring rule as the specification words it

    Stated from the specification, to be compared with [_calculate_score]:
    the kind of match of a query against a file, the points of each kind,
    and the extension bonus. *)

Inductive match_kind : Type :=
| ExactName
| NamePrefix
| NameSubstring
| PathSubstring
| NoMatch.

Definition kind_points (k : match_kind) : Z :=
  match k with
  | ExactName => 100
  | NamePrefix => 80
  | NameSubstring => 60
  | PathSubstring => 40
  | NoMatch => 0
  end.


(** [spec_kind ql fnl pl k]: the first of the four tests that succeeds on the
    lowered query [ql], file name [fnl] and path [pl] is the one of [k]. *)
Inductive spec_kind (ql fnl pl : string) : match_kind -> Prop :=
| kind_exact : fnl = ql -> spec_kind ql fnl pl ExactName
| kind_prefix : fnl <> ql -> PyStr.is_prefix ql fnl -> spec_kind ql fnl pl NamePrefix
| kind_name : ~ PyStr.is_prefix ql fnl -> PyStr.is_substring ql fnl ->
              spec_kind ql fnl pl NameSubstring
| kind_path : ~ PyStr.is_substring ql fnl -> PyStr.is_substring ql pl ->
              spec_kind ql fnl pl PathSubstring
| kind_none : ~ PyStr.is_substring ql fnl -> ~ PyStr.is_substring ql pl ->
              spec_kind ql fnl pl NoMatch.

(** The fixed set of common source extensions of the specification. *)
Definition listed_extensions : list string :=
  [".py"; ".ts"; ".js"; ".md"; ".json"; ".tsx"; ".jsx"].

(** The flat bonus: 5 when the file name ends with one of the listed
    extensions, whatever their number, else 0. *)
Inductive spec_bonus (filename : string) : Z -> Prop :=
| bonus_five ext : In ext listed_extensions -> PyStr.is_suffix ext filename ->
                   spec_bonus filename 5
| bonus_none : (forall ext, In ext listed_extensions -> ~ PyStr.is_suffix ext filename) ->
               spec_bonus filename 0.

(** The depth bonus: [max(0, 20 - number of '/' in the path)]. *)
Definition depth_bonus (path : string) : Z := Z.max 0 (20 - PyStr.count "/" path).


(** What "sorted descending by [key], ties in the original order" means for
    an output [out] of an input [l]. *)
Definition descending {A} (key : A -> Z) (out : list A) : Prop :=
  StronglySorted (fun a b => key b <= key a) out.


(** The stable descending sort by an integer key: the one list that is
    [descending] and [keeps_order_of_ties] (lemma [sort_reverse_unique]). *)
Fixpoint insert_reverse {A} (key : A -> Z) (x : A) (l : list A) : list A :=
  match l with
  | [] => [x]
  | y :: l' => if key x <? key y then y :: insert_reverse key x l' else x :: l
  end.

Fixpoint sort_reverse {A} (key : A -> Z) (l : list A) : list A :=
  match l with
  | [] => []
  | x :: l' => insert_reverse key x (sort_reverse key l')
  end.

(** ** Vocabulary of the statements about options, URLs and listings *)

(** An extension filter that is absent or starts with a dot. *)
Definition extension_ok (extension : option string) : Prop :=
  match extension with
  | None => True
  | Some e => PyStr.is_prefix "." e
  end.

(** The parts of a URL path as the constructor of the service splits it. *)
Definition segments (url_path : string) : list string :=
  PyStr.split "/" (PyStr.strip "/" url_path).

(** A string of slashes only. *)
Fixpoint only_slashes (s : string) : bool :=
  match s with
  | EmptyString => true
  | String c s' => Ascii.eqb c "/" && only_slashes s'
  end.

(** [between_slashes url_path core]: [core] is what is left of the path
    when the slashes at its two ends are taken away. *)
Definition between_slashes (url_path core : string) : Prop :=
  exists lead trail,
    url_path = lead +:+ core +:+ trail
    /\ only_slashes lead = true /\ only_slashes trail = true
    /\ PyStr.startswith core "/" = false /\ PyStr.endswith core "/" = false.

(** [names url_path owner repo]: between the slashes at its ends, the path
    is the owner, a '/', the repository and then nothing or a '/' and more;
    neither the owner nor the repository contains a '/'.  The owner is not
    empty; the repository is empty when a second '/' follows the first. *)
Definition names (url_path owner repo : string) : Prop :=
  exists core tail,
    between_slashes url_path core
    /\ core = owner +:+ "/" +:+ repo +:+ tail
    /\ PyStr.count "/" owner = 0 /\ PyStr.count "/" repo = 0
    /\ (tail = EmptyString \/ PyStr.startswith tail "/" = true).

(** Between the slashes at its ends the path has no '/': it names at most
    an owner. *)
Definition single_segment (url_path : string) : Prop :=
  exists core, between_slashes url_path core /\ PyStr.count "/" core = 0.

(** An optional field of a JSON object: the value, or absent or null. *)
Definition optional_field {A} (d : gmap string json) (key : string)
    (inj : A -> json) (v : option A) : Prop :=
  match v with
  | Some a => d !! key = Some (inj a)
  | None => d !! key = None \/ d !! key = Some JNull
  end.


(** ** Vocabulary of the statements about the search *)

(** [path.split("/")[-1]] *)
Definition file_name (path : string) : string :=
  List.last (PyStr.split "/" path) EmptyString.


(** A result without its content. *)
Definition without_content (r : FileSearchResultModel.t) : FileSearchResultModel.t :=
  FileSearchResultModel.set_content r None.

(** The score of a result as an integer, 0 for a result without score (and
    for a score that is no integer, which the tree search never gives). *)
Definition score_key (r : FileSearchResultModel.t) : Z :=
  match FileSearchResultModel.score r with
  | Some f => match float_as_int f with Some n => n | None => 0 end
  | None => 0
  end.

(** A result whose sort key is a score of the client: the float of an
    integer between 0 and 125, which [score_key] reads back. *)
Definition score_in_range (r : FileSearchResultModel.t) : Prop :=
  exists n, 0 <= n <= 125
            /\ or_zero (FileSearchResultModel.score r) = int_to_float n
            /\ score_key r = n.

(** One iteration of the tree loop up to the construction of the result,
    the part that does not call the provider: [None] stands for [continue].
    It is the body of [tree_loop] read as a function (lemma
    [tree_loop_step]). *)
Definition tree_candidate `{PyLib} (query : string) (opts : SearchOptions.t) (item : json)
    : result (option FileSearchResultModel.t) :=
  let+ ty := py_get item "type" JNull in
  if negb (json_is_str ty "blob") then Ok None
  else
    let+ path := py_get item "path" JNull in
    let+ skip :=
      match SearchOptions.extension opts with
      | Some ext =>
          if PyStr.truthy ext
          then let+ p := as_str path in Ok (negb (PyStr.endswith p ext))
          else Ok false
      | None => Ok false
      end in
    if skip then Ok None
    else
      let+ path := as_str path in
      let filename := List.last (PyStr.split "/" path) EmptyString in
      let query_lower := lower query in
      if negb (PyStr.contains query_lower (lower path))
         && negb (PyStr.contains query_lower (lower filename))
      then Ok None
      else
        let+ size := py_get item "size" JNull in
        let+ sha := py_get item "sha" JNull in
        let+ url := py_get item "url" JNull in
        let+ fsr := FileSearchResultModel.new (JStr path) (JStr filename) (JStr "file")
                      size JNull sha url
                      (JFloat (int_to_float
                                 (GitHubClient._calculate_score path filename query))) in
        Ok (Some fsr).

(** The same for the loop over the items of the content search. *)
Definition content_candidate `{PyLib} (item : json) : result FileSearchResultModel.t :=
  let+ name := py_get item "name" JNull in
  let+ path := py_get item "path" JNull in
  let+ sha := py_get item "sha" JNull in
  let+ score := py_get item "score" JNull in
  let+ url := py_get item "url" JNull in
  FileSearchResultModel.new path name (JStr "file") JNull JNull sha url score.

(** An entry of a tree listing as the search reads it: a blob with its path,
    size, hash and URL, or anything else (a subtree, a submodule). *)
Inductive tree_entry : Type :=
| Blob (path : string) (size : option Z) (sha url : option string)
| NotBlob.

Inductive reads_as : json -> tree_entry -> Prop :=
| reads_blob (d : gmap string json) path size sha url :
    d !! "type" = Some (JStr "blob") ->
    d !! "path" = Some (JStr path) ->
    optional_field d "size" JNum size ->
    optional_field d "sha" JStr sha ->
    optional_field d "url" JStr url ->
    reads_as (JObj d) (Blob path size sha url)
| reads_other (d : gmap string json) :
    d !! "type" <> Some (JStr "blob") ->
    reads_as (JObj d) NotBlob.

(** "Whose path matches the extension (if given) and whose path or file
    name contains the query case-insensitively". *)
Definition selected `{PyLib} (query : string) (extension : option string) (path : string)
    : Prop :=
  match extension with
  | Some e => PyStr.is_suffix e path
  | None => True
  end
  /\ (PyStr.is_substring (lower query) (lower path)
      \/ PyStr.is_substring (lower query) (lower (file_name path))).

Definition selectedb `{PyLib} (query : string) (extension : option string) (path : string)
    : bool :=
  match extension with
  | Some e => PyStr.endswith path e
  | None => true
  end
  && (PyStr.contains (lower query) (lower path)
      || PyStr.contains (lower query) (lower (file_name path))).

(** The selected blobs of a listing, in its order. *)
Fixpoint selected_blobs `{PyLib} (query : string) (extension : option string)
    (entries : list tree_entry) : list tree_entry :=
  match entries with
  | [] => []
  | Blob path size sha url :: entries' =>
      if selectedb query extension path
      then Blob path size sha url :: selected_blobs query extension entries'
      else selected_blobs query extension entries'
  | NotBlob :: entries' => selected_blobs query extension entries'
  end.

(** The result for a blob: a file named by the last segment of its path,
    scored, without content. *)
Definition result_of `{PyLib} (query : string) (e : tree_entry) : FileSearchResultModel.t :=
  match e with
  | Blob path size sha url =>
      FileSearchResultModel.mk path (file_name path) "file" size None sha url
        (Some (int_to_float (GitHubClient._calculate_score path (file_name path) query)))
  | NotBlob => FileSearchResultModel.mk "" "" "file" None None None None None
  end.

(** The float that a JSON number is: the float itself, or the float nearest
    to an integer that the floats can hold. *)
Inductive number_as_float : json -> float -> Prop :=
| float_as_float f : number_as_float (JFloat f) f
| int_as_float n f : float_of_int n = Some f -> number_as_float (JNum n) f.

(** The score of an item of the content search: a number, or absent or
    null. *)
Definition optional_score (d : gmap string json) (v : option float) : Prop :=
  match v with
  | Some f => exists j, d !! "score" = Some j /\ number_as_float j f
  | None => d !! "score" = None \/ d !! "score" = Some JNull
  end.

(** An item of the content search and the result built from it. *)
Inductive search_item : json -> FileSearchResultModel.t -> Prop :=
| search_item_object (d : gmap string json) (r : FileSearchResultModel.t) :
    d !! "name" = Some (JStr (FileSearchResultModel.name r)) ->
    d !! "path" = Some (JStr (FileSearchResultModel.path r)) ->
    FileSearchResultModel.type r = "file" ->
    FileSearchResultModel.size r = None ->
    FileSearchResultModel.content r = None ->
    optional_field d "sha" JStr (FileSearchResultModel.sha r) ->
    optional_field d "url" JStr (FileSearchResultModel.url r) ->
    optional_score d (FileSearchResultModel.score r) ->
    search_item (JObj d) r.

(** The first request of [search_files] and the key of the listing it
    reads from the answer. *)
Definition search_query {World} (self : GitHubClient.t World) (query : string)
    (opts : SearchOptions.t) : string :=
  query +:+ " repo:" +:+ GitHubClient.owner self +:+ "/" +:+ GitHubClient.repo self
  +:+ match SearchOptions.extension opts with
      | Some ext => if PyStr.truthy ext then " extension:" +:+ PyStr.lstrip "." ext
                    else EmptyString
      | None => EmptyString
      end.

Definition search_request {World} (self : GitHubClient.t World) (query : string)
    (opts : SearchOptions.t) : request :=
  mkRequest "/search/code"
    [("q", JStr (search_query self query opts));
     ("per_page", JNum (SearchOptions.max_results opts))].

Definition first_request {World} (self : GitHubClient.t World) (query : string)
    (opts : SearchOptions.t) : request :=
  if SearchOptions.search_in_content opts then search_request self query opts
  else tree_request self.

Definition listing_key (opts : SearchOptions.t) : string :=
  if SearchOptions.search_in_content opts then "items" else "tree".

(** A result with the content [c], its other fields as they are. *)
Definition with_content (r : FileSearchResultModel.t) (c : option string)
    : FileSearchResultModel.t :=
  FileSearchResultModel.mk (FileSearchResultModel.path r) (FileSearchResultModel.name r)
    (FileSearchResultModel.type r) (FileSearchResultModel.size r) c
    (FileSearchResultModel.sha r) (FileSearchResultModel.url r)
    (FileSearchResultModel.score r).

(** What [include_content] makes of the results [rs], from the world [w]
    on: one after the other, each result gets the text that [read_file]
    returns for its path, or no content when that read fails; every result
    stays in the list, in its place. *)
Inductive fetched `{PyLib} {World} (self : GitHubClient.t World)
    : list FileSearchResultModel.t -> World -> list FileSearchResultModel.t -> World -> Prop :=
| fetched_nil w : fetched self [] w [] w
| fetched_text r rs w text w1 rs' w' :
    GitHubClient.read_file self (FileSearchResultModel.path r)
      (Some (GitHubClient.default_ref self)) w = (Ok text, w1) ->
    fetched self rs w1 rs' w' ->
    fetched self (r :: rs) w (with_content r (Some text) :: rs') w'
| fetched_absent r rs w e w1 rs' w' :
    GitHubClient.read_file self (FileSearchResultModel.path r)
      (Some (GitHubClient.default_ref self)) w = (Raise e, w1) ->
    fetched self rs w1 rs' w' ->
    fetched self (r :: rs) w (with_content r None :: rs') w'.

(** ** Vocabulary of the further properties of the client *)

(** The fields of [GitHubFileContentModel] without a default. *)
Definition content_model_fields : list string :=
  ["type"; "encoding"; "content"; "sha"; "size"; "name"; "path"; "url"; "git_url"; "html_url"].

(** The extension as the two branches of [search_files] test it
    ([if opts.extension]): an empty string counts as no extension. *)
Definition effective_extension (opts : SearchOptions.t) : option string :=
  match SearchOptions.extension opts with
  | Some ext => if PyStr.truthy ext then Some ext else None
  | None => None
  end.

(** What a returned entry of a listing tells about the entry it was built
    from: an object with that name and path, tagged "file" exactly when its
    type is "file". *)
Inductive listed : json -> FileSearchResultModel.t -> Prop :=
| listed_entry (d : gmap string json) (r : FileSearchResultModel.t) :
    d !! "name" = Some (JStr (FileSearchResultModel.name r)) ->
    d !! "path" = Some (JStr (FileSearchResultModel.path r)) ->
    (FileSearchResultModel.type r = "file" /\ d !! "type" = Some (JStr "file")
     \/ FileSearchResultModel.type r = "directory" /\ d !! "type" <> Some (JStr "file")) ->
    FileSearchResultModel.content r = None ->
    FileSearchResultModel.score r = None ->
    listed (JObj d) r.

(** What a result of the tree search tells: it is a file named by the last
    segment of its path, scored by [_calculate_score], and its path passes
    the extension filter and the query test. *)
Record tree_hit `{PyLib} (query : string) (opts : SearchOptions.t)
    (r : FileSearchResultModel.t) : Prop := mkTreeHit {
  hit_type : FileSearchResultModel.type r = "file";
  hit_name : FileSearchResultModel.name r = file_name (FileSearchResultModel.path r);
  hit_score : FileSearchResultModel.score r
              = Some (int_to_float
                        (GitHubClient._calculate_score (FileSearchResultModel.path r)
                           (file_name (FileSearchResultModel.path r)) query));
  hit_selected : selectedb query (effective_extension opts) (FileSearchResultModel.path r)
                 = true;
}.

(** The entry of the tree a result was built from: a blob with that path. *)
Definition from_blob (items : list json) (r : FileSearchResultModel.t) : Prop :=
  exists d, In (JObj d) items
            /\ d !! "type" = Some (JStr "blob")
            /\ d !! "path" = Some (JStr (FileSearchResultModel.path r)).

(** What a result of the content search tells about the item it was built
    from: an object with that name and path; the result is a file without
    size. *)
Inductive search_hit : json -> FileSearchResultModel.t -> Prop :=
| search_hit_object (d : gmap string json) (r : FileSearchResultModel.t) :
    d !! "name" = Some (JStr (FileSearchResultModel.name r)) ->
    d !! "path" = Some (JStr (FileSearchResultModel.path r)) ->
    FileSearchResultModel.type r = "file" ->
    FileSearchResultModel.size r = None ->
    search_hit (JObj d) r.

(** The errors [read_file] can end with, each with what the provider did. *)
Inductive read_file_error `{PyLib} {World} (self : GitHubClient.t World) (path : string)
    (ref : option string) (w w' : World) : exn -> Prop :=
| error_not_found e :
    GitHubClient._gh self (contents_request self path) w = (Raise e, w') ->
    is_GraphQLException e = true ->
    read_file_error self path ref w w'
      (NotFound path (or_str ref (GitHubClient.default_ref self)))
| error_of_provider e :
    GitHubClient._gh self (contents_request self path) w = (Raise e, w') ->
    is_GraphQLException e = false ->
    read_file_error self path ref w w' e
| error_not_an_object data :
    GitHubClient._gh self (contents_request self path) w = (Ok data, w') ->
    (forall d, data <> JObj d) ->
    read_file_error self path ref w w' TypeError
| error_invalid_object d :
    GitHubClient._gh self (contents_request self path) w = (Ok (JObj d), w') ->
    GitHubFileContentModel.new (JObj d) = Raise ValidationError ->
    read_file_error self path ref w w' ValidationError
| error_not_a_file data f :
    GitHubClient._gh self (contents_request self path) w = (Ok data, w') ->
    GitHubFileContentModel.new data = Ok f ->
    GitHubFileContentModel.type f <> "file" ->
    read_file_error self path ref w w' (NotAFile path (GitHubFileContentModel.type f))
| error_encoding data f :
    GitHubClient._gh self (contents_request self path) w = (Ok data, w') ->
    GitHubFileContentModel.new data = Ok f ->
    GitHubFileContentModel.type f = "file" ->
    GitHubFileContentModel.encoding f <> "base64" ->
    read_file_error self path ref w w'
      (UnsupportedEncoding (GitHubFileContentModel.encoding f))
| error_not_ascii data f :
    GitHubClient._gh self (contents_request self path) w = (Ok data, w') ->
    GitHubFileContentModel.new data = Ok f ->
    GitHubFileContentModel.type f = "file" ->
    GitHubFileContentModel.encoding f = "base64" ->
    PyStr.isascii (GitHubFileContentModel.content f) = false ->
    read_file_error self path ref w w'
      (ValueError "string argument should contain only ASCII characters")
| error_base64 data f :
    GitHubClient._gh self (contents_request self path) w = (Ok data, w') ->
    GitHubFileContentModel.new data = Ok f ->
    GitHubFileContentModel.type f = "file" ->
    GitHubFileContentModel.encoding f = "base64" ->
    PyStr.isascii (GitHubFileContentModel.content f) = true ->
    b64decode (GitHubFileContentModel.content f) = None ->
    read_file_error self path ref w w' binascii_Error
| error_utf8 data f bytes :
    GitHubClient._gh self (contents_request self path) w = (Ok data, w') ->
    GitHubFileContentModel.new data = Ok f ->
    GitHubFileContentModel.type f = "file" ->
    GitHubFileContentModel.encoding f = "base64" ->
    PyStr.isascii (GitHubFileContentModel.content f) = true ->
    b64decode (GitHubFileContentModel.content f) = Some bytes ->
    decode_utf8 bytes = None ->
    read_file_error self path ref w w' UnicodeDecodeError.

(** ** config/__init__.py

    The state of the module is its global [_CONFIG].  [load] stands for the
    body of the [with] block of [load_config]: hydra's [initialize] and
    [compose], [OmegaConf.to_container] and [AppConfig.model_validate]. *)

Section Config.
Context {World : Type}.
Variable load : M World AppConfig.

(** [load_config]: the assignment [_CONFIG = config] sits in a function
    without a [global] declaration, so it binds a local name; the global is
    not written. *)
Definition load_config : M (option AppConfig * World) AppConfig :=
  fun gw =>
    match load (snd gw) with
    | (Ok config, w') =>
        let _CONFIG := config in
        (Ok _CONFIG, (fst gw, w'))
    | (Raise e, w') => (Raise e, (fst gw, w'))
    end.

(** [get_config] *)
Definition get_config : M (option AppConfig * World) AppConfig :=
  fun gw =>
    match fst gw with
    | None => load_config gw
    | Some _CONFIG => (Ok _CONFIG, gw)
    end.
End Config.

(** [n] calls in a row, up to the first that raises. *)
Fixpoint repeatedly {S A} (n : nat) (m : M S A) : M S (list A) :=
  match n with
  | O => ret []
  | S n' => let* a := m in let* rest := repeatedly n' m in ret (a :: rest)
  end.

(** ** A provider with a content search, for the examples *)

Module SampleSearch.

Definition hit (path name : string) : json :=
  Sample.obj [("name", JStr name); ("path", JStr path); ("sha", JStr ("sha-" +:+ name));
              ("url", JStr ("https://api.github.com/repos/o/r/contents/" +:+ path));
              ("score", JFloat (int_to_float 1))].

Definition hits : list json :=
  [hit "src/main.py" "main.py"; hit "README.md" "README.md"; hit "docs/readme.txt" "readme.txt"].

(** The provider answers the code search with three items whatever
    [per_page] asks for, and knows the contents of README.md only. *)
Definition github (req : request) : M nat json :=
  fun calls =>
    (if String.eqb (endpoint req) "/search/code"
     then Ok (Sample.obj [("total_count", JNum 3); ("incomplete_results", JBool false);
                          ("items", JArr hits)])
     else if String.eqb (endpoint req) "/repos/o/r/contents/README.md"
     then Ok (Sample.file_body "README.md" "README.md" "base64" "aGVsbG8=" 5)
     else Raise (ProviderError "not found"),
     S calls).

Definition client : GitHubClient.t nat := GitHubClient.mk "o" "r" None "main" github.

Definition results : list FileSearchResultModel.t :=
  [FileSearchResultModel.mk "src/main.py" "main.py" "file" None None (Some "sha-main.py")
     (Some "https://api.github.com/repos/o/r/contents/src/main.py") (Some (int_to_float 1));
   FileSearchResultModel.mk "README.md" "README.md" "file" None None (Some "sha-README.md")
     (Some "https://api.github.com/repos/o/r/contents/README.md") (Some (int_to_float 1));
   FileSearchResultModel.mk "docs/readme.txt" "readme.txt" "file" None None
     (Some "sha-readme.txt")
     (Some "https://api.github.com/repos/o/r/contents/docs/readme.txt")
     (Some (int_to_float 1))].

(** A configuration loader that counts how often it runs. *)
Definition load : M nat AppConfig := fun loads => (Ok Sample.conf, S loads).

End SampleSearch.

(** ** conmmand/reader.py *)

Section Reader.
Context `{PyLib} {World : Type}.
Variable GitHubAPI : string -> option string -> request -> M World json.
(** [print(content)] *)
Variable print : string -> M World unit.

(** [start_reader(cfg)]; [new] is called without [ref], which defaults to
    "main". *)
Definition start_reader (cfg : AppConfig) : M World unit :=
  let* code_source_service :=
    lift (CodeSourceService.new GitHubAPI cfg "github"
            "https://github.com/langchain-ai/langgraph/" "main") in
  let* content := CodeSourceService.read_file code_source_service "Makefile" in
  print content.
End Reader.
(* ####################################################################### *)
(** * Part II. Lemmas and theorems *)
(* ####################################################################### *)

(** ** The string tests decide the relations they stand for *)

Module PyStrFacts.
Import PyStr.

Lemma app_nil_l s : EmptyString +:+ s = s.
Proof. reflexivity. Qed.

Lemma app_String c s t : String c s +:+ t = String c (s +:+ t).
Proof. reflexivity. Qed.

Lemma app_nil_r s : s +:+ EmptyString = s.
Proof. induction s as [|c s IH]; [reflexivity|]. rewrite app_String, IH. reflexivity. Qed.

Lemma app_assoc a b c : (a +:+ b) +:+ c = a +:+ (b +:+ c).
Proof. induction a as [|x a IH]; [reflexivity|]. rewrite !app_String, IH. reflexivity. Qed.

Ltac norm := rewrite ?app_String, ?app_nil_l in *.

Lemma startswith_spec s q : startswith s q = true <-> is_prefix q s.
Proof.
  unfold is_prefix. revert s. induction q as [|c q IH]; intros s; simpl.
  - split; [intros _; exists s; reflexivity | reflexivity].
  - destruct s as [|d s].
    + split; [discriminate | intros [t Ht]; norm; discriminate].
    + destruct (Ascii.eqb_spec d c) as [->|Hne].
      * rewrite IH. split; intros [t Ht]; exists t; norm; congruence.
      * split; [discriminate | intros [t Ht]; norm; congruence].
Qed.

Lemma contains_spec q s : contains q s = true <-> is_substring q s.
Proof.
  unfold is_substring. split.
  - induction s as [|c s IH]; simpl.
    + destruct (startswith EmptyString q) eqn:E; [|discriminate].
      intros _. apply startswith_spec in E. destruct E as [t Ht].
      exists EmptyString, t. exact Ht.
    + destruct (startswith (String c s) q) eqn:E.
      * intros _. apply startswith_spec in E. destruct E as [t Ht].
        exists EmptyString, t. exact Ht.
      * intros Hs. destruct (IH Hs) as (a & b & ->).
        exists (String c a), b. reflexivity.
  - intros (a & b & ->). induction a as [|c a IH]; norm.
    + assert (E : startswith (q +:+ b) q = true)
        by (apply startswith_spec; exists b; reflexivity).
      destruct (q +:+ b); simpl; rewrite E; reflexivity.
    + simpl. rewrite IH. destruct (startswith _ q); reflexivity.
Qed.

Lemma endswith_spec s suf : endswith s suf = true <-> is_suffix suf s.
Proof.
  unfold is_suffix. split.
  - induction s as [|c s IH]; cbn [endswith].
    + destruct (String.eqb_spec EmptyString suf) as [<-|]; [|discriminate].
      intros _. exists EmptyString. reflexivity.
    + destruct (String.eqb_spec (String c s) suf) as [<-|].
      * intros _. exists EmptyString. reflexivity.
      * intros Hs. destruct (IH Hs) as [t ->]. exists (String c t). reflexivity.
  - intros [t ->]. induction t as [|c t IH]; norm.
    + destruct suf; cbn [endswith]; rewrite String.eqb_refl; reflexivity.
    + cbn [endswith]. rewrite IH. destruct (String.eqb _ suf); reflexivity.
Qed.

Lemma prefix_substring q s : is_prefix q s -> is_substring q s.
Proof. intros [t ->]. exists EmptyString, t. reflexivity. Qed.


Lemma count_nonneg c s : 0 <= count c s.
Proof. induction s as [|d s IH]; simpl; [lia|]. destruct (Ascii.eqb d c); lia. Qed.

Lemma split_nonempty sep s : split sep s <> [].
Proof.
  destruct s as [|d s]; simpl; [discriminate|].
  destruct (Ascii.eqb d sep); [discriminate|].
  destruct (split sep s); discriminate.
Qed.

(** [len(s.split(sep)) == s.count(sep) + 1] *)
Lemma split_length sep s : Z.of_nat (length (split sep s)) = count sep s + 1.
Proof.
  induction s as [|d s IH]; simpl; [reflexivity|].
  destruct (Ascii.eqb d sep); simpl length.
  - rewrite Nat2Z.inj_succ, IH. lia.
  - pose proof (split_nonempty sep s) as Hne.
    destruct (split sep s) as [|seg segs]; [contradiction|].
    simpl length in *. lia.
Qed.

End PyStrFacts.

(** ** The reversed stable sort *)

Section SortFacts.
Context {A : Type} (key : A -> Z).

Lemma insert_reverse_perm x l : Permutation (insert_reverse key x l) (x :: l).
Proof.
  induction l as [|y l IH]; simpl; [reflexivity|].
  destruct (key x <? key y); [|reflexivity].
  rewrite IH. apply perm_swap.
Qed.

Lemma sort_reverse_perm l : Permutation (sort_reverse key l) l.
Proof.
  induction l as [|x l IH]; simpl; [reflexivity|].
  rewrite insert_reverse_perm. now constructor.
Qed.

Lemma insert_reverse_descending x l :
  descending key l -> descending key (insert_reverse key x l).
Proof.
  unfold descending. induction 1 as [|y l Hl IH Hy]; simpl.
  - repeat constructor.
  - destruct (Z.ltb_spec (key x) (key y)) as [Hlt|Hge].
    + constructor; [exact IH|].
      eapply Permutation_Forall; [symmetry; apply insert_reverse_perm|].
      constructor; [lia | exact Hy].
    + constructor; [constructor; assumption|].
      constructor; [exact Hge|].
      eapply List.Forall_impl; [|exact Hy]. cbv beta. intros; lia.
Qed.

Lemma sort_reverse_descending l : descending key (sort_reverse key l).
Proof.
  induction l as [|x l IH]; simpl; [constructor|].
  now apply insert_reverse_descending.
Qed.





End SortFacts.

(** ** The sort of the client, and the floats that hold its scores *)

Section ListSort.
Context {A K : Type} (lt : K -> K -> bool) (key : A -> K).

Lemma list_insert_perm x l : Permutation (list_insert lt key x l) (x :: l).
Proof.
  induction l as [|y l IH]; cbn [list_insert]; [reflexivity|].
  destruct (lt (key x) (key y)); [|reflexivity].
  rewrite IH. apply perm_swap.
Qed.

Lemma list_sort_perm l : Permutation (list_sort lt key l) l.
Proof.
  induction l as [|x l IH]; cbn [list_sort]; [reflexivity|].
  rewrite list_insert_perm. now constructor.
Qed.

(** On a list whose keys [lt] compares as [<?] compares the integers
    [zkey], the sort is the stable descending sort by [zkey]. *)
Lemma list_insert_as_Z (zkey : A -> Z) x l :
  (forall y, In y l -> lt (key x) (key y) = (zkey x <? zkey y)) ->
  list_insert lt key x l = insert_reverse zkey x l.
Proof.
  induction l as [|y l IH]; intros Hl; [reflexivity|].
  cbn [list_insert insert_reverse]. rewrite (Hl y) by now left.
  rewrite IH by (intros z Hz; apply Hl; now right). reflexivity.
Qed.

Lemma list_sort_as_Z (zkey : A -> Z) l :
  (forall x y, In x l -> In y l -> lt (key x) (key y) = (zkey x <? zkey y)) ->
  list_sort lt key l = sort_reverse zkey l.
Proof.
  induction l as [|x l IH]; intros Hl; [reflexivity|].
  cbn [list_sort sort_reverse].
  rewrite IH by (intros a b Ha Hb; apply Hl; now right).
  apply list_insert_as_Z. intros y Hy. apply Hl; [now left|right].
  eapply Permutation_in; [apply sort_reverse_perm|exact Hy].
Qed.

End ListSort.



(** The integers from 0 to 125, by enumeration. *)
Lemma up_to_125 (P : Z -> bool) :
  forallb P (map Z.of_nat (seq 0 126)) = true -> forall n, 0 <= n <= 125 -> P n = true.
Proof.
  intros Hall n Hn. rewrite forallb_forall in Hall. apply Hall.
  apply in_map_iff. exists (Z.to_nat n). split; [lia|]. apply in_seq. lia.
Qed.

(** The floats of the integers from 0 to 125 are exact and ordered as the
    integers are. *)
Lemma float_as_int_small n : 0 <= n <= 125 -> float_as_int (int_to_float n) = Some n.
Proof.
  intros Hn.
  pose proof (up_to_125 (fun n => match float_as_int (int_to_float n) with
                                  | Some m => m =? n
                                  | None => false
                                  end) ltac:(vm_compute; reflexivity) n Hn) as E.
  cbv beta in E. destruct (float_as_int (int_to_float n)) as [m|]; [|discriminate].
  apply Z.eqb_eq in E. now subst.
Qed.

Lemma float_lt_small a b :
  0 <= a <= 125 -> 0 <= b <= 125 ->
  float_lt (int_to_float a) (int_to_float b) = (a <? b).
Proof.
  intros Ha Hb.
  pose proof (up_to_125
                (fun a => forallb (fun b => Bool.eqb (float_lt (int_to_float a) (int_to_float b))
                                               (a <? b))
                            (map Z.of_nat (seq 0 126)))
                ltac:(vm_compute; reflexivity) a Ha) as E.
  cbv beta in E.
  pose proof (up_to_125 _ E b Hb) as E'. cbv beta in E'. now apply Bool.eqb_prop in E'.
Qed.

Lemma or_zero_small n : 0 <= n <= 125 -> or_zero (Some (int_to_float n)) = int_to_float n.
Proof.
  intros Hn. cbn [or_zero].
  destruct (Z.eq_dec n 0) as [->|Hne]; [reflexivity|].
  pose proof (up_to_125 (fun n => (n =? 0) || float_truthy (int_to_float n))
                ltac:(vm_compute; reflexivity) n Hn) as E.
  cbv beta in E. apply orb_true_iff in E. destruct E as [E|E]; [lia|]. now rewrite E.
Qed.

Lemma score_in_range_small (r : FileSearchResultModel.t) n :
  0 <= n <= 125 -> FileSearchResultModel.score r = Some (int_to_float n) -> score_in_range r.
Proof.
  intros Hn Hs. exists n. split; [exact Hn|]. unfold score_key. rewrite Hs.
  now rewrite or_zero_small, float_as_int_small.
Qed.

Lemma score_in_range_none (r : FileSearchResultModel.t) :
  FileSearchResultModel.score r = None -> score_in_range r.
Proof.
  intros Hs. exists 0. split; [lia|]. unfold score_key. rewrite Hs. split; reflexivity.
Qed.

(** On results scored by the client, the sort of line 202 is the stable
    descending sort by the integer score. *)
Lemma list_sort_in_range (rs : list FileSearchResultModel.t) :
  Forall score_in_range rs ->
  list_sort float_lt (fun x => or_zero (FileSearchResultModel.score x)) rs
  = sort_reverse score_key rs.
Proof.
  intros Hall. apply list_sort_as_Z. intros x y Hx Hy.
  rewrite List.Forall_forall in Hall.
  destruct (Hall x Hx) as (a & Ha & -> & ->). destruct (Hall y Hy) as (b & Hb & -> & ->).
  now apply float_lt_small.
Qed.

(** ** Relevance scoring *)

Section Scoring.
Context `{PyLib}.
Import PyStr PyStrFacts.




Lemma extension_bonus_spec filename exts score :
  (exists ext, In ext exts /\ is_suffix ext filename
               /\ GitHubClient.extension_bonus filename exts score = score + 5)
  \/ ((forall ext, In ext exts -> ~ is_suffix ext filename)
      /\ GitHubClient.extension_bonus filename exts score = score).
Proof.
  induction exts as [|e exts IH]; simpl.
  - right. split; [intros ext []|reflexivity].
  - destruct (endswith filename e) eqn:E.
    + left. exists e. rewrite <- endswith_spec. auto.
    + destruct IH as [(ext & Hin & Hs & Heq)|[Hno Heq]].
      * left. exists ext. auto.
      * right. split; [|exact Heq].
        intros ext [<-|Hin]; [|now apply Hno].
        rewrite <- endswith_spec, E. discriminate.
Qed.

Lemma calculate_score_kind path filename query :
  exists k bonus,
    spec_kind (lower query) (lower filename) (lower path) k
    /\ spec_bonus filename bonus
    /\ GitHubClient._calculate_score path filename query
       = kind_points k + depth_bonus path + bonus.
Proof.
  unfold GitHubClient._calculate_score, depth_bonus.
  set (ql := lower query). set (fnl := lower filename). set (pl := lower path).
  assert (Hk : exists k, spec_kind ql fnl pl k /\
            (if String.eqb fnl ql then 0 + 100
             else if startswith fnl ql then 0 + 80
             else if contains ql fnl then 0 + 60
             else if contains ql pl then 0 + 40 else 0) = kind_points k).
  { destruct (String.eqb_spec fnl ql) as [He|Hne].
    { exists ExactName. split; [now constructor|reflexivity]. }
    destruct (startswith fnl ql) eqn:Ep.
    { exists NamePrefix. split; [|reflexivity].
      constructor; [exact Hne|now apply startswith_spec]. }
    assert (Hnp : ~ is_prefix ql fnl)
      by (rewrite <- startswith_spec, Ep; discriminate).
    destruct (contains ql fnl) eqn:Es.
    { exists NameSubstring. split; [|reflexivity].
      constructor; [exact Hnp|now apply contains_spec]. }
    assert (Hns : ~ is_substring ql fnl)
      by (rewrite <- contains_spec, Es; discriminate).
    destruct (contains ql pl) eqn:Eq.
    { exists PathSubstring. split; [|reflexivity].
      constructor; [exact Hns|now apply contains_spec]. }
    exists NoMatch. split; [|reflexivity].
    constructor; [exact Hns|]. rewrite <- contains_spec, Eq. discriminate. }
  destruct Hk as (k & Hk & ->). exists k.
  change GitHubClient.common_extensions with listed_extensions.
  match goal with
  | |- context [GitHubClient.extension_bonus ?f ?e ?s] =>
      destruct (extension_bonus_spec f e s) as [(ext & Hin & Hs & ->)|[Hno ->]]
  end.
  - exists 5. split; [exact Hk|]. split; [econstructor; eassumption|reflexivity].
  - exists 0. split; [exact Hk|]. split; [now constructor|lia].
Qed.

Lemma kind_points_bounds k : 0 <= kind_points k <= 100.
Proof. destruct k; cbn; lia. Qed.

Lemma spec_bonus_bounds filename b : spec_bonus filename b -> 0 <= b <= 5.
Proof. intros [ext _ _|_]; lia. Qed.

Lemma depth_bonus_bounds path : 0 <= depth_bonus path <= 20.
Proof. unfold depth_bonus. pose proof (count_nonneg "/" path). lia. Qed.

Lemma calculate_score_range path filename query :
  0 <= GitHubClient._calculate_score path filename query <= 125.
Proof.
  destruct (calculate_score_kind path filename query) as (k & b & _ & Hb & ->).
  pose proof (kind_points_bounds k). pose proof (spec_bonus_bounds _ _ Hb).
  pose proof (depth_bonus_bounds path). lia.
Qed.



End Scoring.



Example score_exact_py :
  @GitHubClient._calculate_score Sample.ascii_lib "src/app/Main.py" "Main.py" "main.PY" = 123.
Proof. reflexivity. Qed.

Example score_json_once :
  @GitHubClient._calculate_score Sample.ascii_lib "a/b/package.json" "package.json" "pack" = 103.
Proof. reflexivity. Qed.

Example score_deep_path_only :
  @GitHubClient._calculate_score Sample.ascii_lib
    "a/b/c/d/e/f/g/h/i/j/k/l/m/n/o/p/q/r/s/t/u/v/w/x" "x" "q/r" = 40.
Proof. reflexivity. Qed.

(** ** Reading a file *)

Section ReadFile.
Context `{PyLib} {World : Type}.
Implicit Types self : GitHubClient.t World.

(** [read_file] by cases on what the provider does. *)
Lemma read_file_cases self path ref w :
  GitHubClient.read_file self path ref w =
  match GitHubClient._gh self (contents_request self path) w with
  | (Raise e, w') =>
      (Raise (if is_GraphQLException e
              then NotFound path (or_str ref (GitHubClient.default_ref self))
              else e), w')
  | (Ok data, w') =>
      (match GitHubFileContentModel.new data with
       | Raise e => Raise e
       | Ok f =>
           if negb (String.eqb (GitHubFileContentModel.type f) "file")
           then Raise (NotAFile path (GitHubFileContentModel.type f))
           else if negb (String.eqb (GitHubFileContentModel.encoding f) "base64")
           then Raise (UnsupportedEncoding (GitHubFileContentModel.encoding f))
           else match base64_b64decode (GitHubFileContentModel.content f) with
                | Raise e => Raise e
                | Ok bytes =>
                    match decode_utf8 bytes with
                    | None => Raise UnicodeDecodeError
                    | Some text => Ok text
                    end
                end
       end, w')
  end.
Proof.
  unfold GitHubClient.read_file, contents_request, bind at 1, try_except.
  destruct (GitHubClient._gh self _ w) as [[data|e] w']; cbn [bind lift raise ret].
  - unfold bind at 1, lift.
    destruct (GitHubFileContentModel.new data) as [f|e]; [|reflexivity].
    destruct (negb (String.eqb (GitHubFileContentModel.type f) "file")); [reflexivity|].
    destruct (negb (String.eqb (GitHubFileContentModel.encoding f) "base64")); [reflexivity|].
    unfold bind, lift, or_raise, ret.
    destruct (base64_b64decode _) as [bytes|e]; [|reflexivity].
    destruct (decode_utf8 bytes); reflexivity.
  - destruct (is_GraphQLException e); reflexivity.
Qed.

(** What [base64.b64decode] gives, by cases on its argument. *)
Lemma b64decode_cases content :
  base64_b64decode content
  = if PyStr.isascii content
    then match b64decode content with
         | Some bytes => Ok bytes
         | None => Raise binascii_Error
         end
    else Raise (ValueError "string argument should contain only ASCII characters").
Proof. unfold base64_b64decode, or_raise. now destruct (b64decode content). Qed.

(** The path does not resolve (the provider raises what the client
    catches): NotFound. *)
Lemma read_file_not_found self path ref w w' :
  GitHubClient._gh self (contents_request self path) w = (Raise GraphQLException, w') ->
  GitHubClient.read_file self path ref w
  = (Raise (NotFound path (or_str ref (GitHubClient.default_ref self))), w').
Proof. intros E. rewrite read_file_cases, E. reflexivity. Qed.

(** The entry is described by an object whose type is not "file": NotAFile. *)
Lemma read_file_not_a_file self path ref w w' data f :
  GitHubClient._gh self (contents_request self path) w = (Ok data, w') ->
  GitHubFileContentModel.new data = Ok f ->
  GitHubFileContentModel.type f <> "file" ->
  GitHubClient.read_file self path ref w
  = (Raise (NotAFile path (GitHubFileContentModel.type f)), w').
Proof.
  intros E Ef Ht. rewrite read_file_cases, E, Ef.
  destruct (String.eqb_spec (GitHubFileContentModel.type f) "file"); [contradiction|reflexivity].
Qed.

(** A file in any encoding other than base64: UnsupportedEncoding. *)
Lemma read_file_unsupported_encoding self path ref w w' data f :
  GitHubClient._gh self (contents_request self path) w = (Ok data, w') ->
  GitHubFileContentModel.new data = Ok f ->
  GitHubFileContentModel.type f = "file" ->
  GitHubFileContentModel.encoding f <> "base64" ->
  GitHubClient.read_file self path ref w
  = (Raise (UnsupportedEncoding (GitHubFileContentModel.encoding f)), w').
Proof.
  intros E Ef Ht He. rewrite read_file_cases, E, Ef, Ht. cbn [String.eqb negb].
  change (String.eqb "file" "file") with true. cbn [negb].
  destruct (String.eqb_spec (GitHubFileContentModel.encoding f) "base64");
    [contradiction|reflexivity].
Qed.

(** Success returns the decoded text, and only for base64 content of a file. *)
Lemma read_file_success self path ref w w' text :
  GitHubClient.read_file self path ref w = (Ok text, w') <->
  exists data f bytes,
    GitHubClient._gh self (contents_request self path) w = (Ok data, w')
    /\ GitHubFileContentModel.new data = Ok f
    /\ GitHubFileContentModel.type f = "file"
    /\ GitHubFileContentModel.encoding f = "base64"
    /\ PyStr.isascii (GitHubFileContentModel.content f) = true
    /\ b64decode (GitHubFileContentModel.content f) = Some bytes
    /\ decode_utf8 bytes = Some text.
Proof.
  rewrite read_file_cases. split.
  - destruct (GitHubClient._gh self _ w) as [[data|e] w1]; [|intros [=]].
    destruct (GitHubFileContentModel.new data) as [f|e] eqn:Ef; [|intros [=]].
    destruct (String.eqb_spec (GitHubFileContentModel.type f) "file") as [Ht|];
      cbn [negb]; [|intros [=]].
    destruct (String.eqb_spec (GitHubFileContentModel.encoding f) "base64") as [He|];
      cbn [negb]; [|intros [=]].
    rewrite b64decode_cases.
    destruct (PyStr.isascii _) eqn:Ea; [|intros [=]].
    destruct (b64decode _) as [bytes|] eqn:Eb; [|intros [=]].
    destruct (decode_utf8 bytes) as [t|] eqn:Ed; [|intros [=]].
    intros [= -> ->]. exists data, f, bytes. repeat split; assumption.
  - intros (data & f & bytes & -> & -> & -> & -> & Ea & Eb & Ed).
    rewrite b64decode_cases, Ea, Eb, Ed. reflexivity.
Qed.

(** A directory answered as a listing (a JSON array, the shape that
    [get_directory_structure] handles) is not a mapping: building the
    model raises [TypeError] before the type is looked at. *)
Lemma read_file_listing self path ref w w' items :
  GitHubClient._gh self (contents_request self path) w = (Ok (JArr items), w') ->
  GitHubClient.read_file self path ref w = (Raise TypeError, w').
Proof. intros E. rewrite read_file_cases, E. reflexivity. Qed.

End ReadFile.

(** The request is the same whatever [ref] is: a provider that logs its
    requests sees the contents endpoint of the path, without parameters. *)
Lemma read_file_request `{PyLib} {World} (self : GitHubClient.t World) path ref log w :
  fst (snd (GitHubClient.read_file (with_provider self (recording (GitHubClient._gh self)))
              path ref (log, w)))
  = log ++ [contents_request self path].
Proof.
  rewrite read_file_cases. unfold with_provider, recording, contents_request.
  cbn [GitHubClient._gh GitHubClient.owner GitHubClient.repo snd fst].
  destruct (GitHubClient._gh self _ w) as [[data|e] w1]; reflexivity.
Qed.

(** C10 (as amended).  Whatever [ref] is, [read_file] sends the same single
    request (the contents endpoint of the path, no parameters), leaves the
    same world, returns the same text when it returns, and fails with the
    same exception when it fails, except that the message of the NotFound
    error quotes the defaulted [ref]. *)
Theorem read_file_ignores_ref `{PyLib} {World} (self : GitHubClient.t World)
    (path : string) (ref1 ref2 : option string) (w : World) :
  (forall log,
      fst (snd (GitHubClient.read_file
                  (with_provider self (recording (GitHubClient._gh self)))
                  path ref1 (log, w)))
      = log ++ [contents_request self path]
      /\ fst (snd (GitHubClient.read_file
                     (with_provider self (recording (GitHubClient._gh self)))
                     path ref2 (log, w)))
         = log ++ [contents_request self path])
  /\ snd (GitHubClient.read_file self path ref1 w)
     = snd (GitHubClient.read_file self path ref2 w)
  /\ (fst (GitHubClient.read_file self path ref1 w)
      = fst (GitHubClient.read_file self path ref2 w)
      \/ (fst (GitHubClient.read_file self path ref1 w)
          = Raise (NotFound path (or_str ref1 (GitHubClient.default_ref self)))
          /\ fst (GitHubClient.read_file self path ref2 w)
             = Raise (NotFound path (or_str ref2 (GitHubClient.default_ref self)))))
  /\ (forall text,
         fst (GitHubClient.read_file self path ref1 w) = Ok text
         <-> fst (GitHubClient.read_file self path ref2 w) = Ok text).
Proof.
  split; [intros log; split; apply read_file_request|].
  rewrite !read_file_cases.
  destruct (GitHubClient._gh self _ w) as [[data|e] w1]; cbn [fst snd].
  - split; [reflexivity|]. split; [left; reflexivity|]. tauto.
  - split; [reflexivity|]. destruct (is_GraphQLException e).
    + split; [right; split; reflexivity|]. split; intros [=].
    + split; [left; reflexivity|]. tauto.
Qed.

Section Examples.
#[local] Existing Instance Sample.ascii_lib.

Example b64_hello : Sample.b64decode_std "aGVsbG8=" = Some "hello".
Proof. reflexivity. Qed.

Example urlparse_langgraph :
  Sample.urlparse_simple "https://github.com/langchain-ai/langgraph/"
  = mkParseResult "https" "github.com" "/langchain-ai/langgraph/" "" "" "".
Proof. reflexivity. Qed.

Example read_readme :
  GitHubClient.read_file Sample.client "README.md" None 0%nat = (Ok "hello", 1%nat).
Proof. reflexivity. Qed.

Example read_missing :
  GitHubClient.read_file Sample.client "missing.txt" None 0%nat
  = (Raise (NotFound "missing.txt" "main"), 1%nat).
Proof. reflexivity. Qed.

Example read_unencoded :
  GitHubClient.read_file Sample.client "big.bin" (Some "v1") 0%nat
  = (Raise (UnsupportedEncoding "none"), 1%nat).
Proof. reflexivity. Qed.

(** C10, the claim as stated fails: for a path the provider does not know,
    two revisions give two different errors. *)
Lemma read_file_not_found_quotes_ref :
  fst (GitHubClient.read_file Sample.client "missing.txt" (Some "v1") 0%nat)
  <> fst (GitHubClient.read_file Sample.client "missing.txt" (Some "v2") 0%nat).
Proof. vm_compute. intros [=]. Qed.

(** C1, at the directory [src] of the sample repository: the provider
    answers the contents request with a listing, and [read_file] raises
    [TypeError], not the "is not a file" error. *)
Theorem read_file_directory_raises_TypeError :
  GitHubClient._gh Sample.client (contents_request Sample.client "src") 0%nat
  = (Ok Sample.src_listing, 1%nat)
  /\ GitHubClient.get_directory_structure Sample.client "src" None 0%nat
     = (Ok [FileSearchResultModel.mk "src/main.py" "main.py" "file" (Some 10) None
              (Some "sha-main.py")
              (Some "https://api.github.com/repos/o/r/contents/src/main.py") None;
            FileSearchResultModel.mk "src/util" "util" "directory" (Some 0) None
              (Some "sha-util") None None], 1%nat)
  /\ GitHubClient.read_file Sample.client "src" None 0%nat = (Raise TypeError, 1%nat)
  /\ forall m, GitHubClient.read_file Sample.client "src" None 0%nat
               <> (Raise (ValueError m), 1%nat).
Proof.
  split; [reflexivity|]. split; [vm_compute; reflexivity|].
  split; [reflexivity|]. intros m. vm_compute. intros [=].
Qed.

End Examples.

(** ** Search options *)

Lemma extension_check_ok extension :
  extension_ok extension ->
  SearchOptions.extension_must_start_with_dot extension = Ok extension.
Proof.
  destruct extension as [e|]; [|reflexivity]. cbn [extension_ok].
  intros Hp. apply PyStrFacts.startswith_spec in Hp.
  unfold SearchOptions.extension_must_start_with_dot. rewrite Hp. reflexivity.
Qed.

Lemma extension_check_fails extension :
  ~ extension_ok extension ->
  exists m, SearchOptions.extension_must_start_with_dot extension = Raise (ValueError m).
Proof.
  destruct extension as [e|]; cbn [extension_ok]; [|tauto].
  intros Hp. rewrite <- PyStrFacts.startswith_spec in Hp.
  unfold SearchOptions.extension_must_start_with_dot.
  destruct (PyStr.startswith e "."); [congruence|]. eauto.
Qed.

Lemma extension_ok_dec extension : extension_ok extension \/ ~ extension_ok extension.
Proof.
  destruct extension as [e|]; cbn [extension_ok]; [|tauto].
  rewrite <- PyStrFacts.startswith_spec. destruct (PyStr.startswith e "."); [tauto|].
  right. discriminate.
Qed.

(** C5.  Constructing the options succeeds, with the values given, exactly
    when the extension is absent or starts with '.' and [max_results] is at
    least 1; in every other case it fails with the validation error. *)
Theorem search_options_validation (extension : option string) (max_results : Z)
    (include_content search_in_content : bool) :
  (SearchOptions.new extension max_results include_content search_in_content
   = Ok (SearchOptions.mk extension max_results include_content search_in_content)
   <-> extension_ok extension /\ 1 <= max_results)
  /\ (SearchOptions.new extension max_results include_content search_in_content
      = Raise ValidationError
      <-> ~ extension_ok extension \/ max_results < 1).
Proof.
  unfold SearchOptions.new.
  destruct (extension_ok_dec extension) as [Hok|Hbad].
  - rewrite (extension_check_ok _ Hok).
    destruct (Z.geb_spec max_results 1) as [Hge|Hlt].
    + split; split; try tauto; try (intros [=]). intros [?|?]; [contradiction|lia].
    + split; split; try tauto; try (intros [=]). intros [_ ?]. lia.
  - destruct (extension_check_fails _ Hbad) as [m ->].
    split; split; try tauto. intros [=].
Qed.

Example options_without_dot : SearchOptions.new (Some "py") 10 false false = Raise ValidationError.
Proof. reflexivity. Qed.

Example options_empty_extension : SearchOptions.new (Some "") 10 false false = Raise ValidationError.
Proof. reflexivity. Qed.

Example options_zero_results : SearchOptions.new (Some ".py") 0 false false = Raise ValidationError.
Proof. reflexivity. Qed.

Example options_defaults :
  SearchOptions.new None 100 false false = Ok (SearchOptions.mk None 100 false false).
Proof. reflexivity. Qed.

(** ** Feedback *)

Lemma optional_str_inj o o' : optional_str o = optional_str o' -> o = o'.
Proof. destruct o, o'; cbn; congruence. Qed.

(** C9 (as amended).  A feedback object is an object of one of four
    dataclasses.  Its construction enforces only that the arguments
    without default are given: the tag [action] for every class (Finish
    too), the reason for Reject, the new understanding for Refine; it
    raises [TypeError] otherwise, and it raises nothing else.  What is
    given is stored as it is, whatever its value, and what is left out is
    [None].  Every Feedback of the specification is built by the
    constructor of its class from its tag and its payload, and an object
    stands for at most one Feedback. *)
Theorem feedback_construction :
  (forall action reason,
      (forall f, UserFeedbackAccept.init action reason = Ok f <->
                 exists tag, action = Given tag
                             /\ f = UserFeedbackAccept.mk tag (defaulted reason JNull))
      /\ (action = Missing <-> UserFeedbackAccept.init action reason = Raise TypeError))
  /\ (forall action reason,
         (forall f, UserFeedbackReject.init action reason = Ok f <->
                    exists tag value, action = Given tag /\ reason = Given value
                                      /\ f = UserFeedbackReject.mk tag value)
         /\ (action = Missing \/ reason = Missing
             <-> UserFeedbackReject.init action reason = Raise TypeError))
  /\ (forall action understanding reason next,
         (forall f, UserFeedbackRefine.init action understanding reason next = Ok f <->
                    exists tag value, action = Given tag /\ understanding = Given value
                                      /\ f = UserFeedbackRefine.mk tag value
                                               (defaulted reason JNull)
                                               (defaulted next JNull))
         /\ (action = Missing \/ understanding = Missing
             <-> UserFeedbackRefine.init action understanding reason next = Raise TypeError))
  /\ (forall action,
         (forall f, UserFeedbackFinish.init action = Ok f <->
                    exists tag, action = Given tag /\ f = UserFeedbackFinish.mk tag)
         /\ (action = Missing <-> UserFeedbackFinish.init action = Raise TypeError))
  /\ (forall fb : Feedback,
         exists obj,
           stands_for obj fb
           /\ match fb with
              | Accept note =>
                  exists f, obj = IsAccept f
                            /\ UserFeedbackAccept.init (Given (JStr "accept"))
                                 (match note with
                                  | Some n => Given (JStr n)
                                  | None => Missing
                                  end) = Ok f
              | Reject reason =>
                  exists f, obj = IsReject f
                            /\ UserFeedbackReject.init (Given (JStr "reject"))
                                 (Given (JStr reason)) = Ok f
              | Refine understanding reason next =>
                  exists f, obj = IsRefine f
                            /\ UserFeedbackRefine.init (Given (JStr "refine"))
                                 (Given (JStr understanding))
                                 (Given (optional_str reason)) (Given (optional_str next))
                               = Ok f
              | Finish =>
                  exists f, obj = IsFinish f
                            /\ UserFeedbackFinish.init (Given (JStr "finish")) = Ok f
              end)
  /\ (forall obj fb fb', stands_for obj fb -> stands_for obj fb' -> fb = fb').
Proof.
  split; [|split; [|split; [|split; [|split]]]].
  - intros [tag|] reason; (split; [intros f; split|split]); cbn; try discriminate.
    + intros [= <-]. eauto.
    + intros (tag' & [= <-] & ->). reflexivity.
    + intros (tag' & [=] & _).
    + reflexivity.
    + reflexivity.
  - intros [tag|] [value|]; (split; [intros f; split|split]); cbn; try discriminate;
      try reflexivity; try tauto;
      try (intros [= <-]; eauto);
      try (intros (tag' & value' & E1 & E2 & E3); congruence);
      try (intros [E|E]; discriminate E).
  - intros [tag|] [value|] reason next; (split; [intros f; split|split]); cbn;
      try discriminate; try reflexivity; try tauto;
      try (intros [= <-]; eauto);
      try (intros (tag' & value' & E1 & E2 & E3); congruence);
      try (intros [E|E]; discriminate E).
  - intros [tag|]; (split; [intros f; split|split]); cbn; try discriminate;
      try reflexivity;
      try (intros [= <-]; eauto);
      try (intros (tag' & E1 & E2); congruence).
  - intros [note|reason|understanding reason next|].
    + eexists. split; [apply (stands_for_accept note)|].
      eexists. split; [reflexivity|]. now destruct note.
    + eexists. split; [apply (stands_for_reject reason)|]. eauto.
    + eexists. split; [apply (stands_for_refine understanding reason next)|]. eauto.
    + eexists. split; [apply stands_for_finish|]. eauto.
  - intros obj fb fb' H1 H2. destruct H1; inversion H2; subst;
      repeat match goal with
             | E : optional_str _ = optional_str _ |- _ => apply optional_str_inj in E; subst
             end; reflexivity.
Qed.

(** C9, the claim as stated fails: the constructor of the Accept class
    builds an object whose tag is "finish" and whose note is the number
    42; it has none of the four shapes. *)
Lemma feedback_payload_not_enforced :
  exists f,
    UserFeedbackAccept.init (Given (JStr "finish")) (Given (JNum 42)) = Ok f
    /\ feedback_tag (IsAccept f) = JStr "finish"
    /\ forall fb, ~ stands_for (IsAccept f) fb.
Proof.
  eexists. split; [reflexivity|]. split; [reflexivity|].
  intros fb Hfb. inversion Hfb.
Qed.

(** ** The code-source service *)

(** Facts about [lstrip], [rstrip], [strip] and [split] with one
    separator. *)
Lemma lstrip_no_leading c s :
  PyStr.startswith (PyStr.lstrip c s) (String c EmptyString) = false.
Proof.
  induction s as [|d s IH]; [reflexivity|]. cbn [PyStr.lstrip].
  destruct (Ascii.eqb d c) eqn:E; [exact IH|]. cbn [PyStr.startswith]. now rewrite E.
Qed.

Module FileNameFacts.
Import PyStr PyStrFacts.

Lemma split_singleton sep s seg : split sep s = [seg] -> seg = s.
Proof.
  revert seg. induction s as [|d s IH]; intros seg; cbn [split].
  - now intros [= <-].
  - destruct (Ascii.eqb d sep).
    + intros [= _ Hs]. now apply split_nonempty in Hs.
    + destruct (split sep s) as [|seg' segs] eqn:Es; [now apply split_nonempty in Es|].
      intros [= <- ->]. now rewrite (IH seg' eq_refl).
Qed.

Lemma split_no_sep sep s : count sep s = 0 -> split sep s = [s].
Proof.
  intros Hc. pose proof (split_length sep s) as Hl. rewrite Hc in Hl.
  destruct (split sep s) as [|seg [|seg' segs]] eqn:Es; cbn [length] in Hl; try lia.
  now rewrite (split_singleton _ _ _ Es).
Qed.

Lemma last_cons_nonempty {A} (x : A) l dflt : l <> [] -> List.last (x :: l) dflt = List.last l dflt.
Proof. destruct l; [contradiction|reflexivity]. Qed.

Lemma file_name_after_slash s : file_name (String "/" s) = file_name s.
Proof.
  unfold file_name. cbn [split]. change (Ascii.eqb "/" "/") with true. cbv iota.
  apply last_cons_nonempty, split_nonempty.
Qed.

Lemma file_name_cons d s :
  Ascii.eqb d "/" = false ->
  file_name (String d s) = if count "/" s =? 0 then String d s else file_name s.
Proof.
  intros Hd. unfold file_name. cbn [split]. rewrite Hd.
  pose proof (split_length "/" s) as Hl.
  destruct (split "/" s) as [|seg segs] eqn:Es; [now apply split_nonempty in Es|].
  destruct segs as [|seg' segs].
  - cbn [length] in Hl. replace (count "/" s) with 0 by lia. cbn.
    now rewrite (split_singleton _ _ _ Es).
  - cbn [length] in Hl. destruct (Z.eqb_spec (count "/" s) 0); [lia|]. reflexivity.
Qed.

Lemma file_name_no_slash s : count "/" s = 0 -> file_name s = s.
Proof. intros Hc. unfold file_name. now rewrite (split_no_sep _ _ Hc). Qed.

Lemma count_app c a b : count c (a +:+ b) = count c a + count c b.
Proof.
  induction a as [|d a IH]; [reflexivity|]. rewrite app_String. cbn [count]. rewrite IH. lia.
Qed.

End FileNameFacts.

Module SegmentFacts.
Import PyStr PyStrFacts.

Lemma lstrip_head c s :
  lstrip c s = EmptyString
  \/ exists d t, lstrip c s = String d t /\ Ascii.eqb d c = false.
Proof.
  induction s as [|d s IH]; [now left|]. cbn [lstrip].
  destruct (Ascii.eqb d c) eqn:E; [exact IH|]. right. eauto.
Qed.

Lemma rstrip_head c d t :
  Ascii.eqb d c = false -> exists t', rstrip c (String d t) = String d t'.
Proof.
  intros E. cbn [rstrip]. destruct (rstrip c t); [rewrite E|]; eauto.
Qed.

Lemma strip_head c s :
  strip c s = EmptyString
  \/ exists d t, strip c s = String d t /\ Ascii.eqb d c = false.
Proof.
  unfold strip. destruct (lstrip_head c s) as [->|(d & t & -> & E)]; [now left|].
  right. destruct (rstrip_head c d t E) as [t' ->]. eauto.
Qed.

Lemma split_head sep d t :
  Ascii.eqb d sep = false -> exists seg segs, split sep (String d t) = String d seg :: segs.
Proof.
  intros E. cbn [split]. rewrite E. destruct (split sep t); eauto.
Qed.

Lemma split_segments sep s : Forall (fun seg => count sep seg = 0) (split sep s).
Proof.
  induction s as [|d s IH]; cbn [split]; [repeat constructor|].
  destruct (Ascii.eqb d sep) eqn:E; [constructor; [reflexivity|exact IH]|].
  destruct (split sep s) as [|seg segs]; [repeat constructor; cbn; rewrite E; reflexivity|].
  apply List.Forall_cons_iff in IH. destruct IH as [Hseg Hsegs].
  constructor; [|exact Hsegs]. cbn [count]. rewrite E. lia.
Qed.

(** The first segment of a stripped path with at least two segments is not
    empty. *)
Lemma segments_head url_path owner rest :
  segments url_path = owner :: rest -> rest <> [] -> owner <> EmptyString.
Proof.
  unfold segments. destruct (strip_head "/" url_path) as [->|(d & t & -> & E)].
  - cbn. intros [= <- <-]. contradiction.
  - destruct (split_head "/" d t E) as (seg & segs & ->). intros [= <- _] _. discriminate.
Qed.

End SegmentFacts.

Module StripFacts.
Import PyStr PyStrFacts.

Lemma lstrip_slashes lead s : only_slashes lead = true -> lstrip "/" (lead +:+ s) = lstrip "/" s.
Proof.
  induction lead as [|c lead IH]; [now rewrite app_nil_l|].
  cbn [only_slashes]. intros Hl. apply andb_true_iff in Hl. destruct Hl as [Hc Hl].
  rewrite app_String. cbn [lstrip]. rewrite Hc. now apply IH.
Qed.

Lemma lstrip_not_slash s : startswith s "/" = false -> lstrip "/" s = s.
Proof.
  destruct s as [|c s]; [reflexivity|]. cbn [startswith lstrip].
  destruct (Ascii.eqb c "/"); [discriminate|reflexivity].
Qed.

Lemma rstrip_only_slashes t : only_slashes t = true -> rstrip "/" t = EmptyString.
Proof.
  induction t as [|c t IH]; [reflexivity|]. cbn [only_slashes rstrip].
  intros Hl. apply andb_true_iff in Hl. destruct Hl as [Hc Hl]. rewrite (IH Hl), Hc. reflexivity.
Qed.

Lemma rstrip_slashes s trail :
  only_slashes trail = true -> rstrip "/" (s +:+ trail) = rstrip "/" s.
Proof.
  intros Ht. induction s as [|c s IH].
  - rewrite app_nil_l. now apply rstrip_only_slashes.
  - rewrite app_String. cbn [rstrip]. now rewrite IH.
Qed.

Lemma endswith_cons d s :
  endswith (String d s) "/" = if String.eqb (String d s) "/" then true else endswith s "/".
Proof. reflexivity. Qed.

Lemma rstrip_not_slash s : endswith s "/" = false -> rstrip "/" s = s.
Proof.
  induction s as [|d s IH]; [reflexivity|].
  rewrite endswith_cons. destruct s as [|e s].
  - cbn [String.eqb rstrip]. destruct (Ascii.eqb d "/"); [discriminate|reflexivity].
  - replace (String.eqb (String d (String e s)) "/") with false
      by (cbn [String.eqb]; now destruct (Ascii.eqb d "/")).
    intros He. cbn [rstrip] in *. rewrite (IH He). reflexivity.
Qed.

Lemma strip_trimmed lead core trail :
  only_slashes lead = true -> only_slashes trail = true ->
  startswith core "/" = false -> endswith core "/" = false ->
  strip "/" (lead +:+ core +:+ trail) = core.
Proof.
  intros Hl Ht Hs He. unfold strip. rewrite lstrip_slashes by exact Hl.
  destruct core as [|c core].
  - rewrite app_nil_l.
    assert (E : lstrip "/" trail = EmptyString).
    { clear -Ht. induction trail as [|c t IH]; [reflexivity|]. cbn [only_slashes lstrip] in *.
      apply andb_true_iff in Ht. destruct Ht as [-> Ht]. now apply IH. }
    now rewrite E.
  - rewrite lstrip_not_slash.
    + rewrite rstrip_slashes by exact Ht. now apply rstrip_not_slash.
    + rewrite app_String. cbn [startswith] in *. destruct (Ascii.eqb c "/"); [discriminate|reflexivity].
Qed.

Lemma lstrip_decomp s : exists lead, s = lead +:+ lstrip "/" s /\ only_slashes lead = true.
Proof.
  induction s as [|c s IH]; [exists EmptyString; split; reflexivity|].
  cbn [lstrip]. destruct (Ascii.eqb c "/") eqn:E.
  - destruct IH as (lead & Hs & Hl). exists (String c lead). rewrite app_String.
    split; [congruence|]. cbn [only_slashes]. now rewrite E, Hl.
  - exists EmptyString. split; reflexivity.
Qed.

Lemma rstrip_decomp s : exists trail, s = rstrip "/" s +:+ trail /\ only_slashes trail = true.
Proof.
  induction s as [|c s IH]; [exists EmptyString; split; reflexivity|].
  cbn [rstrip]. destruct IH as (trail & Hs & Ht).
  destruct (rstrip "/" s) as [|e r] eqn:Er.
  - rewrite app_nil_l in Hs. subst s. destruct (Ascii.eqb c "/") eqn:E.
    + exists (String c trail). rewrite app_nil_l. split; [reflexivity|].
      cbn [only_slashes]. now rewrite E, Ht.
    + exists trail. split; [reflexivity|exact Ht].
  - exists trail. rewrite app_String. split; [congruence|exact Ht].
Qed.

Lemma rstrip_no_trailing s : endswith (rstrip "/" s) "/" = false.
Proof.
  induction s as [|c s IH]; [reflexivity|]. cbn [rstrip].
  destruct (rstrip "/" s) as [|e r] eqn:Er.
  - destruct (Ascii.eqb c "/") eqn:E; [reflexivity|].
    rewrite endswith_cons. cbn [String.eqb]. rewrite E. reflexivity.
  - rewrite endswith_cons.
    replace (String.eqb (String c (String e r)) "/") with false
      by (cbn [String.eqb]; now destruct (Ascii.eqb c "/")).
    exact IH.
Qed.

Lemma rstrip_keeps_head s : startswith s "/" = false -> startswith (rstrip "/" s) "/" = false.
Proof.
  destruct s as [|c s]; [reflexivity|]. cbn [startswith rstrip].
  destruct (Ascii.eqb c "/") eqn:E; [discriminate|]. intros _.
  destruct (rstrip "/" s); rewrite E; reflexivity.
Qed.

Lemma strip_decomp s :
  exists lead trail,
    s = lead +:+ strip "/" s +:+ trail
    /\ only_slashes lead = true /\ only_slashes trail = true
    /\ startswith (strip "/" s) "/" = false /\ endswith (strip "/" s) "/" = false.
Proof.
  unfold strip. destruct (lstrip_decomp s) as (lead & Hs & Hl).
  destruct (rstrip_decomp (lstrip "/" s)) as (trail & Hr & Ht).
  exists lead, trail. split; [congruence|]. split; [exact Hl|]. split; [exact Ht|].
  split; [apply rstrip_keeps_head, lstrip_no_leading|apply rstrip_no_trailing].
Qed.

Lemma split_app_sep sep a b :
  count sep a = 0 -> split sep (a +:+ String sep b) = a :: split sep b.
Proof.
  induction a as [|c a IH]; intros Hc.
  - rewrite app_nil_l. cbn [split]. now rewrite Ascii.eqb_refl.
  - rewrite app_String. cbn [count] in Hc. cbn [split].
    pose proof (count_nonneg sep a).
    destruct (Ascii.eqb c sep); [lia|]. rewrite IH by lia. reflexivity.
Qed.

Lemma split_cons_inv sep s a rest :
  split sep s = a :: rest -> rest <> [] ->
  exists t, s = a +:+ String sep t /\ split sep t = rest.
Proof.
  revert a rest. induction s as [|c s IH]; intros a rest; cbn [split].
  - intros [= <- <-] Hr. contradiction.
  - destruct (Ascii.eqb c sep) eqn:E.
    + intros [= <- <-] _. apply Ascii.eqb_eq in E. subst c. exists s.
      rewrite app_nil_l. split; reflexivity.
    + destruct (split sep s) as [|seg segs] eqn:Es; [intros [= <- <-] Hr; contradiction|].
      intros [= <- <-] Hr. destruct (IH seg segs eq_refl Hr) as (t & -> & Ht).
      exists t. rewrite app_String. split; [reflexivity|exact Ht].
Qed.

Lemma between_slashes_strip url_path core :
  between_slashes url_path core <-> core = strip "/" url_path.
Proof.
  split.
  - intros (lead & trail & -> & Hl & Ht & Hs & He). symmetry. now apply strip_trimmed.
  - intros ->. destruct (strip_decomp url_path) as (lead & trail & Hs & Hl & Ht & H1 & H2).
    exists lead, trail. auto.
Qed.

Lemma startswith_slash t : startswith t "/" = true -> exists t', t = String "/" t'.
Proof.
  destruct t as [|c t]; cbn [startswith]; [discriminate|].
  destruct (Ascii.eqb_spec c "/") as [->|]; [eauto|discriminate].
Qed.

Lemma names_segments url_path owner repo :
  names url_path owner repo <-> exists rest, segments url_path = owner :: repo :: rest.
Proof.
  unfold segments. split.
  - intros (core & tail & Hcore & -> & Ho & Hr & Htail).
    apply between_slashes_strip in Hcore. rewrite <- Hcore.
    change ("/" +:+ repo +:+ tail) with (String "/" (repo +:+ tail)).
    rewrite split_app_sep by exact Ho.
    destruct Htail as [->|Htail].
    + rewrite app_nil_r, (FileNameFacts.split_no_sep _ _ Hr). eauto.
    + apply startswith_slash in Htail. destruct Htail as [t ->].
      rewrite split_app_sep by exact Hr. eauto.
  - intros [rest Hs].
    pose proof (SegmentFacts.split_segments "/" (strip "/" url_path)) as Hall.
    rewrite Hs in Hall.
    apply List.Forall_cons_iff in Hall. destruct Hall as [Ho Hall].
    apply List.Forall_cons_iff in Hall. destruct Hall as [Hr _].
    destruct (split_cons_inv _ _ _ _ Hs ltac:(discriminate)) as (t & Hcore & Ht).
    assert (Htail : exists tail, t = repo +:+ tail
                                 /\ (tail = EmptyString \/ startswith tail "/" = true)).
    { destruct rest as [|x rest].
      - apply FileNameFacts.split_singleton in Ht. subst t. exists EmptyString.
        rewrite app_nil_r. auto.
      - destruct (split_cons_inv _ _ _ _ Ht ltac:(discriminate)) as (t' & -> & _).
        exists (String "/" t'). split; [reflexivity|]. right. reflexivity. }
    destruct Htail as (tail & -> & Htail).
    exists (strip "/" url_path), tail. split; [now apply between_slashes_strip|].
    split; [exact Hcore|]. auto.
Qed.

Lemma single_segment_segments url_path :
  single_segment url_path <-> (length (segments url_path) < 2)%nat.
Proof.
  unfold segments. split.
  - intros (core & Hcore & Hc). apply between_slashes_strip in Hcore. subst core.
    rewrite (FileNameFacts.split_no_sep _ _ Hc). cbn. lia.
  - intros Hl. exists (strip "/" url_path). split; [now apply between_slashes_strip|].
    pose proof (split_length "/" (strip "/" url_path)).
    pose proof (count_nonneg "/" (strip "/" url_path)). lia.
Qed.

End StripFacts.

Section ServiceFacts.
Context `{PyLib} {World : Type}.
Variable GitHubAPI : string -> option string -> request -> M World json.

(** C8 (as amended).  For a URL that parses: when its network location
    (the authority as written) is not "github.com" the constructor raises
    the "Invalid github url" ValueError; when it is, the service is built
    for an owner and a repository exactly when, between the slashes at the
    two ends of the path, the path is that owner, a '/', that repository
    and then nothing or a '/' and more (the repository is empty when a
    second '/' follows at once), and the "Invalid github path" ValueError
    is raised exactly when the path between the slashes at its ends has no
    '/'.  Whatever the source, every error of the constructor is a
    ValueError; the constructor is a function of its arguments and reaches
    no provider. *)
Theorem code_source_new (conf : AppConfig) (path ref : string) (parsed : ParseResult) :
  urlparse path = Some parsed ->
  (netloc parsed <> "github.com" ->
   CodeSourceService.new GitHubAPI conf "github" path ref
   = Raise (ValueError ("Invalid github url: " +:+ path)))
  /\ (netloc parsed = "github.com" ->
      (forall owner repo,
          names (url_path parsed) owner repo <->
          CodeSourceService.new GitHubAPI conf "github" path ref
          = Ok (CodeSourceService.mk
                  (GitHubClient.mk owner repo (Some (cfg_token (github conf))) ref
                     (GitHubAPI (owner +:+ "/" +:+ repo) (Some (cfg_token (github conf)))))))
      /\ (single_segment (url_path parsed) <->
          CodeSourceService.new GitHubAPI conf "github" path ref
          = Raise (ValueError ("Invalid github path: " +:+ path))))
  /\ (forall source e,
         CodeSourceService.new GitHubAPI conf source path ref = Raise e ->
         exists message, e = ValueError message).
Proof.
  intros Hparse.
  assert (Hrun : CodeSourceService.new GitHubAPI conf "github" path ref
    = if negb (String.eqb (netloc parsed) "github.com")
      then Raise (ValueError ("Invalid github url: " +:+ path))
      else match segments (url_path parsed) with
           | owner :: repo :: _ =>
               Ok (CodeSourceService.mk
                     (GitHubClient.mk owner repo (Some (cfg_token (github conf))) ref
                        (GitHubAPI (owner +:+ "/" +:+ repo)
                           (Some (cfg_token (github conf))))))
           | _ => Raise (ValueError ("Invalid github path: " +:+ path))
           end).
  { unfold CodeSourceService.new. rewrite Hparse.
    change (String.eqb "github" "github") with true. cbn [or_raise rbind].
    fold (segments (url_path parsed)).
    destruct (negb _); [reflexivity|].
    destruct (segments (url_path parsed)) as [|owner [|repo rest]]; try reflexivity.
    replace (Z.of_nat (length (owner :: repo :: rest)) <? 2) with false
      by (symmetry; apply Z.ltb_ge; cbn [length]; lia).
    reflexivity. }
  split; [|split].
  - intros Hn. rewrite Hrun.
    destruct (String.eqb_spec (netloc parsed) "github.com"); [contradiction|reflexivity].
  - intros Hn. rewrite Hrun, Hn. change (String.eqb "github.com" "github.com") with true.
    cbn [negb]. split.
    + intros owner repo. rewrite StripFacts.names_segments. split.
      * intros [rest ->]. reflexivity.
      * destruct (segments (url_path parsed)) as [|o [|r rest]]; try discriminate.
        intros [= -> ->]. eauto.
    + rewrite StripFacts.single_segment_segments.
      destruct (segments (url_path parsed)) as [|o [|r rest]]; cbn [length].
      * split; intros _; [reflexivity|lia].
      * split; intros _; [reflexivity|lia].
      * split; [intros; lia|intros [=]].
  - clear Hrun. intros source e. unfold CodeSourceService.new.
    destruct (String.eqb source "github"); [|intros [= <-]; eauto].
    rewrite Hparse. cbn [or_raise rbind].
    destruct (String.eqb (netloc parsed) "github.com"); cbn [negb];
      [|intros [= <-]; eauto].
    destruct (Z.of_nat _ <? 2); [intros [= <-]; eauto|].
    destruct (firstn 2 _) as [|o [|r [|]]]; intros [= <-]; eauto.
Qed.

End ServiceFacts.

(** The URL of the command-line reader. *)
Lemma code_source_new_witness :
  @urlparse Sample.ascii_lib "https://github.com/langchain-ai/langgraph/"
  = Some (mkParseResult "https" "github.com" "/langchain-ai/langgraph/" "" "" "")
  /\ @CodeSourceService.new Sample.ascii_lib nat Sample.GitHubAPI Sample.conf "github"
       "https://github.com/langchain-ai/langgraph/" "main"
     = Ok (CodeSourceService.mk
             (GitHubClient.mk "langchain-ai" "langgraph" (Some "token") "main" Sample.github)).
Proof.
  split; [reflexivity|].
  destruct (@code_source_new Sample.ascii_lib nat Sample.GitHubAPI Sample.conf
              "https://github.com/langchain-ai/langgraph/" "main"
              (mkParseResult "https" "github.com" "/langchain-ai/langgraph/" "" "" "")
              eq_refl) as (_ & Hhost & _).
  destruct (Hhost eq_refl) as [Hnames _].
  apply (Hnames "langchain-ai" "langgraph").
  exists "langchain-ai/langgraph", "". split; [|repeat split; auto].
  exists "/", "/". repeat split.
Defined.

(** C8, the claim as stated fails.  The owner and the repository are not
    the first two segments of the path, however segments are counted: an
    empty segment inside the path is taken as the repository, while empty
    segments at its start are skipped; and a URL of the expected host is
    rejected when its authority carries a port. *)
Lemma code_source_new_not_by_segments :
  (@urlparse Sample.ascii_lib "https://github.com/a//b"
   = Some (mkParseResult "https" "github.com" "/a//b" "" "" "")
   /\ @CodeSourceService.new Sample.ascii_lib nat Sample.GitHubAPI Sample.conf "github"
        "https://github.com/a//b" "main"
      = Ok (CodeSourceService.mk
              (GitHubClient.mk "a" "" (Some "token") "main" Sample.github)))
  /\ (@urlparse Sample.ascii_lib "https://github.com//a/b"
      = Some (mkParseResult "https" "github.com" "//a/b" "" "" "")
      /\ @CodeSourceService.new Sample.ascii_lib nat Sample.GitHubAPI Sample.conf "github"
           "https://github.com//a/b" "main"
         = Ok (CodeSourceService.mk
                 (GitHubClient.mk "a" "b" (Some "token") "main" Sample.github)))
  /\ (@urlparse Sample.ascii_lib "https://github.com:443/a/b"
      = Some (mkParseResult "https" "github.com:443" "/a/b" "" "" "")
      /\ @CodeSourceService.new Sample.ascii_lib nat Sample.GitHubAPI Sample.conf "github"
           "https://github.com:443/a/b" "main"
         = Raise (ValueError "Invalid github url: https://github.com:443/a/b")).
Proof. repeat split. Qed.

Section ServiceExamples.
#[local] Existing Instance Sample.ascii_lib.

Example new_other_host :
  CodeSourceService.new Sample.GitHubAPI Sample.conf "github" "https://gitlab.com/a/b" "main"
  = Raise (ValueError "Invalid github url: https://gitlab.com/a/b").
Proof. reflexivity. Qed.

Example new_owner_only :
  CodeSourceService.new Sample.GitHubAPI Sample.conf "github" "https://github.com/langchain-ai/" "main"
  = Raise (ValueError "Invalid github path: https://github.com/langchain-ai/").
Proof. reflexivity. Qed.

Example new_unknown_source :
  CodeSourceService.new Sample.GitHubAPI Sample.conf "gitlab" "https://github.com/a/b" "main"
  = Raise (ValueError "Unknown source: gitlab").
Proof. reflexivity. Qed.

End ServiceExamples.

(** ** Applying feedback *)

Section SessionFacts.
Context {AnyMessage : Type}.
Implicit Types s : State AnyMessage.

Lemma awaiting_feedback_current s :
  phase_of s = awaiting_feedback ->
  completed s = false
  /\ exists name analysis, current_file s = Some (CurrentFile.mk name (Some analysis)).
Proof.
  unfold phase_of. destruct (completed s); [discriminate|].
  destruct (current_file s) as [[name [analysis|]]|]; try discriminate.
  intros _. eauto.
Qed.

Lemma mark_file_lookup path st fs (i : nat) f :
  fs !! i = Some f ->
  map (mark_file path st None) fs !! i
  = Some (if String.eqb (FileItem.path f) path
          then FileItem.mk (FileItem.path f) st (FileItem.type f) (FileItem.understanding f)
          else f).
Proof.
  intros Hf. change (map (mark_file path st None) fs) with (mark_file path st None <$> fs).
  rewrite list_lookup_fmap, Hf. reflexivity.
Qed.

(** C4.  In awaiting_feedback with a current file, Accept succeeds; every
    tracked file with the path of the current file becomes done (its other
    fields kept) and the other tracked files are untouched; exactly one
    history entry is appended, of kind accept, for that path; the current
    file is cleared and the session is back in awaiting_next_file. *)
Theorem apply_feedback_accept s (now : Z) (note : option string) (cf : CurrentFile.t) :
  phase_of s = awaiting_feedback ->
  current_file s = Some cf ->
  exists s',
    apply_feedback now (Accept note) s = Applied s'
    /\ length (files (basic s')) = length (files (basic s))
    /\ (forall (i : nat) f,
           files (basic s) !! i = Some f ->
           FileItem.path f = CurrentFile.name cf ->
           files (basic s') !! i
           = Some (FileItem.mk (FileItem.path f) done (FileItem.type f)
                     (FileItem.understanding f)))
    /\ (forall (i : nat) f,
           files (basic s) !! i = Some f ->
           FileItem.path f <> CurrentFile.name cf ->
           files (basic s') !! i = Some f)
    /\ history s'
       = history s ++ [HistoryEntry.mk (CurrentFile.name cf) accept now note]
    /\ current_file s' = None
    /\ user_feedback s' = None
    /\ phase_of s' = awaiting_next_file.
Proof.
  intros Hphase Hcf. destruct (awaiting_feedback_current s Hphase) as [Hc _].
  unfold apply_feedback. rewrite Hphase, Hcf.
  eexists. split; [reflexivity|].
  cbn [record_decision files basic with_files history current_file user_feedback].
  split; [apply length_map|]. split.
  { intros i f Hf Hp. rewrite (mark_file_lookup _ _ _ _ _ Hf).
    destruct (String.eqb_spec (FileItem.path f) (CurrentFile.name cf)); [reflexivity|contradiction]. }
  split.
  { intros i f Hf Hp. rewrite (mark_file_lookup _ _ _ _ _ Hf).
    destruct (String.eqb_spec (FileItem.path f) (CurrentFile.name cf)); [contradiction|reflexivity]. }
  repeat split.
Qed.

End SessionFacts.

(** The scenario of the specification: the current file is src/main.go. *)
Lemma apply_feedback_accept_witness :
  phase_of Sample.session = awaiting_feedback
  /\ exists s',
      apply_feedback 1700000000 (Accept None) Sample.session = Applied s'
      /\ files (basic s') = [FileItem.mk "README.md" done file None;
                             FileItem.mk "src/main.go" done file None]
      /\ history s' = [HistoryEntry.mk "src/main.go" accept 1700000000 None]
      /\ current_file s' = None
      /\ phase_of s' = awaiting_next_file.
Proof.
  split; [reflexivity|].
  destruct (apply_feedback_accept Sample.session 1700000000 None
              (CurrentFile.mk "src/main.go" (Some (mkFileAnalysis "entry point")))
              eq_refl eq_refl)
    as (s' & Happ & _ & _ & _ & Hhist & Hcur & _ & Hphase).
  exists s'. split; [exact Happ|].
  split; [injection Happ as <-; reflexivity|].
  split; [exact Hhist|]. split; [exact Hcur|exact Hphase].
Defined.

(** ** Listing a directory *)

Section ListingFacts.
Context `{PyLib} {World : Type}.
Implicit Types self : GitHubClient.t World.

Lemma optional_str_field (d : gmap string json) key v :
  optional_field d key JStr v ->
  v_optional v_str (match d !! key with Some j => j | None => JNull end) = Ok v.
Proof.
  destruct v as [a|]; cbn [optional_field].
  - intros ->. reflexivity.
  - intros [->| ->]; reflexivity.
Qed.

Lemma optional_int_field (d : gmap string json) key v :
  optional_field d key JNum v ->
  v_optional v_int (match d !! key with Some j => j | None => JNull end) = Ok v.
Proof.
  destruct v as [a|]; cbn [optional_field].
  - intros ->. reflexivity.
  - intros [->| ->]; reflexivity.
Qed.




Lemma get_directory_structure_cases self path ref w :
  GitHubClient.get_directory_structure self path ref w =
  match GitHubClient._gh self
          (listing_request self path (or_str ref (GitHubClient.default_ref self))) w with
  | (Raise e, w') =>
      (Raise (if is_GraphQLException e
              then NotFound_listing path (or_str ref (GitHubClient.default_ref self))
              else e), w')
  | (Ok (JArr items), w') => (GitHubClient.entries items [], w')
  | (Ok resp, w') => (let+ fsr := GitHubClient.entry resp in Ok [fsr], w')
  end.
Proof.
  unfold GitHubClient.get_directory_structure, listing_request, bind at 1, try_except.
  destruct (GitHubClient._gh self _ w) as [[resp|e] w']; cbn [raise].
  - destruct resp; try reflexivity;
      unfold bind, lift, ret; cbn [List.app];
      match goal with |- context [GitHubClient.entry ?j] => destruct (GitHubClient.entry j) end;
      reflexivity.
  - destruct (is_GraphQLException e); reflexivity.
Qed.


End ListingFacts.



(** ** Searching *)

Section SearchFacts.
Context `{PyLib} {World : Type}.
Implicit Types self : GitHubClient.t World.

Lemma bind_lift {A B} (r : result A) (k : A -> M World B) (w : World) :
  bind (lift r) k w = match r with Ok a => k a w | Raise e => (Raise e, w) end.
Proof. destruct r; reflexivity. Qed.

Lemma tree_loop_step self query opts item tree' count results w :
  GitHubClient.tree_loop self query opts (item :: tree') count results w =
  match tree_candidate query opts item with
  | Raise e => (Raise e, w)
  | Ok None => GitHubClient.tree_loop self query opts tree' count results w
  | Ok (Some fsr) =>
      match (if SearchOptions.include_content opts
             then GitHubClient.fetch_content self fsr else ret fsr) w with
      | (Raise e, w') => (Raise e, w')
      | (Ok fsr', w') =>
          if count + 1 >=? SearchOptions.max_results opts
          then (Ok (results ++ [fsr']), w')
          else GitHubClient.tree_loop self query opts tree' (count + 1) (results ++ [fsr']) w'
      end
  end.
Proof.
  cbn [GitHubClient.tree_loop]. unfold tree_candidate.
  rewrite bind_lift. destruct (py_get item "type" JNull) as [ty|e]; [|reflexivity].
  cbn [rbind]. destruct (negb (json_is_str ty "blob")); [reflexivity|].
  rewrite bind_lift. destruct (py_get item "path" JNull) as [path|e]; [|reflexivity].
  cbn [rbind]. rewrite bind_lift.
  assert (Htail : forall p,
    (let* path0 := lift (Ok p) in
     if negb (PyStr.contains (lower query) (lower path0))
        && negb (PyStr.contains (lower query)
                   (lower (List.last (PyStr.split "/" path0) EmptyString)))
     then GitHubClient.tree_loop self query opts tree' count results
     else
       let* size := lift (py_get item "size" JNull) in
       let* sha := lift (py_get item "sha" JNull) in
       let* url := lift (py_get item "url" JNull) in
       let* fsr := lift (FileSearchResultModel.new (JStr path0)
                           (JStr (List.last (PyStr.split "/" path0) EmptyString))
                           (JStr "file") size JNull sha url
                           (JFloat (int_to_float
                                      (GitHubClient._calculate_score path0
                                         (List.last (PyStr.split "/" path0) EmptyString)
                                         query)))) in
       let* fsr := if SearchOptions.include_content opts
                   then GitHubClient.fetch_content self fsr else ret fsr in
       if count + 1 >=? SearchOptions.max_results opts then ret (results ++ [fsr])
       else GitHubClient.tree_loop self query opts tree' (count + 1) (results ++ [fsr])) w
    = match
        (let+ path0 := Ok p in
         if negb (PyStr.contains (lower query) (lower path0))
            && negb (PyStr.contains (lower query)
                       (lower (List.last (PyStr.split "/" path0) EmptyString)))
         then Ok None
         else
           let+ size := py_get item "size" JNull in
           let+ sha := py_get item "sha" JNull in
           let+ url := py_get item "url" JNull in
           let+ fsr := FileSearchResultModel.new (JStr path0)
                         (JStr (List.last (PyStr.split "/" path0) EmptyString))
                         (JStr "file") size JNull sha url
                         (JFloat (int_to_float
                                    (GitHubClient._calculate_score path0
                                       (List.last (PyStr.split "/" path0) EmptyString)
                                       query))) in
           Ok (Some fsr))
      with
      | Raise e => (Raise e, w)
      | Ok None => GitHubClient.tree_loop self query opts tree' count results w
      | Ok (Some fsr) =>
          match (if SearchOptions.include_content opts
                 then GitHubClient.fetch_content self fsr else ret fsr) w with
          | (Raise e, w') => (Raise e, w')
          | (Ok fsr', w') =>
              if count + 1 >=? SearchOptions.max_results opts
              then (Ok (results ++ [fsr']), w')
              else GitHubClient.tree_loop self query opts tree' (count + 1)
                     (results ++ [fsr']) w'
          end
      end).
  { intros p. rewrite bind_lift. cbn [rbind].
    match goal with |- context [if ?c then Ok None else _] => destruct c end; [reflexivity|].
    rewrite bind_lift. destruct (py_get item "size" JNull) as [size|e]; [|reflexivity].
    cbn [rbind]. rewrite bind_lift. destruct (py_get item "sha" JNull) as [sha|e]; [|reflexivity].
    cbn [rbind]. rewrite bind_lift. destruct (py_get item "url" JNull) as [url|e]; [|reflexivity].
    cbn [rbind]. rewrite bind_lift.
    match goal with |- context [rbind ?s _] => destruct s as [fsr|e] end; [|reflexivity].
    cbn [rbind]. unfold bind at 1.
    destruct ((if SearchOptions.include_content opts
               then GitHubClient.fetch_content self fsr else ret fsr) w) as [[fsr'|e] w'];
      [|reflexivity].
    destruct (count + 1 >=? SearchOptions.max_results opts); reflexivity. }
  destruct (as_str path) as [p|e].
  - destruct (SearchOptions.extension opts) as [ext|]; [destruct (PyStr.truthy ext)|];
      cbn [rbind]; try apply Htail.
    destruct (negb (PyStr.endswith p ext)); [reflexivity|apply Htail].
  - destruct (SearchOptions.extension opts) as [ext|]; [destruct (PyStr.truthy ext)|];
      cbn [rbind]; try reflexivity; rewrite bind_lift; reflexivity.
Qed.

Lemma content_loop_step self opts item items' results w :
  GitHubClient.content_loop self opts (item :: items') results w =
  match content_candidate item with
  | Raise e => (Raise e, w)
  | Ok fsr =>
      match (if SearchOptions.include_content opts
             then GitHubClient.fetch_content self fsr else ret fsr) w with
      | (Raise e, w') => (Raise e, w')
      | (Ok fsr', w') => GitHubClient.content_loop self opts items' (results ++ [fsr']) w'
      end
  end.
Proof.
  cbn [GitHubClient.content_loop]. unfold content_candidate.
  rewrite bind_lift. destruct (py_get item "name" JNull) as [name|e]; [|reflexivity].
  cbn [rbind]. rewrite bind_lift. destruct (py_get item "path" JNull) as [path|e]; [|reflexivity].
  cbn [rbind]. rewrite bind_lift. destruct (py_get item "sha" JNull) as [sha|e]; [|reflexivity].
  cbn [rbind]. rewrite bind_lift. destruct (py_get item "score" JNull) as [score|e]; [|reflexivity].
  cbn [rbind]. rewrite bind_lift. destruct (py_get item "url" JNull) as [url|e]; [|reflexivity].
  cbn [rbind]. rewrite bind_lift.
  destruct (FileSearchResultModel.new path name (JStr "file") JNull JNull sha url score)
    as [fsr|e]; [|reflexivity].
  unfold bind at 1.
  destruct ((if SearchOptions.include_content opts
             then GitHubClient.fetch_content self fsr else ret fsr) w) as [[fsr'|e] w'];
    reflexivity.
Qed.

Lemma search_query_joined self query opts :
  PyStr.join " "
    (match SearchOptions.extension opts with
     | Some ext =>
         if PyStr.truthy ext
         then [query; "repo:" +:+ GitHubClient.owner self +:+ "/" +:+ GitHubClient.repo self]
              ++ ["extension:" +:+ PyStr.lstrip "." ext]
         else [query; "repo:" +:+ GitHubClient.owner self +:+ "/" +:+ GitHubClient.repo self]
     | None => [query; "repo:" +:+ GitHubClient.owner self +:+ "/" +:+ GitHubClient.repo self]
     end)
  = search_query self query opts.
Proof.
  unfold search_query.
  destruct (SearchOptions.extension opts) as [ext|]; [destruct (PyStr.truthy ext)|];
    cbn [PyStr.join List.app];
    rewrite ?PyStrFacts.app_nil_r, ?PyStrFacts.app_assoc; reflexivity.
Qed.

(** [search_files] by cases on the first answer of the provider. *)
Lemma search_files_cases self query opts w :
  GitHubClient.search_files self query opts w =
  match GitHubClient._gh self (first_request self query opts) w with
  | (Raise e, w') => (Raise e, w')
  | (Ok resp, w') =>
      match (let+ l := py_get resp (listing_key opts) (JArr []) in py_iter l) with
      | Raise e => (Raise e, w')
      | Ok items =>
          if SearchOptions.search_in_content opts
          then GitHubClient.content_loop self opts items [] w'
          else match GitHubClient.tree_loop self query opts items 0 [] w' with
               | (Ok rs, w'') =>
                   (Ok (list_sort float_lt
                          (fun x => or_zero (FileSearchResultModel.score x)) rs), w'')
               | (Raise e, w'') => (Raise e, w'')
               end
      end
  end.
Proof.
  unfold GitHubClient.search_files, first_request, listing_key, search_request, tree_request.
  destruct (SearchOptions.search_in_content opts).
  - rewrite search_query_joined. unfold bind at 1.
    destruct (GitHubClient._gh self _ w) as [[resp|e] w0]; [|reflexivity].
    rewrite bind_lift. destruct (py_get resp "items" (JArr [])) as [l|e]; [|reflexivity].
    cbn [rbind]. rewrite bind_lift. destruct (py_iter l); reflexivity.
  - unfold bind at 1.
    destruct (GitHubClient._gh self _ w) as [[resp|e] w0]; [|reflexivity].
    rewrite bind_lift. destruct (py_get resp "tree" (JArr [])) as [l|e]; [|reflexivity].
    cbn [rbind]. rewrite bind_lift. destruct (py_iter l) as [items|e]; [|reflexivity].
    unfold bind, ret.
    destruct (GitHubClient.tree_loop self query opts items 0 [] w0) as [[rs|e] w1];
      reflexivity.
Qed.

Lemma optional_score_field (d : gmap string json) v :
  optional_score d v ->
  v_optional v_float (match d !! "score" with Some j => j | None => JNull end) = Ok v.
Proof.
  destruct v as [f|]; cbn [optional_score].
  - intros (j & -> & Hj).
    destruct Hj as [f|n f Hn]; cbn [v_optional v_float rbind]; [reflexivity|].
    rewrite Hn. reflexivity.
  - intros [->| ->]; reflexivity.
Qed.

Lemma content_candidate_item item r : search_item item r -> content_candidate item = Ok r.
Proof.
  intros [d r' Hname Hpath Htype Hsize Hcontent Hsha Hurl Hscore].
  unfold content_candidate, py_get. cbn [rbind]. rewrite Hname, Hpath.
  unfold FileSearchResultModel.new. cbn [v_str v_optional rbind].
  rewrite (optional_str_field _ _ _ Hsha), (optional_str_field _ _ _ Hurl). cbn [rbind].
  rewrite (optional_score_field _ _ Hscore). cbn [rbind].
  destruct r'; cbn in Htype, Hsize, Hcontent; subst; reflexivity.
Qed.

Lemma validation_only_bind {A B} (r : result A) (k : A -> result B) :
  validation_only r -> (forall a, validation_only (k a)) -> validation_only (rbind r k).
Proof.
  intros Hr Hk e. destruct r as [a|e']; cbn [rbind]; intros E; [exact (Hk _ _ E)|].
  injection E as <-. exact (Hr _ eq_refl).
Qed.

Lemma validation_only_Ok {A} (a : A) : validation_only (Ok a).
Proof. intros e [=]. Qed.

Lemma validation_only_v_str j : validation_only (v_str j).
Proof. intros e. destruct j; cbn; congruence. Qed.

Lemma validation_only_v_int j : validation_only (v_int j).
Proof.
  intros e. destruct j; cbn; try congruence.
  - destruct (float_as_int f) as [n|]; [destruct (_ && _)|]; congruence.
  - destruct (str_as_int s); congruence.
Qed.

Lemma validation_only_v_float j : validation_only (v_float j).
Proof.
  intros e. destruct j; cbn; try congruence.
  - destruct (float_of_int n); cbn; congruence.
  - destruct (str_as_float s); congruence.
Qed.

Lemma validation_only_v_optional {A} (v : json -> result A) j :
  (forall j', validation_only (v j')) -> validation_only (v_optional v j).
Proof.
  intros Hv. destruct j; cbn [v_optional]; try apply validation_only_Ok;
    (apply validation_only_bind; [apply Hv|intros; apply validation_only_Ok]).
Qed.

Lemma validation_only_field {A} (d : gmap string json) key (v : json -> result A) :
  (forall j, validation_only (v j)) -> validation_only (field d key v).
Proof. intros Hv. unfold field. destruct (d !! key); [apply Hv|congruence]. Qed.

Lemma validation_only_field_default {A} (d : gmap string json) key
    (v : json -> result (option A)) :
  (forall j, validation_only (v j)) -> validation_only (field_default_None d key v).
Proof.
  intros Hv. unfold field_default_None. destruct (d !! key); [apply Hv|apply validation_only_Ok].
Qed.

Ltac validation :=
  repeat first
    [ apply validation_only_Ok
    | apply validation_only_v_str
    | apply validation_only_v_int
    | apply validation_only_v_float
    | apply validation_only_v_optional; intros
    | apply validation_only_field; intros
    | apply validation_only_field_default; intros
    | apply validation_only_bind; [|intros] ].

Lemma content_model_raises data e :
  GitHubFileContentModel.new data = Raise e -> e = ValidationError \/ e = TypeError.
Proof.
  destruct data; cbn [GitHubFileContentModel.new]; try (intros [= <-]; tauto).
  intros He. left. revert e He. change (validation_only (GitHubFileContentModel.new (JObj d))).
  cbn [GitHubFileContentModel.new]. validation.
Qed.

Lemma read_file_raises self path ref w e w' :
  raises_only_Exceptions self ->
  GitHubClient.read_file self path ref w = (Raise e, w') ->
  is_Exception e = true.
Proof.
  intros Hgh. rewrite read_file_cases.
  destruct (GitHubClient._gh self _ w) as [[data|e0] w0] eqn:Egh.
  - destruct (GitHubFileContentModel.new data) as [f|e1] eqn:Ef.
    + destruct (negb _); [intros [= <- _]; reflexivity|].
      destruct (negb _); [intros [= <- _]; reflexivity|].
      rewrite b64decode_cases.
      destruct (PyStr.isascii _); [|intros [= <- _]; reflexivity].
      destruct (b64decode _) as [bytes|]; [|intros [= <- _]; reflexivity].
      destruct (decode_utf8 bytes); intros [= <- _]. reflexivity.
    + intros [= <- _]. destruct (content_model_raises _ _ Ef) as [-> | ->]; reflexivity.
  - intros [= <- _]. destruct (is_GraphQLException e0) eqn:Eg; [reflexivity|].
    eapply Hgh. exact Egh.
Qed.

Lemma fetch_content_cases self fsr w :
  GitHubClient.fetch_content self fsr w =
  match GitHubClient.read_file self (FileSearchResultModel.path fsr)
          (Some (GitHubClient.default_ref self)) w with
  | (Ok text, w') => (Ok (FileSearchResultModel.set_content fsr (Some text)), w')
  | (Raise e, w') =>
      if is_Exception e then (Ok (FileSearchResultModel.set_content fsr None), w')
      else (Raise e, w')
  end.
Proof.
  unfold GitHubClient.fetch_content, try_except, bind.
  destruct (GitHubClient.read_file self _ _ w) as [[text|e] w']; reflexivity.
Qed.


Lemma without_content_set fsr c :
  without_content (FileSearchResultModel.set_content fsr c) = without_content fsr.
Proof. reflexivity. Qed.









End SearchFacts.

Lemma sample_raises_only_Exceptions : raises_only_Exceptions Sample.client.
Proof.
  intros req w e w'. cbn [GitHubClient._gh Sample.client]. unfold Sample.github.
  repeat match goal with
         | |- context [String.eqb ?a ?b] => destruct (String.eqb a b)
         end; intros [= <- _]; reflexivity.
Qed.

(** ** The local search returns the first matches, sorted *)

Lemma search_options_new_inv extension max_results include_content search_in_content opts :
  SearchOptions.new extension max_results include_content search_in_content = Ok opts ->
  opts = SearchOptions.mk extension max_results include_content search_in_content
  /\ extension_ok extension /\ 1 <= max_results.
Proof.
  unfold SearchOptions.new.
  destruct (extension_ok_dec extension) as [Hok|Hbad].
  - rewrite (extension_check_ok _ Hok).
    destruct (Z.geb_spec max_results 1); [|intros [=]]. intros [= <-]. auto.
  - destruct (extension_check_fails _ Hbad) as [m ->]. intros [=].
Qed.

Section LocalSearch.
Context `{PyLib} {World : Type}.
Implicit Types self : GitHubClient.t World.

Lemma selectedb_spec query extension path :
  selectedb query extension path = true <-> selected query extension path.
Proof.
  unfold selectedb, selected.
  rewrite andb_true_iff, orb_true_iff, !PyStrFacts.contains_spec.
  destruct extension as [e|]; [rewrite PyStrFacts.endswith_spec|]; tauto.
Qed.

Lemma extension_filter_reads extension path :
  extension_ok extension ->
  match extension with
  | Some ext =>
      if PyStr.truthy ext
      then let+ p := as_str (JStr path) in Ok (negb (PyStr.endswith p ext))
      else Ok false
  | None => Ok false
  end
  = Ok (negb match extension with Some e => PyStr.endswith path e | None => true end).
Proof.
  destruct extension as [e|]; [|reflexivity]. intros [t ->]. reflexivity.
Qed.

Lemma not_blob (d : gmap string json) :
  d !! "type" <> Some (JStr "blob") ->
  json_is_str (match d !! "type" with Some j => j | None => JNull end) "blob" = false.
Proof.
  intros Hd. destruct (d !! "type") as [j|]; [|reflexivity].
  destruct j as [| | | |t| |]; try reflexivity. cbn [json_is_str].
  destruct (String.eqb_spec t "blob") as [->|]; [contradiction|reflexivity].
Qed.

Lemma tree_candidate_reads query opts item entry :
  extension_ok (SearchOptions.extension opts) ->
  reads_as item entry ->
  tree_candidate query opts item
  = Ok match entry with
       | Blob path _ _ _ =>
           if selectedb query (SearchOptions.extension opts) path
           then Some (result_of query entry) else None
       | NotBlob => None
       end.
Proof.
  intros Hext [d path size sha url Hty Hpath Hsize Hsha Hurl|d Hty];
    unfold tree_candidate, py_get; cbn [rbind].
  - rewrite Hty, Hpath. change (json_is_str (JStr "blob") "blob") with true. cbn [negb].
    rewrite (extension_filter_reads _ _ Hext). cbn [rbind as_str].
    unfold selectedb. fold (file_name path).
    destruct (match SearchOptions.extension opts with
              | Some e => PyStr.endswith path e
              | None => true
              end); cbn [negb andb]; [|reflexivity].
    destruct (PyStr.contains (lower query) (lower path));
      destruct (PyStr.contains (lower query) (lower (file_name path)));
      cbn [negb andb orb]; try reflexivity;
      unfold FileSearchResultModel.new; cbn [v_str rbind];
      rewrite (optional_int_field _ _ _ Hsize); cbn [rbind v_optional];
      rewrite (optional_str_field _ _ _ Hsha), (optional_str_field _ _ _ Hurl);
      reflexivity.
  - rewrite (not_blob d Hty). reflexivity.
Qed.



Lemma result_of_in_range query (l : list tree_entry) :
  Forall score_in_range (map (result_of query) l).
Proof.
  induction l as [|[path size sha url|] l IH]; cbn [map]; constructor; try exact IH.
  - eapply score_in_range_small; [apply calculate_score_range|reflexivity].
  - now apply score_in_range_none.
Qed.



End LocalSearch.


(** ** Fetching the contents of the results *)

Section ContentFetch.
Context `{PyLib} {World : Type}.
Implicit Types self : GitHubClient.t World.

Lemma fetched_app self cs1 w rs1 w1 cs2 rs2 w2 :
  fetched self cs1 w rs1 w1 -> fetched self cs2 w1 rs2 w2 ->
  fetched self (cs1 ++ cs2) w (rs1 ++ rs2) w2.
Proof.
  intros H1 H2. induction H1; cbn [List.app]; [exact H2| |].
  - eapply fetched_text; eauto.
  - eapply fetched_absent; eauto.
Qed.

(** One fetch, with a provider whose failures are Exceptions: the result
    comes back, with the text or without content. *)
Lemma fetch_content_fetched self fsr w :
  raises_only_Exceptions self ->
  exists fsr' w',
    GitHubClient.fetch_content self fsr w = (Ok fsr', w')
    /\ fetched self [fsr] w [fsr'] w'.
Proof.
  intros Hgh. rewrite fetch_content_cases.
  destruct (GitHubClient.read_file self _ _ w) as [[text|e] w'] eqn:Er.
  - eexists _, _. split; [reflexivity|].
    change (FileSearchResultModel.set_content fsr (Some text))
      with (with_content fsr (Some text)).
    eapply fetched_text; [exact Er|constructor].
  - rewrite (read_file_raises _ _ _ _ _ _ Hgh Er).
    eexists _, _. split; [reflexivity|].
    change (FileSearchResultModel.set_content fsr None) with (with_content fsr None).
    eapply fetched_absent; [exact Er|constructor].
Qed.

Lemma fetched_in_range self cs w rs w' :
  fetched self cs w rs w' -> Forall score_in_range cs -> Forall score_in_range rs.
Proof.
  induction 1 as [|r cs w text w1 rs w' Hr _ IH|r cs w e w1 rs w' Hr _ IH];
    intros Hall; [constructor| |];
    apply List.Forall_cons_iff in Hall; destruct Hall as [Hc Hcs];
    (constructor; [exact Hc|now apply IH]).
Qed.

Lemma content_loop_fetched self opts items candidates :
  raises_only_Exceptions self ->
  SearchOptions.include_content opts = true ->
  Forall2 search_item items candidates ->
  forall acc w,
    exists rs w',
      GitHubClient.content_loop self opts items acc w = (Ok (acc ++ rs), w')
      /\ fetched self candidates w rs w'.
Proof.
  intros Hgh Hinc Hitems.
  induction Hitems as [|item r items candidates Hr _ IH]; intros acc w.
  - exists [], w. split; [cbn; now rewrite List.app_nil_r|constructor].
  - rewrite content_loop_step, (content_candidate_item _ _ Hr), Hinc.
    destruct (fetch_content_fetched self r w Hgh) as (r' & w1 & -> & Hfetch).
    destruct (IH (acc ++ [r']) w1) as (rs & w' & -> & Hrest).
    exists (r' :: rs), w'. split; [now rewrite <- List.app_assoc|].
    exact (fetched_app _ _ _ _ _ _ _ _ Hfetch Hrest).
Qed.

Lemma tree_loop_fetched self query opts :
  raises_only_Exceptions self ->
  SearchOptions.include_content opts = true ->
  extension_ok (SearchOptions.extension opts) ->
  forall items entries,
    Forall2 reads_as items entries ->
    forall count acc w,
      count < SearchOptions.max_results opts ->
      exists rs w',
        GitHubClient.tree_loop self query opts items count acc w = (Ok (acc ++ rs), w')
        /\ fetched self
             (map (result_of query)
                (firstn (Z.to_nat (SearchOptions.max_results opts - count))
                   (selected_blobs query (SearchOptions.extension opts) entries)))
             w rs w'.
Proof.
  intros Hgh Hinc Hext items entries Hread.
  induction Hread as [|item entry items entries Hitem _ IH]; intros count acc w Hcount.
  - exists [], w. cbn [GitHubClient.tree_loop selected_blobs]. rewrite firstn_nil.
    split; [cbn; now rewrite List.app_nil_r|constructor].
  - rewrite tree_loop_step, (tree_candidate_reads _ _ _ _ Hext Hitem).
    destruct entry as [path size sha url|]; cbn [selected_blobs]; [|now apply IH].
    destruct (selectedb query (SearchOptions.extension opts) path); [|now apply IH].
    rewrite Hinc.
    destruct (fetch_content_fetched self (result_of query (Blob path size sha url)) w Hgh)
      as (r' & w1 & -> & Hfetch).
    replace (Z.to_nat (SearchOptions.max_results opts - count))
      with (S (Z.to_nat (SearchOptions.max_results opts - (count + 1)))) by lia.
    cbn [firstn map].
    destruct (Z.geb_spec (count + 1) (SearchOptions.max_results opts)) as [Hge|Hlt].
    + replace (Z.to_nat (SearchOptions.max_results opts - (count + 1))) with 0%nat by lia.
      exists [r'], w1. split; [reflexivity|exact Hfetch].
    + destruct (IH (count + 1) (acc ++ [r']) w1 ltac:(lia)) as (rs & w' & -> & Hrest).
      exists (r' :: rs), w'. split; [now rewrite <- List.app_assoc|].
      exact (fetched_app _ _ _ _ _ _ _ _ Hfetch Hrest).
Qed.

(** C6.  A search with [include_content], against a provider whose failures
    are Exceptions and that answered the first request with a listing: the
    search returns every matching result, each with the text that
    [read_file] returned for its path, or with no content when that read
    failed; a failed read removes no result and fails nothing.  For the
    content search the matching results are those of the items of the
    answer (objects with a string name and path), in its order; for the
    tree search (options as the constructor builds them, entries that read
    as blobs and other entries) they are those of the first [max_results]
    selected blobs, fetched in the order of the tree and then sorted by
    score. *)
Theorem search_content_failure_is_local self (query : string) (opts : SearchOptions.t)
    (w w1 : World) (d : gmap string json) (items : list json) :
  raises_only_Exceptions self ->
  SearchOptions.include_content opts = true ->
  GitHubClient._gh self (first_request self query opts) w = (Ok (JObj d), w1) ->
  d !! listing_key opts = Some (JArr items) ->
  (SearchOptions.search_in_content opts = true ->
   forall candidates,
     Forall2 search_item items candidates ->
     exists rs w',
       GitHubClient.search_files self query opts w = (Ok rs, w')
       /\ fetched self candidates w1 rs w')
  /\ (SearchOptions.search_in_content opts = false ->
      forall entries,
        Forall2 reads_as items entries ->
        extension_ok (SearchOptions.extension opts) ->
        1 <= SearchOptions.max_results opts ->
        exists rs w',
          GitHubClient.search_files self query opts w
          = (Ok (sort_reverse score_key rs), w')
          /\ fetched self
               (map (result_of query)
                  (firstn (Z.to_nat (SearchOptions.max_results opts))
                     (selected_blobs query (SearchOptions.extension opts) entries)))
               w1 rs w').
Proof.
  intros Hgh Hinc Egh Hitems. rewrite search_files_cases, Egh. cbn [py_get].
  rewrite Hitems. cbn [rbind py_iter]. split; intros Hmode; rewrite Hmode.
  - intros candidates Hcands.
    destruct (content_loop_fetched self opts items candidates Hgh Hinc Hcands [] w1)
      as (rs & w' & -> & Hfetched).
    exists rs, w'. split; [reflexivity|exact Hfetched].
  - intros entries Hread Hext Hmax.
    destruct (tree_loop_fetched self query opts Hgh Hinc Hext items entries Hread 0 [] w1
                ltac:(lia)) as (rs & w' & -> & Hfetched).
    rewrite Z.sub_0_r in Hfetched. exists rs, w'. split; [|exact Hfetched].
    cbn [List.app]. rewrite list_sort_in_range; [reflexivity|].
    eapply fetched_in_range; [exact Hfetched|apply result_of_in_range].
Qed.

End ContentFetch.

Lemma sample_search_raises_only_Exceptions : raises_only_Exceptions SampleSearch.client.
Proof.
  intros req w e w'. cbn [GitHubClient._gh SampleSearch.client]. unfold SampleSearch.github.
  repeat match goal with
         | |- context [String.eqb ?a ?b] => destruct (String.eqb a b)
         end; intros [= <- _]; reflexivity.
Qed.

Ltac search_item_of_sample :=
  constructor;
  cbn [optional_field optional_score FileSearchResultModel.name FileSearchResultModel.path
       FileSearchResultModel.type FileSearchResultModel.size FileSearchResultModel.content
       FileSearchResultModel.sha FileSearchResultModel.url FileSearchResultModel.score];
  first [ vm_compute; reflexivity
        | eexists; split; [vm_compute; reflexivity|apply float_as_float] ].

Ltac reads_as_of_sample :=
  first [ apply reads_blob; cbn [optional_field];
          first [vm_compute; reflexivity | right; vm_compute; reflexivity]
        | apply reads_other; vm_compute; congruence ].

(** The two sample repositories searched for "readme" with the contents.
    The content search returns its three items in the order of the
    provider, only README.md with its text, the two others, whose reads
    fail, without content.  The tree search returns its three matches
    sorted by score, docs/readme.txt, whose read fails, without content. *)
Lemma search_content_failure_is_local_witness :
  (@GitHubClient.search_files Sample.ascii_lib nat SampleSearch.client "readme"
     (SearchOptions.mk None 10 true true) 0%nat
   = (Ok [FileSearchResultModel.mk "src/main.py" "main.py" "file" None None
            (Some "sha-main.py")
            (Some "https://api.github.com/repos/o/r/contents/src/main.py")
            (Some (int_to_float 1));
          FileSearchResultModel.mk "README.md" "README.md" "file" None (Some "hello")
            (Some "sha-README.md")
            (Some "https://api.github.com/repos/o/r/contents/README.md")
            (Some (int_to_float 1));
          FileSearchResultModel.mk "docs/readme.txt" "readme.txt" "file" None None
            (Some "sha-readme.txt")
            (Some "https://api.github.com/repos/o/r/contents/docs/readme.txt")
            (Some (int_to_float 1))], 4%nat)
   /\ exists rs w',
       @GitHubClient.search_files Sample.ascii_lib nat SampleSearch.client "readme"
         (SearchOptions.mk None 10 true true) 0%nat = (Ok rs, w')
       /\ @fetched Sample.ascii_lib nat SampleSearch.client SampleSearch.results 1%nat rs w')
  /\ (@GitHubClient.search_files Sample.ascii_lib nat Sample.client "readme"
        (SearchOptions.mk None 10 true false) 0%nat
      = (Ok [FileSearchResultModel.mk "README.md" "README.md" "file" (Some 5) (Some "hello")
               (Some "sha-README.md") None (Some (int_to_float 105));
             FileSearchResultModel.mk "src/readme_utils.py" "readme_utils.py" "file" (Some 3)
               (Some "hi") (Some "sha-src/readme_utils.py") None (Some (int_to_float 104));
             FileSearchResultModel.mk "docs/readme.txt" "readme.txt" "file" (Some 7) None
               (Some "sha-docs/readme.txt") None (Some (int_to_float 99))], 4%nat)
      /\ exists rs w',
          @GitHubClient.search_files Sample.ascii_lib nat Sample.client "readme"
            (SearchOptions.mk None 10 true false) 0%nat
          = (Ok (sort_reverse score_key rs), w')
          /\ @fetched Sample.ascii_lib nat Sample.client
               (map (@result_of Sample.ascii_lib "readme")
                  (firstn 10
                     (@selected_blobs Sample.ascii_lib "readme" None
                        [Blob "README.md" (Some 5) (Some "sha-README.md") None;
                         NotBlob;
                         Blob "src/main.py" (Some 10) (Some "sha-src/main.py") None;
                         Blob "docs/readme.txt" (Some 7) (Some "sha-docs/readme.txt") None;
                         Blob "src/readme_utils.py" (Some 3)
                           (Some "sha-src/readme_utils.py") None])))
               1%nat rs w').
Proof.
  split; (split; [vm_compute; reflexivity|]).
  - destruct (@search_content_failure_is_local Sample.ascii_lib nat SampleSearch.client
                "readme" (SearchOptions.mk None 10 true true) 0%nat 1%nat
                (list_to_map [("total_count", JNum 3); ("incomplete_results", JBool false);
                              ("items", JArr SampleSearch.hits)])
                SampleSearch.hits sample_search_raises_only_Exceptions eq_refl eq_refl
                ltac:(vm_compute; reflexivity)) as [Hcontent _].
    apply (Hcontent eq_refl).
    unfold SampleSearch.hits, SampleSearch.hit, SampleSearch.results, Sample.obj.
    repeat (constructor; [search_item_of_sample|]). constructor.
  - destruct (@search_content_failure_is_local Sample.ascii_lib nat Sample.client
                "readme" (SearchOptions.mk None 10 true false) 0%nat 1%nat
                (list_to_map [("sha", JStr "sha-root"); ("tree", JArr Sample.tree_listing);
                              ("truncated", JBool false)])
                Sample.tree_listing sample_raises_only_Exceptions eq_refl eq_refl
                ltac:(vm_compute; reflexivity)) as [_ Htree].
    apply (Htree eq_refl).
    + unfold Sample.tree_listing, Sample.blob, Sample.obj.
      repeat (constructor; [reads_as_of_sample|]). constructor.
    + exact I.
    + cbn. lia.
Defined.

(* ####################################################################### *)
(** * Further properties of the code *)
(* ####################################################################### *)

(** ** [read_file]: the errors and the shape of the object *)

Ltac validation_steps :=
  repeat first
    [ apply validation_only_Ok
    | apply validation_only_v_str
    | apply validation_only_v_int
    | apply validation_only_v_float
    | apply validation_only_v_optional; intros
    | apply validation_only_field; intros
    | apply validation_only_field_default; intros
    | apply validation_only_bind; [|intros] ].

Section ReadFileMore.
Context `{PyLib} {World : Type}.
Implicit Types self : GitHubClient.t World.

Lemma content_model_not_object data :
  (forall d, data <> JObj d) -> GitHubFileContentModel.new data = Raise TypeError.
Proof. destruct data; try reflexivity. intros Hd. now contradiction (Hd d). Qed.

Lemma content_model_object_raises d e :
  GitHubFileContentModel.new (JObj d) = Raise e -> e = ValidationError.
Proof.
  revert e. change (validation_only (GitHubFileContentModel.new (JObj d))).
  cbn [GitHubFileContentModel.new]. validation_steps.
Qed.

(** X1.  When [read_file] fails, it fails in one of nine ways: NotFound
    (the provider raised the exception the client catches), the exception
    of the provider itself (any other), [TypeError] (the answer is not an
    object), [ValidationError] (the object lacks a field), the "is not a
    file" error, the unsupported-encoding error, the [ValueError] of
    [base64.b64decode] for content with a character outside ASCII, or one
    of the two decoding errors; the world is the one the single provider
    call left. *)
Theorem read_file_errors self (path : string) (ref : option string) (w w' : World) (e : exn) :
  GitHubClient.read_file self path ref w = (Raise e, w') ->
  read_file_error self path ref w w' e.
Proof.
  rewrite read_file_cases.
  destruct (GitHubClient._gh self _ w) as [[data|e0] w0] eqn:Egh.
  - destruct (GitHubFileContentModel.new data) as [f|e1] eqn:Ef.
    + destruct (String.eqb_spec (GitHubFileContentModel.type f) "file") as [Ht|Ht];
        cbn [negb].
      2: { intros [= <- <-]. eapply error_not_a_file; eassumption. }
      destruct (String.eqb_spec (GitHubFileContentModel.encoding f) "base64") as [He|He];
        cbn [negb].
      2: { intros [= <- <-]. eapply error_encoding; eassumption. }
      rewrite b64decode_cases.
      destruct (PyStr.isascii _) eqn:Ea.
      2: { intros [= <- <-]. eapply error_not_ascii; eassumption. }
      destruct (b64decode _) as [bytes|] eqn:Eb.
      2: { intros [= <- <-]. eapply error_base64; eassumption. }
      destruct (decode_utf8 bytes) eqn:Ed; intros [= <- <-].
      eapply error_utf8; eassumption.
    + intros [= <- <-]. destruct data;
        try (cbn [GitHubFileContentModel.new] in Ef; injection Ef as <-;
             eapply error_not_an_object; [exact Egh|discriminate]).
      pose proof (content_model_object_raises _ _ Ef) as ->.
      eapply error_invalid_object; eassumption.
  - intros [= <- <-]. destruct (is_GraphQLException e0) eqn:Eg.
    + eapply error_not_found; eassumption.
    + eapply error_of_provider; eassumption.
Qed.

Lemma field_Ok_inv {A} (d : gmap string json) key (v : json -> result A) a :
  field d key v = Ok a -> exists j, d !! key = Some j /\ v j = Ok a.
Proof. unfold field. destruct (d !! key) as [j|]; [eauto|discriminate]. Qed.

Lemma v_str_not_null j s : v_str j = Ok s -> j <> JNull.
Proof. destruct j; cbn; congruence. Qed.

Lemma v_int_not_null j n : v_int j = Ok n -> j <> JNull.
Proof. destruct j; cbn; congruence. Qed.

Lemma content_model_fields_present d f key :
  GitHubFileContentModel.new (JObj d) = Ok f ->
  In key content_model_fields ->
  exists j, d !! key = Some j /\ j <> JNull.
Proof.
  cbn [GitHubFileContentModel.new]. intros Hnew.
  repeat match type of Hnew with
         | rbind (field d ?k ?v) _ = Ok _ =>
             let E := fresh "E" in
             destruct (field d k v) eqn:E; cbn [rbind] in Hnew; [|discriminate Hnew];
             apply field_Ok_inv in E; destruct E as (? & ? & ?)
         end.
  intros Hin. cbn [content_model_fields In] in Hin.
  repeat (destruct Hin as [<-|Hin];
          [eexists; split; [eassumption|];
           first [eapply v_str_not_null; eassumption | eapply v_int_not_null; eassumption]|]).
  destruct Hin.
Qed.

(** X2.  Every one of the ten fields without a default must be present and
    not null in the object the provider returns; otherwise [read_file]
    fails with [ValidationError], whatever the type, the encoding and the
    content are. *)
Theorem read_file_requires_fields self (path : string) (ref : option string) (w w' : World)
    (d : gmap string json) (key : string) :
  GitHubClient._gh self (contents_request self path) w = (Ok (JObj d), w') ->
  In key content_model_fields ->
  d !! key = None \/ d !! key = Some JNull ->
  GitHubClient.read_file self path ref w = (Raise ValidationError, w').
Proof.
  intros Egh Hin Hkey. rewrite read_file_cases, Egh.
  destruct (GitHubFileContentModel.new (JObj d)) as [f|e] eqn:Ef.
  - destruct (content_model_fields_present _ _ _ Ef Hin) as (j & Hj & Hnull).
    destruct Hkey as [Hk|Hk]; rewrite Hk in Hj; [discriminate|]. injection Hj as <-.
    contradiction.
  - now rewrite (content_model_object_raises _ _ Ef).
Qed.

(** X3.  Keys of the object that are not fields of the model are ignored:
    adding one changes nothing of the model that is built. *)
Theorem content_model_ignores_other_keys (d : gmap string json) (key : string) (v : json) :
  ~ In key ("download_url" :: content_model_fields) ->
  GitHubFileContentModel.new (JObj (<[key := v]> d)) = GitHubFileContentModel.new (JObj d).
Proof.
  intros Hkey. cbn [GitHubFileContentModel.new]. unfold field, field_default_None.
  cbn [content_model_fields In] in Hkey.
  rewrite !lookup_insert_ne
    by (intros ->; apply Hkey; repeat first [left; reflexivity | right]).
  reflexivity.
Qed.

End ReadFileMore.

(** A provider that sends, as base64 content, the two bytes of the letter
    e with an acute accent. *)
Lemma read_file_errors_witness :
  @read_file_error Sample.ascii_lib nat
    (GitHubClient.mk "o" "r" None "main"
       (fun _ calls =>
          (Ok (Sample.file_body "a" "a" "base64"
                 (String (ascii_of_N 195) (String (ascii_of_N 169) EmptyString)) 1),
           S calls)))
    "a" None 0%nat 1%nat
    (ValueError "string argument should contain only ASCII characters").
Proof.
  apply (@read_file_errors Sample.ascii_lib nat). vm_compute. reflexivity.
Defined.

(** An object of type "file" with its content but without "git_url". *)
Lemma read_file_requires_fields_witness :
  @GitHubClient.read_file Sample.ascii_lib nat
    (GitHubClient.mk "o" "r" None "main"
       (fun _ calls =>
          (Ok (Sample.obj [("type", JStr "file"); ("encoding", JStr "base64");
                           ("content", JStr "aGVsbG8="); ("sha", JStr "s"); ("size", JNum 5);
                           ("name", JStr "a"); ("path", JStr "a"); ("url", JStr "u");
                           ("html_url", JStr "h")]), S calls)))
    "a" None 0%nat
  = (Raise ValidationError, 1%nat).
Proof.
  eapply (@read_file_requires_fields Sample.ascii_lib nat _ "a" None 0%nat 1%nat _ "git_url").
  - reflexivity.
  - cbn. tauto.
  - left. vm_compute. reflexivity.
Defined.

(** The "_links" of the contents API. *)
Lemma content_model_ignores_other_keys_witness :
  @GitHubFileContentModel.new Sample.ascii_lib
    (JObj (<["_links" := JObj ∅]>
             (list_to_map [("type", JStr "file"); ("encoding", JStr "base64");
                           ("content", JStr "aGVsbG8="); ("sha", JStr "s"); ("size", JNum 5);
                           ("name", JStr "a"); ("path", JStr "a"); ("url", JStr "u");
                           ("git_url", JStr "g"); ("html_url", JStr "h")])))
  = Ok (GitHubFileContentModel.mk "file" "base64" "aGVsbG8=" "s" 5 "a" "a" "u" "g" "h" None).
Proof.
  rewrite (@content_model_ignores_other_keys Sample.ascii_lib).
  - vm_compute. reflexivity.
  - cbn. intros [E|[E|[E|[E|[E|[E|[E|[E|[E|[E|[E|[]]]]]]]]]]]]; discriminate E.
Defined.

(** ** [get_directory_structure]: the request and what a listing tells *)

(** X4.  [get_directory_structure] sends exactly one request, to the
    contents endpoint of the path, and it carries the revision: the one
    given, or [default_ref] when none or the empty string is given. *)
Theorem get_directory_structure_request `{PyLib} {World} (self : GitHubClient.t World)
    (path : string) (log : list request) (w : World) :
  (forall ref,
      fst (snd (GitHubClient.get_directory_structure
                  (with_provider self (recording (GitHubClient._gh self)))
                  path ref (log, w)))
      = log ++ [listing_request self path (or_str ref (GitHubClient.default_ref self))])
  /\ or_str None (GitHubClient.default_ref self) = GitHubClient.default_ref self
  /\ or_str (Some EmptyString) (GitHubClient.default_ref self) = GitHubClient.default_ref self
  /\ (forall c r, or_str (Some (String c r)) (GitHubClient.default_ref self) = String c r).
Proof.
  split; [|repeat split].
  intros ref. rewrite get_directory_structure_cases.
  unfold with_provider, recording, listing_request.
  cbn [GitHubClient._gh GitHubClient.owner GitHubClient.repo GitHubClient.default_ref snd fst].
  destruct (GitHubClient._gh self _ w) as [[resp|e] w1]; [|reflexivity].
  destruct resp; reflexivity.
Qed.

Section ListingMore.
Context `{PyLib} {World : Type}.
Implicit Types self : GitHubClient.t World.

Lemma rbind_Ok_inv {A B} (r : result A) (k : A -> result B) b :
  rbind r k = Ok b -> exists a, r = Ok a /\ k a = Ok b.
Proof. destruct r as [a|e]; cbn; [eauto|discriminate]. Qed.

Lemma v_str_Ok_inv j s : v_str j = Ok s -> j = JStr s.
Proof. destruct j; cbn; congruence. Qed.

Lemma py_get_Ok_inv item key default j :
  py_get item key default = Ok j ->
  exists d, item = JObj d /\ j = match d !! key with Some v => v | None => default end.
Proof. destruct item; cbn; try discriminate. intros [= <-]. eauto. Qed.

Lemma lookup_of_default (d : gmap string json) key s :
  match d !! key with Some v => v | None => JNull end = JStr s -> d !! key = Some (JStr s).
Proof. destruct (d !! key); [congruence|discriminate]. Qed.

(** The result of the constructor carries the validated arguments. *)
Lemma new_Ok_inv path name type size content sha url score r :
  FileSearchResultModel.new path name type size content sha url score = Ok r ->
  path = JStr (FileSearchResultModel.path r)
  /\ name = JStr (FileSearchResultModel.name r)
  /\ type = JStr (FileSearchResultModel.type r)
  /\ v_optional v_int size = Ok (FileSearchResultModel.size r)
  /\ v_optional v_str content = Ok (FileSearchResultModel.content r)
  /\ v_optional v_str sha = Ok (FileSearchResultModel.sha r)
  /\ v_optional v_str url = Ok (FileSearchResultModel.url r)
  /\ v_optional v_float score = Ok (FileSearchResultModel.score r).
Proof.
  unfold FileSearchResultModel.new. intros Hnew.
  repeat match type of Hnew with
         | rbind ?x _ = Ok _ =>
             let E := fresh "E" in
             destruct x eqn:E; cbn [rbind] in Hnew; [|discriminate Hnew]
         end.
  injection Hnew as <-. cbn.
  repeat match goal with
         | E : v_str _ = Ok _ |- _ => apply v_str_Ok_inv in E; subst
         end.
  repeat split; assumption.
Qed.

Lemma entry_listed item r : GitHubClient.entry item = Ok r -> listed item r.
Proof.
  unfold GitHubClient.entry. intros Hentry.
  repeat match type of Hentry with
         | rbind (py_get item ?k ?dflt) _ = Ok _ =>
             let E := fresh "E" in
             destruct (py_get item k dflt) eqn:E; cbn [rbind] in Hentry; [|discriminate Hentry];
             apply py_get_Ok_inv in E; destruct E as (? & ? & ?)
         end.
  subst. repeat match goal with E : JObj _ = JObj _ |- _ => injection E as <- end.
  apply new_Ok_inv in Hentry.
  destruct Hentry as (Hpath & Hname & Htype & _ & Hcontent & _ & _ & Hscore).
  injection Hcontent as Hcontent. injection Hscore as Hscore.
  constructor; try (apply lookup_of_default; assumption); try (symmetry; assumption).
  injection Htype as Htype. rewrite <- Htype.
  match goal with
  | |- context [?m !! "type"] => destruct (m !! "type") as [j|]
  end; [|right; split; [reflexivity|discriminate]].
  destruct j as [| | | |t| |]; cbn [json_is_str];
    try (right; split; [reflexivity|discriminate]).
  destruct (String.eqb_spec t "file") as [->|Hne]; [left; split; reflexivity|].
  right. split; [reflexivity|congruence].
Qed.

Lemma entry_raises item e :
  GitHubClient.entry item = Raise e -> e = AttributeError \/ e = ValidationError.
Proof.
  unfold GitHubClient.entry, py_get.
  destruct item; cbn [rbind]; try (intros [= <-]; tauto).
  intros He. right. revert e He.
  match goal with |- forall e, ?r = Raise e -> _ => change (validation_only r) end.
  unfold FileSearchResultModel.new. validation_steps.
Qed.

Lemma entries_Ok_inv items : forall acc rs,
  GitHubClient.entries items acc = Ok rs ->
  exists new, rs = acc ++ new /\ Forall2 (fun item r => GitHubClient.entry item = Ok r) items new.
Proof.
  induction items as [|item items IH]; intros acc rs; cbn [GitHubClient.entries].
  - intros [= <-]. exists []. split; [now rewrite List.app_nil_r|constructor].
  - destruct (GitHubClient.entry item) as [r|e] eqn:Er; cbn [rbind]; [|discriminate].
    intros Hrest. destruct (IH _ _ Hrest) as (new & -> & Hnew).
    exists (r :: new). split; [now rewrite <- List.app_assoc|]. now constructor.
Qed.

Lemma entries_raise items : forall acc item e,
  In item items -> GitHubClient.entry item = Raise e ->
  exists e', GitHubClient.entries items acc = Raise e'
             /\ (e' = AttributeError \/ e' = ValidationError).
Proof.
  induction items as [|item0 items IH]; intros acc item e Hin He; [destruct Hin|].
  cbn [GitHubClient.entries].
  destruct (GitHubClient.entry item0) as [r|e0] eqn:E0; cbn [rbind].
  - destruct Hin as [->|Hin]; [congruence|]. eapply IH; eassumption.
  - exists e0. split; [reflexivity|]. eapply entry_raises; eassumption.
Qed.

(** X5.  When [get_directory_structure] returns, the provider answered
    either with a listing, and then the results are one per entry, in the
    order of the listing, each an object's name and path tagged "file" for
    type "file" and "directory" for every other type, without content and
    score; or with a single value, and then the result is the one entry
    built from that object. *)
Theorem get_directory_structure_sound self (path : string) (ref : option string)
    (w w' : World) (rs : list FileSearchResultModel.t) :
  GitHubClient.get_directory_structure self path ref w = (Ok rs, w') ->
  exists resp,
    GitHubClient._gh self
      (listing_request self path (or_str ref (GitHubClient.default_ref self))) w
    = (Ok resp, w')
    /\ ((exists items, resp = JArr items /\ Forall2 listed items rs)
        \/ ((forall items, resp <> JArr items) /\ exists r, rs = [r] /\ listed resp r)).
Proof.
  rewrite get_directory_structure_cases.
  destruct (GitHubClient._gh self _ w) as [[resp|e] w1]; [|intros [=]].
  assert (Hsingle : (forall items, resp <> JArr items) ->
            (let+ fsr := GitHubClient.entry resp in Ok [fsr], w1) = (Ok rs, w') ->
            exists resp0, (Ok resp, w1) = (Ok resp0, w')
              /\ ((exists items, resp0 = JArr items /\ Forall2 listed items rs)
                  \/ ((forall items, resp0 <> JArr items)
                      /\ exists r, rs = [r] /\ listed resp0 r))).
  { intros Hresp Hrun. destruct (GitHubClient.entry resp) as [r|e] eqn:Er; [|discriminate].
    injection Hrun as <- <-. exists resp. split; [reflexivity|]. right.
    split; [exact Hresp|]. exists r. split; [reflexivity|now apply entry_listed]. }
  destruct resp as [| | | | |items|d]; try (apply Hsingle; discriminate).
  intros [= Hentries <-]. destruct (entries_Ok_inv _ _ _ Hentries) as (new & -> & Hnew).
  exists (JArr items). split; [reflexivity|]. left. exists items. split; [reflexivity|].
  cbn [List.app]. eapply Forall2_impl; [exact Hnew|]. apply entry_listed.
Qed.

(** X6.  A listing is all or nothing: when one entry is not an object with a
    string name and a string path, the call returns no result at all and
    raises [AttributeError] or [ValidationError]. *)
Theorem get_directory_structure_all_or_nothing self (path : string) (ref : option string)
    (w w' : World) (items : list json) (item : json) :
  GitHubClient._gh self
    (listing_request self path (or_str ref (GitHubClient.default_ref self))) w
  = (Ok (JArr items), w') ->
  In item items ->
  (forall d name path', item = JObj d -> d !! "name" = Some (JStr name) ->
                        d !! "path" = Some (JStr path') -> False) ->
  exists e,
    GitHubClient.get_directory_structure self path ref w = (Raise e, w')
    /\ (e = AttributeError \/ e = ValidationError).
Proof.
  intros Egh Hin Hbad. rewrite get_directory_structure_cases, Egh.
  destruct (GitHubClient.entry item) as [r|e] eqn:Er.
  - exfalso. destruct (entry_listed _ _ Er) as [d r' Hname Hpath _ _ _]. eapply Hbad; eauto.
  - destruct (entries_raise items [] item e Hin Er) as (e' & -> & He'). eauto.
Qed.

End ListingMore.

(** The directory src of the sample repository. *)
Lemma get_directory_structure_sound_witness :
  exists resp,
    GitHubClient._gh Sample.client (listing_request Sample.client "src" "main") 0%nat
    = (Ok resp, 1%nat)
    /\ ((exists items, resp = JArr items /\ length items = 2%nat)
        \/ (forall items, resp <> JArr items)).
Proof.
  destruct (@get_directory_structure_sound Sample.ascii_lib nat Sample.client "src" None
              0%nat 1%nat _ eq_refl) as (resp & Hgh & Hresp).
  exists resp. split; [exact Hgh|].
  destruct Hresp as [(items & -> & Hl)|[Hno _]]; [left|right; exact Hno].
  exists items. split; [reflexivity|]. now rewrite (Forall2_length _ _ _ Hl).
Defined.

(** A listing whose second entry has no path. *)
Lemma get_directory_structure_all_or_nothing_witness :
  exists e,
    @GitHubClient.get_directory_structure Sample.ascii_lib nat
      (GitHubClient.mk "o" "r" None "main"
         (fun _ calls =>
            (Ok (JArr [Sample.file_entry "src/main.py" "main.py" 10;
                       Sample.obj [("type", JStr "file"); ("name", JStr "util")]]),
             S calls)))
      "src" None 0%nat = (Raise e, 1%nat)
    /\ (e = AttributeError \/ e = ValidationError).
Proof.
  eapply (@get_directory_structure_all_or_nothing Sample.ascii_lib nat _ "src" None
            0%nat 1%nat _ (Sample.obj [("type", JStr "file"); ("name", JStr "util")])).
  - reflexivity.
  - right. left. reflexivity.
  - intros d name path' [= <-] _ Hpath. vm_compute in Hpath. discriminate Hpath.
Defined.

(** ** [search_files]: failures, bounds and what a result tells *)

Section SearchMore.
Context `{PyLib} {World : Type}.
Implicit Types self : GitHubClient.t World.

(** X7.  A failure of the first request of a search (the tree listing, or
    the code search) is not translated: the search raises the exception of
    the provider as it is, the one that [read_file] turns into NotFound
    included. *)
Theorem search_files_provider_failure self (query : string) (opts : SearchOptions.t)
    (w w' : World) (e : exn) :
  GitHubClient._gh self (first_request self query opts) w = (Raise e, w') ->
  GitHubClient.search_files self query opts w = (Raise e, w').
Proof. intros Egh. rewrite search_files_cases, Egh. reflexivity. Qed.

(** X8.  When the object the provider returns has no "tree" key (for the
    tree search) or no "items" key (for the content search), the search
    returns the empty list and makes no further request. *)
Theorem search_files_missing_listing self (query : string) (opts : SearchOptions.t)
    (w w' : World) (d : gmap string json) :
  GitHubClient._gh self (first_request self query opts) w = (Ok (JObj d), w') ->
  d !! listing_key opts = None ->
  GitHubClient.search_files self query opts w = (Ok [], w').
Proof.
  intros Egh Hkey. rewrite search_files_cases, Egh. cbn [py_get]. rewrite Hkey.
  cbn [rbind py_iter]. destruct (SearchOptions.search_in_content opts); reflexivity.
Qed.

Lemma json_is_str_true j s : json_is_str j s = true -> j = JStr s.
Proof.
  destruct j; cbn; try discriminate. intros E. apply String.eqb_eq in E. now subst.
Qed.

Lemma as_str_Ok_inv j p : as_str j = Ok p -> j = JStr p.
Proof. destruct j; cbn; congruence. Qed.

(** What one iteration of the tree loop builds. *)
Lemma tree_candidate_Some query opts item fsr :
  tree_candidate query opts item = Ok (Some fsr) ->
  tree_hit query opts fsr
  /\ FileSearchResultModel.content fsr = None
  /\ exists d, item = JObj d
               /\ d !! "type" = Some (JStr "blob")
               /\ d !! "path" = Some (JStr (FileSearchResultModel.path fsr)).
Proof.
  unfold tree_candidate. intros Hc.
  destruct (py_get item "type" JNull) as [ty|] eqn:Ety; cbn [rbind] in Hc; [|discriminate].
  destruct (json_is_str ty "blob") eqn:Eblob; cbn [negb] in Hc; [|discriminate].
  apply json_is_str_true in Eblob. subst ty.
  destruct (py_get item "path" JNull) as [pj|] eqn:Epath; cbn [rbind] in Hc; [|discriminate].
  apply py_get_Ok_inv in Ety. destruct Ety as (d & -> & Hty).
  apply py_get_Ok_inv in Epath. destruct Epath as (d' & [= <-] & ->).
  symmetry in Hty. apply lookup_of_default in Hty.
  destruct (as_str (match d !! "path" with Some v => v | None => JNull end)) as [p|] eqn:Ep.
  2: { destruct (SearchOptions.extension opts) as [ext|]; [destruct (PyStr.truthy ext)|];
         cbn [rbind] in Hc; discriminate. }
  apply as_str_Ok_inv in Ep.
  assert (Hsel :
    (let+ path := Ok p in
       if negb (PyStr.contains (lower query) (lower path))
          && negb (PyStr.contains (lower query)
                     (lower (List.last (PyStr.split "/" path) EmptyString)))
       then Ok None
       else
         let+ size := py_get (JObj d) "size" JNull in
         let+ sha := py_get (JObj d) "sha" JNull in
         let+ url := py_get (JObj d) "url" JNull in
         let+ fsr := FileSearchResultModel.new (JStr path)
                       (JStr (List.last (PyStr.split "/" path) EmptyString)) (JStr "file")
                       size JNull sha url
                       (JFloat (int_to_float
                                  (GitHubClient._calculate_score path
                                     (List.last (PyStr.split "/" path) EmptyString) query))) in
         Ok (Some fsr)) = Ok (Some fsr) ->
    (PyStr.contains (lower query) (lower p)
        || PyStr.contains (lower query) (lower (file_name p))) = true
    /\ FileSearchResultModel.path fsr = p
    /\ FileSearchResultModel.name fsr = file_name p
    /\ FileSearchResultModel.type fsr = "file"
    /\ FileSearchResultModel.content fsr = None
    /\ FileSearchResultModel.score fsr
       = Some (int_to_float (GitHubClient._calculate_score p (file_name p) query))).
  { intros Hb. cbn [rbind] in Hb. fold (file_name p) in Hb.
    destruct (PyStr.contains (lower query) (lower p)) eqn:E1;
      destruct (PyStr.contains (lower query) (lower (file_name p))) eqn:E2;
      cbn [negb andb] in Hb; try discriminate;
      cbn [py_get rbind] in Hb;
      (destruct (FileSearchResultModel.new _ _ _ _ _ _ _ _) as [r|] eqn:Enew;
       cbn [rbind] in Hb; [|discriminate]);
      injection Hb as ->;
      apply new_Ok_inv in Enew;
      destruct Enew as (Hp & Hn & Ht & _ & Hcontent & _ & _ & Hscore);
      injection Hp as Hp; injection Hn as Hn; injection Ht as Ht;
      injection Hcontent as Hcontent; injection Hscore as Hscore;
      repeat split; congruence. }
  assert (Hgoal : forall sel,
    (PyStr.contains (lower query) (lower p)
     || PyStr.contains (lower query) (lower (file_name p))) = true ->
    FileSearchResultModel.path fsr = p ->
    FileSearchResultModel.name fsr = file_name p ->
    FileSearchResultModel.type fsr = "file" ->
    FileSearchResultModel.content fsr = None ->
    FileSearchResultModel.score fsr
    = Some (int_to_float (GitHubClient._calculate_score p (file_name p) query)) ->
    match effective_extension opts with
    | Some e => PyStr.endswith p e
    | None => true
    end = sel -> sel = true ->
    tree_hit query opts fsr
    /\ FileSearchResultModel.content fsr = None
    /\ exists d0, JObj d = JObj d0
                  /\ d0 !! "type" = Some (JStr "blob")
                  /\ d0 !! "path" = Some (JStr (FileSearchResultModel.path fsr))).
  { intros sel Hq Hp Hn Ht Hcn Hs Heff ->. split; [|split; [exact Hcn|]].
    - constructor; rewrite ?Hp; try assumption.
      unfold selectedb. now rewrite Heff, Hq.
    - exists d. rewrite Hp, <- Ep. split; [reflexivity|]. split; [exact Hty|].
      destruct (d !! "path"); [reflexivity|discriminate]. }
  unfold effective_extension in Hgoal. cbn [rbind] in Hsel.
  destruct (SearchOptions.extension opts) as [ext|]; [destruct (PyStr.truthy ext)|];
    cbn [as_str rbind] in Hc.
  - destruct (PyStr.endswith p ext) eqn:Eext; cbn [negb] in Hc; [|discriminate].
    destruct (Hsel Hc) as (Hq & Hp & Hn & Ht & Hcn & Hs). eapply Hgoal; eauto.
  - destruct (Hsel Hc) as (Hq & Hp & Hn & Ht & Hcn & Hs). eapply Hgoal; eauto.
  - destruct (Hsel Hc) as (Hq & Hp & Hn & Ht & Hcn & Hs). eapply Hgoal; eauto.
Qed.

Lemma fetch_content_Ok_inv self fsr w fsr' w' :
  GitHubClient.fetch_content self fsr w = (Ok fsr', w') ->
  exists c, fsr' = FileSearchResultModel.set_content fsr c.
Proof.
  rewrite fetch_content_cases.
  destruct (GitHubClient.read_file self _ _ w) as [[text|e] w1].
  - intros [= <- _]. eauto.
  - destruct (is_Exception e); intros [= <- _]. eauto.
Qed.

Lemma tree_hit_set_content query opts fsr c :
  tree_hit query opts fsr -> tree_hit query opts (FileSearchResultModel.set_content fsr c).
Proof. intros [Ht Hn Hs Hsel]. constructor; assumption. Qed.

(** The invariant of the tree loop: what is appended are hits built from
    blobs of the listing, at most as many as there is room for. *)
Lemma tree_loop_inv self query opts all :
  forall items count results w rs w',
    incl items all ->
    GitHubClient.tree_loop self query opts items count results w = (Ok rs, w') ->
    exists new,
      rs = results ++ new
      /\ Z.of_nat (length new) <= Z.max 1 (SearchOptions.max_results opts - count)
      /\ Forall (fun r => tree_hit query opts r /\ from_blob all r) new
      /\ (SearchOptions.include_content opts = false ->
          w' = w /\ Forall (fun r => FileSearchResultModel.content r = None) new).
Proof.
  induction items as [|item items IH]; intros count results w rs w' Hincl.
  - cbn. intros [= <- <-]. exists []. rewrite List.app_nil_r.
    repeat split; try constructor. cbn. lia.
  - rewrite tree_loop_step.
    assert (Hincl' : incl items all) by (intros x Hx; apply Hincl; now right).
    destruct (tree_candidate query opts item) as [[fsr|]|e] eqn:Ec;
      [|now apply IH|intros [=]].
    destruct (tree_candidate_Some _ _ _ _ Ec) as (Hhit & Hcontent & d & -> & Hty & Hpath).
    assert (Hfetch : forall fsr' w1,
      (if SearchOptions.include_content opts
       then GitHubClient.fetch_content self fsr else ret fsr) w = (Ok fsr', w1) ->
      (tree_hit query opts fsr' /\ from_blob all fsr')
      /\ (SearchOptions.include_content opts = false ->
          w1 = w /\ FileSearchResultModel.content fsr' = None)).
    { intros fsr' w1. destruct (SearchOptions.include_content opts).
      - intros Hf. destruct (fetch_content_Ok_inv _ _ _ _ _ Hf) as [c ->].
        split; [|discriminate]. split; [now apply tree_hit_set_content|].
        exists d. split; [apply Hincl; now left|]. split; assumption.
      - intros [= <- <-]. split; [|auto]. split; [exact Hhit|].
        exists d. split; [apply Hincl; now left|]. split; assumption. }
    destruct ((if SearchOptions.include_content opts
               then GitHubClient.fetch_content self fsr else ret fsr) w)
      as [[fsr'|e] w1]; [|intros [=]].
    destruct (Hfetch fsr' w1 eq_refl) as [Hnew Hplain].
    destruct (Z.geb_spec (count + 1) (SearchOptions.max_results opts)) as [Hge|Hlt].
    + intros [= <- <-]. exists [fsr']. split; [reflexivity|].
      split; [cbn; lia|]. split; [now constructor|].
      intros Hinc. destruct (Hplain Hinc) as [-> Hc]. split; [reflexivity|now constructor].
    + intros Hrest. destruct (IH _ _ _ _ _ Hincl' Hrest) as (new & -> & Hlen & Hall & Hp).
      exists (fsr' :: new). split; [now rewrite <- List.app_assoc|].
      split; [cbn [length]; lia|]. split; [now constructor|].
      intros Hinc. destruct (Hplain Hinc) as [-> Hc]. destruct (Hp Hinc) as [-> Hcs].
      split; [reflexivity|now constructor].
Qed.

(** X9.  Whatever the provider returns and whatever the options are, a tree
    search that returns has at most [max_results] results, and at most one
    when [max_results] is below one. *)
Theorem search_files_local_bound self (query : string) (opts : SearchOptions.t)
    (w w' : World) (rs : list FileSearchResultModel.t) :
  SearchOptions.search_in_content opts = false ->
  GitHubClient.search_files self query opts w = (Ok rs, w') ->
  Z.of_nat (length rs) <= Z.max 1 (SearchOptions.max_results opts).
Proof.
  intros Hmode. rewrite search_files_cases, Hmode.
  destruct (GitHubClient._gh self _ w) as [[resp|e] w0]; [|intros [=]].
  destruct (rbind _ _) as [items|e]; [|intros [=]].
  destruct (GitHubClient.tree_loop self query opts items 0 [] w0) as [[rs0|e] w1] eqn:Eloop;
    [|intros [=]].
  intros [= <- <-].
  destruct (tree_loop_inv self query opts items _ _ _ _ _ _ (incl_refl _) Eloop)
    as (new & -> & Hlen & _).
  rewrite (Permutation_length (list_sort_perm _ _ _)). cbn [List.app].
  now rewrite Z.sub_0_r in Hlen.
Qed.

(** X10.  Whatever the provider returns, every result of a tree search that
    returns is a file named by the last segment of its path, carries the
    score of [_calculate_score], passes the extension filter and the query
    test, and was built from a blob entry of the listing with that path;
    without [include_content] no result has content and the listing was the
    only request. *)
Theorem search_files_local_sound self (query : string) (opts : SearchOptions.t)
    (w w1 w' : World) (d : gmap string json) (items : list json)
    (rs : list FileSearchResultModel.t) :
  SearchOptions.search_in_content opts = false ->
  GitHubClient._gh self (tree_request self) w = (Ok (JObj d), w1) ->
  d !! "tree" = Some (JArr items) ->
  GitHubClient.search_files self query opts w = (Ok rs, w') ->
  Forall (fun r => tree_hit query opts r /\ from_blob items r) rs
  /\ descending score_key rs
  /\ (SearchOptions.include_content opts = false ->
      w' = w1 /\ Forall (fun r => FileSearchResultModel.content r = None) rs).
Proof.
  intros Hmode Egh Htree. rewrite search_files_cases. unfold first_request, listing_key.
  rewrite Hmode, Egh. cbn [py_get]. rewrite Htree. cbn [rbind py_iter].
  destruct (GitHubClient.tree_loop self query opts items 0 [] w1) as [[rs0|e] w2] eqn:Eloop;
    [|intros [=]].
  intros [= <- <-].
  destruct (tree_loop_inv self query opts items _ _ _ _ _ _ (incl_refl _) Eloop)
    as (new & -> & _ & Hall & Hplain).
  cbn [List.app]. split; [|split].
  - eapply Permutation_Forall; [symmetry; apply list_sort_perm|exact Hall].
  - rewrite list_sort_in_range; [apply sort_reverse_descending|].
    eapply List.Forall_impl; [|exact Hall]. cbv beta. intros r [[_ _ Hs _] _].
    eapply score_in_range_small; [apply calculate_score_range|exact Hs].
  - intros Hinc. destruct (Hplain Hinc) as [-> Hc]. split; [reflexivity|].
    eapply Permutation_Forall; [symmetry; apply list_sort_perm|exact Hc].
Qed.

End SearchMore.

(** The sample provider knows no tree of the revision "dev". *)
Lemma search_files_provider_failure_witness :
  @GitHubClient.search_files Sample.ascii_lib nat
    (GitHubClient.mk "o" "r" None "dev" Sample.github) "readme"
    (SearchOptions.mk None 10 false false) 0%nat
  = (Raise GraphQLException, 1%nat).
Proof.
  apply (@search_files_provider_failure Sample.ascii_lib nat). reflexivity.
Defined.

(** A provider that answers the code search with an error document. *)
Lemma search_files_missing_listing_witness :
  @GitHubClient.search_files Sample.ascii_lib nat
    (GitHubClient.mk "o" "r" None "main"
       (fun _ calls => (Ok (Sample.obj [("message", JStr "Validation Failed")]), S calls)))
    "readme" (SearchOptions.mk (Some ".py") 10 true true) 0%nat
  = (Ok [], 1%nat).
Proof.
  eapply (@search_files_missing_listing Sample.ascii_lib nat).
  - reflexivity.
  - vm_compute. reflexivity.
Defined.

(** Options that were not validated: [max_results] is 0, one result comes
    back. *)
Lemma search_files_local_bound_witness :
  Z.of_nat (length [FileSearchResultModel.mk "README.md" "README.md" "file" (Some 5) None
                      (Some "sha-README.md") None (Some (int_to_float 105))])
  <= Z.max 1 0.
Proof.
  apply (@search_files_local_bound Sample.ascii_lib nat Sample.client "readme"
           (SearchOptions.mk None 0 false false) 0%nat 1%nat); [reflexivity|].
  vm_compute. reflexivity.
Defined.

(** The sample repository searched for "readme". *)
Lemma search_files_local_sound_witness :
  Forall (fun r => @tree_hit Sample.ascii_lib "readme" (SearchOptions.mk None 10 false false) r
                   /\ from_blob Sample.tree_listing r) Sample.readme_results
  /\ descending score_key Sample.readme_results
  /\ (false = false ->
      1%nat = 1%nat
      /\ Forall (fun r => FileSearchResultModel.content r = None) Sample.readme_results).
Proof.
  apply (@search_files_local_sound Sample.ascii_lib nat Sample.client "readme"
           (SearchOptions.mk None 10 false false) 0%nat 1%nat 1%nat
           (list_to_map [("sha", JStr "sha-root"); ("tree", JArr Sample.tree_listing);
                         ("truncated", JBool false)])).
  - reflexivity.
  - reflexivity.
  - vm_compute. reflexivity.
  - vm_compute. reflexivity.
Defined.

(** ** [_calculate_score]: bounds *)

Section ScoreMore.
Context `{PyLib}.

(** X11.  A score lies between 0 and 125; and a path that passes the query
    test of the search scores at least 40 with its file name, so that the
    score of a result is never the 0 that the sort key would replace. *)
Theorem calculate_score_bounds (path filename query : string) (extension : option string) :
  0 <= GitHubClient._calculate_score path filename query <= 125
  /\ (selectedb query extension path = true ->
      40 <= GitHubClient._calculate_score path (file_name path) query
      /\ or_zero (Some (int_to_float
                          (GitHubClient._calculate_score path (file_name path) query)))
         = int_to_float (GitHubClient._calculate_score path (file_name path) query)
      /\ float_truthy (int_to_float
                         (GitHubClient._calculate_score path (file_name path) query))
         = true).
Proof.
  split; [apply calculate_score_range|].
  intros Hsel. apply selectedb_spec in Hsel. destruct Hsel as [_ Hq].
  destruct (calculate_score_kind path (file_name path) query) as (k & b & Hk & Hb & Hs).
  assert (Hpoints : 40 <= kind_points k).
  { destruct Hk as [?|? ?|? ?|? ?|Hnf Hnp]; cbn; try lia. tauto. }
  pose proof (spec_bonus_bounds _ _ Hb). pose proof (depth_bonus_bounds path).
  assert (Hlow : 40 <= GitHubClient._calculate_score path (file_name path) query)
    by (rewrite Hs; lia).
  pose proof (calculate_score_range path (file_name path) query) as Hrange.
  split; [exact Hlow|]. split; [now apply or_zero_small|].
  pose proof (up_to_125 (fun n => (n =? 0) || float_truthy (int_to_float n))
                ltac:(vm_compute; reflexivity) _ Hrange) as E.
  cbv beta in E. apply orb_true_iff in E. destruct E as [E|E]; [lia|exact E].
Qed.

(** X12.  With a [lower] that maps the empty string to itself, an empty
    query passes the query test on every path, so that only the extension
    filter selects, and every file scores as a prefix match at least: 80
    or more. *)
Theorem empty_query_selects_all :
  lower EmptyString = EmptyString ->
  (forall extension path,
      selectedb EmptyString extension path
      = match extension with Some e => PyStr.endswith path e | None => true end)
  /\ (forall path filename, 80 <= GitHubClient._calculate_score path filename EmptyString).
Proof.
  intros Hlower. split.
  - intros extension path. unfold selectedb. rewrite Hlower.
    assert (E : forall s, PyStr.contains EmptyString s = true) by (intros []; reflexivity).
    rewrite !E. now destruct (match extension with Some e => _ | None => _ end).
  - intros path filename.
    destruct (calculate_score_kind path filename EmptyString) as (k & b & Hk & Hb & ->).
    rewrite Hlower in Hk.
    assert (Hp : forall s, PyStr.is_prefix EmptyString s) by (intros s; now exists s).
    assert (Hpoints : 80 <= kind_points k).
    { destruct Hk as [?|? ?|Hnp ?|Hns ?|Hns ?]; cbn; try lia;
        exfalso; first [apply Hnp | apply Hns; apply PyStrFacts.prefix_substring]; apply Hp. }
    pose proof (spec_bonus_bounds _ _ Hb). pose proof (depth_bonus_bounds path). lia.
Qed.

End ScoreMore.

Lemma calculate_score_bounds_witness :
  40 <= @GitHubClient._calculate_score Sample.ascii_lib "docs/guide/Readme.txt"
          (file_name "docs/guide/Readme.txt") "README"
  /\ or_zero (Some (int_to_float
                      (@GitHubClient._calculate_score Sample.ascii_lib
                         "docs/guide/Readme.txt" (file_name "docs/guide/Readme.txt")
                         "README")))
     = int_to_float (@GitHubClient._calculate_score Sample.ascii_lib "docs/guide/Readme.txt"
                       (file_name "docs/guide/Readme.txt") "README")
  /\ float_truthy (int_to_float
                     (@GitHubClient._calculate_score Sample.ascii_lib
                        "docs/guide/Readme.txt" (file_name "docs/guide/Readme.txt")
                        "README"))
     = true.
Proof.
  apply (proj2 (@calculate_score_bounds Sample.ascii_lib "docs/guide/Readme.txt"
                  "Readme.txt" "README" (Some ".txt"))).
  reflexivity.
Defined.

Lemma empty_query_selects_all_witness :
  @selectedb Sample.ascii_lib "" (Some ".py") "src/main.py" = true
  /\ 80 <= @GitHubClient._calculate_score Sample.ascii_lib "src/main.py" "main.py" "".
Proof.
  destruct (@empty_query_selects_all Sample.ascii_lib eq_refl) as [Hsel Hscore].
  split; [rewrite Hsel; reflexivity|apply Hscore].
Defined.

(** ** [search_files]: the requests it sends *)

Section SearchRequests.
Context `{PyLib} {World : Type}.
Variable self : GitHubClient.t World.

Let recorded : GitHubClient.t (list request * World) :=
  with_provider self (recording (GitHubClient._gh self)).

Let content_request (r : FileSearchResultModel.t) : request :=
  contents_request self (FileSearchResultModel.path r).

Lemma fetch_content_log fsr log w fsr' log' w' :
  GitHubClient.fetch_content recorded fsr (log, w) = (Ok fsr', (log', w')) ->
  log' = log ++ [content_request fsr] /\ content_request fsr' = content_request fsr.
Proof.
  rewrite fetch_content_cases.
  pose proof (read_file_request self (FileSearchResultModel.path fsr)
                (Some (GitHubClient.default_ref self)) log w) as Hlog.
  change (GitHubClient.default_ref recorded) with (GitHubClient.default_ref self).
  fold recorded in Hlog.
  destruct (GitHubClient.read_file recorded _ _ (log, w)) as [[text|e] [log1 w1]];
    cbn [fst snd] in Hlog.
  - intros [= <- <- <-]. split; [exact Hlog|reflexivity].
  - destruct (is_Exception e); intros [= <- <- <-]. split; [exact Hlog|reflexivity].
Qed.

Lemma tree_loop_log query opts items :
  forall count results log w rs log' w',
    GitHubClient.tree_loop recorded query opts items count results (log, w)
    = (Ok rs, (log', w')) ->
    exists new,
      rs = results ++ new
      /\ log' = log ++ (if SearchOptions.include_content opts
                         then map content_request new else []).
Proof.
  induction items as [|item items IH]; intros count results log w rs log' w'.
  - cbn. intros [= <- <- <-]. exists [].
    split; [now rewrite List.app_nil_r|].
    destruct (SearchOptions.include_content opts); cbn [map]; now rewrite List.app_nil_r.
  - rewrite tree_loop_step.
    destruct (tree_candidate query opts item) as [[fsr|]|e]; [|apply IH|intros [=]].
    assert (Hstep : forall fsr' log1 w1,
      (if SearchOptions.include_content opts
       then GitHubClient.fetch_content recorded fsr else ret fsr) (log, w)
      = (Ok fsr', (log1, w1)) ->
      log1 = log ++ (if SearchOptions.include_content opts
                     then [content_request fsr'] else [])).
    { intros fsr' log1 w1. destruct (SearchOptions.include_content opts).
      - intros Hf. destruct (fetch_content_log _ _ _ _ _ _ Hf) as [-> ->]. reflexivity.
      - intros [= <- <- <-]. now rewrite List.app_nil_r. }
    destruct ((if SearchOptions.include_content opts
               then GitHubClient.fetch_content recorded fsr else ret fsr) (log, w))
      as [[fsr'|e] [log1 w1]]; [|intros [=]].
    pose proof (Hstep fsr' log1 w1 eq_refl) as ->.
    destruct (count + 1 >=? SearchOptions.max_results opts).
    + intros [= <- <- <-]. exists [fsr']. split; [reflexivity|].
      now destruct (SearchOptions.include_content opts).
    + intros Hrest. destruct (IH _ _ _ _ _ _ _ Hrest) as (new & -> & ->).
      exists (fsr' :: new). split; [now rewrite <- List.app_assoc|].
      rewrite <- List.app_assoc. now destruct (SearchOptions.include_content opts).
Qed.

Lemma content_loop_log opts items :
  forall results log w rs log' w',
    GitHubClient.content_loop recorded opts items results (log, w) = (Ok rs, (log', w')) ->
    exists new,
      rs = results ++ new
      /\ log' = log ++ (if SearchOptions.include_content opts
                         then map content_request new else []).
Proof.
  induction items as [|item items IH]; intros results log w rs log' w'.
  - cbn. intros [= <- <- <-]. exists [].
    split; [now rewrite List.app_nil_r|].
    destruct (SearchOptions.include_content opts); cbn [map]; now rewrite List.app_nil_r.
  - rewrite content_loop_step.
    destruct (content_candidate item) as [fsr|e]; [|intros [=]].
    assert (Hstep : forall fsr' log1 w1,
      (if SearchOptions.include_content opts
       then GitHubClient.fetch_content recorded fsr else ret fsr) (log, w)
      = (Ok fsr', (log1, w1)) ->
      log1 = log ++ (if SearchOptions.include_content opts
                     then [content_request fsr'] else [])).
    { intros fsr' log1 w1. destruct (SearchOptions.include_content opts).
      - intros Hf. destruct (fetch_content_log _ _ _ _ _ _ Hf) as [-> ->]. reflexivity.
      - intros [= <- <- <-]. now rewrite List.app_nil_r. }
    destruct ((if SearchOptions.include_content opts
               then GitHubClient.fetch_content recorded fsr else ret fsr) (log, w))
      as [[fsr'|e] [log1 w1]]; [|intros [=]].
    pose proof (Hstep fsr' log1 w1 eq_refl) as ->.
    intros Hrest. destruct (IH _ _ _ _ _ _ Hrest) as (new & -> & ->).
    exists (fsr' :: new). split; [now rewrite <- List.app_assoc|].
    rewrite <- List.app_assoc. now destruct (SearchOptions.include_content opts).
Qed.

Lemma search_files_log (query : string) (opts : SearchOptions.t)
    (log log' : list request) (w w' : World) (rs : list FileSearchResultModel.t) :
  GitHubClient.search_files
    (with_provider self (recording (GitHubClient._gh self))) query opts (log, w)
  = (Ok rs, (log', w')) ->
  exists fetched,
    log' = log ++ first_request self query opts :: fetched
    /\ Permutation fetched
         (if SearchOptions.include_content opts
          then map (fun r => contents_request self (FileSearchResultModel.path r)) rs
          else []).
Proof.
  fold recorded. rewrite search_files_cases.
  change (first_request recorded query opts) with (first_request self query opts).
  unfold recorded at 1, with_provider, recording. cbn [GitHubClient._gh fst snd].
  destruct (GitHubClient._gh self _ w) as [[resp|e] w0]; [|intros [=]].
  destruct (rbind _ _) as [items|e]; [|intros [=]].
  fold (recording (GitHubClient._gh self)).
  fold (with_provider self (recording (GitHubClient._gh self))). fold recorded.
  destruct (SearchOptions.search_in_content opts).
  - intros Hloop. destruct (content_loop_log _ _ _ _ _ _ _ _ Hloop) as (new & -> & ->).
    eexists. split; [now rewrite <- List.app_assoc|]. cbn [List.app]. reflexivity.
  - destruct (GitHubClient.tree_loop recorded query opts items 0 [] _)
      as [[rs0|e] [log1 w1]] eqn:Eloop; [|intros [=]].
    intros [= <- <- <-]. destruct (tree_loop_log _ _ _ _ _ _ _ _ _ _ Eloop) as (new & -> & ->).
    eexists. split; [now rewrite <- List.app_assoc|]. cbn [List.app].
    destruct (SearchOptions.include_content opts); [|reflexivity].
    apply Permutation_map. symmetry. apply list_sort_perm.
Qed.

(** X13.  A search that returns has sent its first request (the tree
    listing or the code search) and then, with [include_content], exactly
    one contents request per result, for the path of that result, and
    without it nothing more; entries that are not returned cost no
    request. *)
Theorem search_files_requests (query : string) (opts : SearchOptions.t)
    (log log' : list request) (w w' : World) (rs : list FileSearchResultModel.t) :
  GitHubClient.search_files
    (with_provider self (recording (GitHubClient._gh self))) query opts (log, w)
  = (Ok rs, (log', w')) ->
  exists fetched,
    log' = log ++ first_request self query opts :: fetched
    /\ Permutation fetched
         (if SearchOptions.include_content opts
          then map (fun r => contents_request self (FileSearchResultModel.path r)) rs
          else []).
Proof. apply search_files_log. Qed.

End SearchRequests.

(** The sample repository searched for "readme" with the contents: the
    three contents requests follow the order of the tree, the results the
    order of the scores. *)
Lemma search_files_requests_witness :
  exists fetched,
    [tree_request Sample.client;
     contents_request Sample.client "README.md";
     contents_request Sample.client "docs/readme.txt";
     contents_request Sample.client "src/readme_utils.py"]
    = [] ++ first_request Sample.client "readme" (SearchOptions.mk None 10 true false)
         :: fetched
    /\ Permutation fetched
         (map (fun r => contents_request Sample.client (FileSearchResultModel.path r))
            Sample.readme_results).
Proof.
  apply (@search_files_requests Sample.ascii_lib nat Sample.client "readme"
           (SearchOptions.mk None 10 true false) [] _ 0%nat 4%nat
           [FileSearchResultModel.mk "README.md" "README.md" "file" (Some 5) (Some "hello")
              (Some "sha-README.md") None (Some (int_to_float 105));
            FileSearchResultModel.mk "src/readme_utils.py" "readme_utils.py" "file" (Some 3)
              (Some "hi") (Some "sha-src/readme_utils.py") None (Some (int_to_float 104));
            FileSearchResultModel.mk "docs/readme.txt" "readme.txt" "file" (Some 7) None
              (Some "sha-docs/readme.txt") None (Some (int_to_float 99))]).
  vm_compute. reflexivity.
Defined.

(** ** [search_files]: the content search *)

Section ContentSearch.
Context `{PyLib} {World : Type}.
Implicit Types self : GitHubClient.t World.

Lemma content_loop_plain self opts items rs :
  SearchOptions.include_content opts = false ->
  Forall2 search_item items rs ->
  forall acc w, GitHubClient.content_loop self opts items acc w = (Ok (acc ++ rs), w).
Proof.
  intros Hinc Hitems. induction Hitems as [|item r items rs Hr _ IH]; intros acc w.
  - cbn. now rewrite List.app_nil_r.
  - rewrite content_loop_step, (content_candidate_item _ _ Hr), Hinc. cbn [ret].
    rewrite IH, <- List.app_assoc. reflexivity.
Qed.

Lemma content_candidate_hit item r : content_candidate item = Ok r -> search_hit item r.
Proof.
  unfold content_candidate. intros Hc.
  repeat match type of Hc with
         | rbind (py_get item ?k ?dflt) _ = Ok _ =>
             let E := fresh "E" in
             destruct (py_get item k dflt) eqn:E; cbn [rbind] in Hc; [|discriminate Hc];
             apply py_get_Ok_inv in E; destruct E as (? & ? & ?)
         end.
  subst. repeat match goal with E : JObj _ = JObj _ |- _ => injection E as <- end.
  apply new_Ok_inv in Hc.
  destruct Hc as (Hpath & Hname & Htype & Hsize & _).
  injection Htype as Htype. injection Hsize as Hsize.
  constructor; try (apply lookup_of_default; assumption); symmetry; assumption.
Qed.

Lemma search_hit_set_content item r c :
  search_hit item r -> search_hit item (FileSearchResultModel.set_content r c).
Proof. intros [d r' Hn Hp Ht Hs]. constructor; assumption. Qed.

(** The invariant of the loop of the content search: one result is
    appended for every item, in order. *)
Lemma content_loop_inv self opts items :
  forall acc w rs w',
    GitHubClient.content_loop self opts items acc w = (Ok rs, w') ->
    exists new, rs = acc ++ new /\ Forall2 search_hit items new.
Proof.
  induction items as [|item items IH]; intros acc w rs w'.
  - cbn. intros [= <- <-]. exists []. split; [now rewrite List.app_nil_r|constructor].
  - rewrite content_loop_step.
    destruct (content_candidate item) as [fsr|e] eqn:Ec; [|intros [=]].
    apply content_candidate_hit in Ec.
    assert (Hstep : forall fsr' w1,
      (if SearchOptions.include_content opts
       then GitHubClient.fetch_content self fsr else ret fsr) w = (Ok fsr', w1) ->
      search_hit item fsr').
    { intros fsr' w1. destruct (SearchOptions.include_content opts).
      - intros Hf. destruct (fetch_content_Ok_inv _ _ _ _ _ Hf) as [c ->].
        now apply search_hit_set_content.
      - now intros [= <- <-]. }
    destruct ((if SearchOptions.include_content opts
               then GitHubClient.fetch_content self fsr else ret fsr) w)
      as [[fsr'|e] w1]; [|intros [=]].
    intros Hrest. destruct (IH _ _ _ _ Hrest) as (new & -> & Hnew).
    exists (fsr' :: new). split; [now rewrite <- List.app_assoc|].
    constructor; [|exact Hnew]. now apply (Hstep fsr' w1).
Qed.

(** X14.  For an answer of the provider with a list of items: whenever the
    content search returns, it returns one result per item, in the order
    of the provider, each a file without size that carries the name and
    the path of its item, so that the client neither sorts the results nor
    cuts them at [max_results]; and when the items are objects with a
    string name and path, an optional string hash and URL and an optional
    numeric score, the search without [include_content] returns exactly
    the results that carry these values, after the one request. *)
Theorem search_files_content self (query : string) (opts : SearchOptions.t)
    (w w1 : World) (d : gmap string json) (items : list json) :
  SearchOptions.search_in_content opts = true ->
  GitHubClient._gh self (search_request self query opts) w = (Ok (JObj d), w1) ->
  d !! "items" = Some (JArr items) ->
  (forall rs w',
      GitHubClient.search_files self query opts w = (Ok rs, w') ->
      Forall2 search_hit items rs)
  /\ (forall rs,
         Forall2 search_item items rs ->
         SearchOptions.include_content opts = false ->
         GitHubClient.search_files self query opts w = (Ok rs, w1)).
Proof.
  intros Hmode Egh Hitems. rewrite search_files_cases. unfold first_request, listing_key.
  rewrite Hmode, Egh. cbn [py_get]. rewrite Hitems. cbn [rbind py_iter]. split.
  - intros rs w' Hloop. destruct (content_loop_inv _ _ _ _ _ _ _ Hloop) as (new & -> & Hnew).
    exact Hnew.
  - intros rs Hrs Hinc. now rewrite (content_loop_plain self opts items rs Hinc Hrs).
Qed.

Lemma fetch_content_log_any self fsr log w :
  fst (snd (GitHubClient.fetch_content
              (with_provider self (recording (GitHubClient._gh self))) fsr (log, w)))
  = log ++ [contents_request self (FileSearchResultModel.path fsr)].
Proof.
  rewrite fetch_content_cases.
  pose proof (read_file_request self (FileSearchResultModel.path fsr)
                (Some (GitHubClient.default_ref self)) log w) as Hlog.
  change (GitHubClient.default_ref (with_provider self (recording (GitHubClient._gh self))))
    with (GitHubClient.default_ref self).
  destruct (GitHubClient.read_file _ _ _ (log, w)) as [[text|e] [log1 w1]];
    cbn [fst snd] in Hlog |- *; [exact Hlog|].
  destruct (is_Exception e); exact Hlog.
Qed.

(** Whatever the outcome of the loop, the log only grows. *)
Lemma content_loop_log_any self opts items :
  forall results log w,
    exists more,
      fst (snd (GitHubClient.content_loop
                  (with_provider self (recording (GitHubClient._gh self)))
                  opts items results (log, w)))
      = log ++ more.
Proof.
  induction items as [|item items IH]; intros results log w.
  - exists []. cbn. now rewrite List.app_nil_r.
  - rewrite content_loop_step.
    destruct (content_candidate item) as [fsr|e];
      [|exists []; cbn [fst snd]; now rewrite List.app_nil_r].
    destruct (SearchOptions.include_content opts).
    + pose proof (fetch_content_log_any self fsr log w) as Hlog.
      destruct (GitHubClient.fetch_content _ fsr (log, w)) as [[fsr'|e] [log1 w1]];
        cbn [fst snd] in Hlog; subst log1.
      * destruct (IH (results ++ [fsr']) (log ++ [contents_request self
                                                    (FileSearchResultModel.path fsr)]) w1)
          as [more ->].
        eexists. now rewrite <- List.app_assoc.
      * eexists. reflexivity.
    + cbn [ret]. apply IH.
Qed.

(** X15.  For options built by the constructor, every content search,
    whatever its outcome, first asks the provider for q = the query,
    " repo:owner/repo" and, when an extension is given, " extension:"
    followed by the extension without its leading dots (which then never
    starts with a dot), with per_page = [max_results]. *)
Theorem search_files_content_query self (query : string) (extension : option string)
    (max_results : Z) (include_content : bool) (opts : SearchOptions.t)
    (log : list request) (w : World) :
  SearchOptions.new extension max_results include_content true = Ok opts ->
  exists more,
    fst (snd (GitHubClient.search_files
                (with_provider self (recording (GitHubClient._gh self))) query opts (log, w)))
    = log
      ++ mkRequest "/search/code"
           [("q", JStr (query +:+ " repo:" +:+ GitHubClient.owner self +:+ "/"
                        +:+ GitHubClient.repo self
                        +:+ match extension with
                            | Some e => " extension:" +:+ PyStr.lstrip "." e
                            | None => EmptyString
                            end));
            ("per_page", JNum max_results)]
      :: more
    /\ match extension with
       | Some e => PyStr.startswith (PyStr.lstrip "." e) "." = false
       | None => True
       end.
Proof.
  intros Hopts.
  destruct (search_options_new_inv _ _ _ _ _ Hopts) as (-> & Hext & _).
  assert (Hreq :
    first_request (with_provider self (recording (GitHubClient._gh self))) query
      (SearchOptions.mk extension max_results include_content true)
    = mkRequest "/search/code"
        [("q", JStr (query +:+ " repo:" +:+ GitHubClient.owner self +:+ "/"
                     +:+ GitHubClient.repo self
                     +:+ match extension with
                         | Some e => " extension:" +:+ PyStr.lstrip "." e
                         | None => EmptyString
                         end));
         ("per_page", JNum max_results)]).
  { unfold first_request, search_request, search_query.
    cbn [SearchOptions.search_in_content SearchOptions.max_results SearchOptions.extension
         with_provider GitHubClient.owner GitHubClient.repo].
    destruct extension as [e|]; [|reflexivity]. destruct Hext as [t ->]. reflexivity. }
  assert (Hdots : match extension with
                  | Some e => PyStr.startswith (PyStr.lstrip "." e) "." = false
                  | None => True
                  end) by (destruct extension; [apply lstrip_no_leading|exact I]).
  rewrite search_files_cases, Hreq.
  unfold with_provider at 1, recording. cbn [GitHubClient._gh fst snd].
  destruct (GitHubClient._gh self _ w) as [[resp|e] w0];
    [|exists []; split; [reflexivity|exact Hdots]].
  destruct (rbind _ _) as [items|e]; [|exists []; split; [reflexivity|exact Hdots]].
  cbn [SearchOptions.search_in_content].
  fold (recording (GitHubClient._gh self)).
  fold (with_provider self (recording (GitHubClient._gh self))).
  destruct (content_loop_log_any self
              (SearchOptions.mk extension max_results include_content true) items []
              (log ++ [mkRequest "/search/code"
                         [("q", JStr (query +:+ " repo:" +:+ GitHubClient.owner self +:+ "/"
                                      +:+ GitHubClient.repo self
                                      +:+ match extension with
                                          | Some e => " extension:" +:+ PyStr.lstrip "." e
                                          | None => EmptyString
                                          end));
                          ("per_page", JNum max_results)]]) w0) as [more Hmore].
  exists more. split; [|exact Hdots]. rewrite Hmore, <- List.app_assoc. reflexivity.
Qed.

End ContentSearch.

(** The provider of the sample answers with three items although two are
    asked for: three results come back, first the one the provider put
    first. *)
Lemma search_files_content_witness :
  @GitHubClient.search_files Sample.ascii_lib nat SampleSearch.client "readme"
    (SearchOptions.mk None 2 false true) 0%nat
  = (Ok SampleSearch.results, 1%nat)
  /\ Forall2 search_hit SampleSearch.hits SampleSearch.results.
Proof.
  destruct (@search_files_content Sample.ascii_lib nat SampleSearch.client "readme"
              (SearchOptions.mk None 2 false true) 0%nat 1%nat
              (list_to_map [("total_count", JNum 3); ("incomplete_results", JBool false);
                            ("items", JArr SampleSearch.hits)])
              SampleSearch.hits eq_refl eq_refl ltac:(vm_compute; reflexivity))
    as [Hinv Hrun].
  assert (Hres : @GitHubClient.search_files Sample.ascii_lib nat SampleSearch.client "readme"
                   (SearchOptions.mk None 2 false true) 0%nat
                 = (Ok SampleSearch.results, 1%nat)).
  { apply Hrun; [|reflexivity].
    unfold SampleSearch.hits, SampleSearch.hit, SampleSearch.results, Sample.obj.
    repeat (constructor; [search_item_of_sample|]). constructor. }
  split; [exact Hres|]. exact (Hinv _ _ Hres).
Defined.

(** The sample provider asked for "readme" in .py files, and a provider
    that fails: the query is sent either way. *)
Lemma search_files_content_query_witness :
  (exists more,
      fst (snd (@GitHubClient.search_files Sample.ascii_lib (list request * nat)
                  (with_provider SampleSearch.client
                     (recording (GitHubClient._gh SampleSearch.client)))
                  "readme" (SearchOptions.mk (Some ".py") 2 false true) ([], 0%nat)))
      = [] ++ mkRequest "/search/code"
                [("q", JStr ("readme" +:+ " repo:" +:+ "o" +:+ "/" +:+ "r"
                             +:+ " extension:" +:+ PyStr.lstrip "." ".py"));
                 ("per_page", JNum 2)]
           :: more
      /\ PyStr.startswith (PyStr.lstrip "." ".py") "." = false)
  /\ @GitHubClient.search_files Sample.ascii_lib (list request * nat)
       (with_provider Sample.client (recording (GitHubClient._gh Sample.client)))
       "readme" (SearchOptions.mk (Some ".py") 2 false true) ([], 0%nat)
     = (Raise GraphQLException,
        ([mkRequest "/search/code"
            [("q", JStr "readme repo:o/r extension:py"); ("per_page", JNum 2)]], 1%nat)).
Proof.
  split; [|vm_compute; reflexivity].
  apply (@search_files_content_query Sample.ascii_lib nat SampleSearch.client "readme"
           (Some ".py") 2 false (SearchOptions.mk (Some ".py") 2 false true) [] 0%nat).
  reflexivity.
Defined.

(** ** The file name of a path *)

(** X16.  The file name the search gives a path (its last segment) contains
    no '/'; the path ends with it; it is the whole path when the path has
    no '/'; and it is what follows the last '/' otherwise. *)
Theorem file_name_spec (path : string) :
  PyStr.count "/" (file_name path) = 0
  /\ PyStr.is_suffix (file_name path) path
  /\ (PyStr.count "/" path = 0 -> file_name path = path)
  /\ (forall dir name, path = dir +:+ "/" +:+ name -> PyStr.count "/" name = 0 ->
                       file_name path = name).
Proof.
  split; [|split; [|split]].
  - induction path as [|d s IH]; [reflexivity|].
    destruct (Ascii.eqb d "/") eqn:Ed.
    + apply Ascii.eqb_eq in Ed. subst d. now rewrite FileNameFacts.file_name_after_slash.
    + rewrite (FileNameFacts.file_name_cons _ _ Ed).
      destruct (Z.eqb_spec (PyStr.count "/" s) 0) as [Hc|Hc]; [|exact IH].
      cbn [PyStr.count]. rewrite Ed. lia.
  - induction path as [|d s IH]; [exists EmptyString; reflexivity|].
    destruct (Ascii.eqb d "/") eqn:Ed.
    + apply Ascii.eqb_eq in Ed. subst d. rewrite FileNameFacts.file_name_after_slash.
      destruct IH as [t Ht]. exists (String "/" t). rewrite PyStrFacts.app_String. congruence.
    + rewrite (FileNameFacts.file_name_cons _ _ Ed).
      destruct (PyStr.count "/" s =? 0); [exists EmptyString; reflexivity|].
      destruct IH as [t Ht]. exists (String d t). rewrite PyStrFacts.app_String. congruence.
  - apply FileNameFacts.file_name_no_slash.
  - intros dir name -> Hname. induction dir as [|d dir IH].
    + rewrite PyStrFacts.app_nil_l.
      change ("/" +:+ name) with (String "/" name).
      rewrite FileNameFacts.file_name_after_slash.
      now apply FileNameFacts.file_name_no_slash.
    + rewrite PyStrFacts.app_String. destruct (Ascii.eqb d "/") eqn:Ed.
      * apply Ascii.eqb_eq in Ed. subst d.
        now rewrite FileNameFacts.file_name_after_slash.
      * rewrite (FileNameFacts.file_name_cons _ _ Ed).
        rewrite FileNameFacts.count_app.
        change ("/" +:+ name) with (String "/" name). cbn [PyStr.count].
        change (Ascii.eqb "/" "/") with true. cbv iota.
        pose proof (PyStrFacts.count_nonneg "/" dir).
        destruct (Z.eqb_spec (PyStr.count "/" dir + (1 + PyStr.count "/" name)) 0); [lia|].
        exact IH.
Qed.

Lemma file_name_spec_witness :
  file_name "src/app/main.py" = "main.py" /\ file_name "Makefile" = "Makefile".
Proof.
  split.
  - apply (proj2 (proj2 (proj2 (file_name_spec "src/app/main.py"))) "src/app" "main.py");
      reflexivity.
  - apply (proj1 (proj2 (proj2 (file_name_spec "Makefile")))). reflexivity.
Defined.

(** ** The code-source service: what it accepts and how it reads *)

Section ServiceMore.
Context `{PyLib} {World : Type}.
Variable GitHubAPI : string -> option string -> request -> M World json.

Lemma code_source_new_inv conf source url ref service :
  CodeSourceService.new GitHubAPI conf source url ref = Ok service ->
  source = "github"
  /\ exists parsed owner repo rest,
      urlparse url = Some parsed
      /\ netloc parsed = "github.com"
      /\ segments (url_path parsed) = owner :: repo :: rest
      /\ service = CodeSourceService.mk
                     (GitHubClient.mk owner repo (Some (cfg_token (github conf))) ref
                        (GitHubAPI (owner +:+ "/" +:+ repo) (Some (cfg_token (github conf))))).
Proof.
  unfold CodeSourceService.new.
  destruct (String.eqb_spec source "github") as [->|]; [|intros [=]].
  destruct (urlparse url) as [parsed|]; cbn [or_raise rbind]; [|intros [=]].
  destruct (String.eqb_spec (netloc parsed) "github.com") as [Hn|]; cbn [negb]; [|intros [=]].
  fold (segments (url_path parsed)).
  destruct (Z.of_nat (length (segments (url_path parsed))) <? 2); [intros [=]|].
  destruct (segments (url_path parsed)) as [|owner [|repo rest]] eqn:Hs; cbn [firstn];
    try (intros E; discriminate E).
  intros [= <-]. split; [reflexivity|]. exists parsed, owner, repo, rest. auto.
Qed.

(** X17.  A service is built only for the source "github", and its client
    then has an owner that is not empty, an owner and a repository without
    '/', the revision given as [default_ref], the token of the
    configuration, and the provider made for "owner/repo" with that
    token.  (The repository may be empty, as for
    https://github.com/a//b.) *)
Theorem code_source_new_shape (conf : AppConfig) (source url ref : string)
    (service : CodeSourceService.t) :
  CodeSourceService.new GitHubAPI conf source url ref = Ok service ->
  source = "github"
  /\ GitHubClient.owner (CodeSourceService.code_client service) <> EmptyString
  /\ PyStr.count "/" (GitHubClient.owner (CodeSourceService.code_client service)) = 0
  /\ PyStr.count "/" (GitHubClient.repo (CodeSourceService.code_client service)) = 0
  /\ GitHubClient.default_ref (CodeSourceService.code_client service) = ref
  /\ GitHubClient.token (CodeSourceService.code_client service)
     = Some (cfg_token (github conf))
  /\ GitHubClient._gh (CodeSourceService.code_client service)
     = GitHubAPI (GitHubClient.owner (CodeSourceService.code_client service) +:+ "/"
                  +:+ GitHubClient.repo (CodeSourceService.code_client service))
         (Some (cfg_token (github conf))).
Proof.
  intros Hnew.
  destruct (code_source_new_inv _ _ _ _ _ Hnew)
    as (-> & parsed & owner & repo & rest & _ & _ & Hs & ->).
  cbn [CodeSourceService.code_client GitHubClient.owner GitHubClient.repo
       GitHubClient.default_ref GitHubClient.token GitHubClient._gh].
  pose proof (SegmentFacts.split_segments "/" (PyStr.strip "/" (url_path parsed))) as Hall.
  fold (segments (url_path parsed)) in Hall. rewrite Hs in Hall.
  apply List.Forall_cons_iff in Hall. destruct Hall as [Ho Hall].
  apply List.Forall_cons_iff in Hall. destruct Hall as [Hr _].
  repeat split; try assumption.
  eapply SegmentFacts.segments_head; [exact Hs|discriminate].
Qed.

(** X18.  Reading through the service is reading at the revision the
    service was built with: when the provider raises for the contents
    request of the path, the service raises NotFound quoting that revision
    for the exception the client catches and the exception itself for any
    other; and the service returns a text exactly when the client does,
    whatever revision is passed to the client. *)
Theorem service_read_file (conf : AppConfig) (source url ref path : string)
    (service : CodeSourceService.t) (w w' : World) :
  CodeSourceService.new GitHubAPI conf source url ref = Ok service ->
  (forall e,
      GitHubClient._gh (CodeSourceService.code_client service)
        (contents_request (CodeSourceService.code_client service) path) w = (Raise e, w') ->
      CodeSourceService.read_file service path w
      = (Raise (if is_GraphQLException e then NotFound path ref else e), w'))
  /\ (forall ref' text,
         CodeSourceService.read_file service path w = (Ok text, w')
         <-> GitHubClient.read_file (CodeSourceService.code_client service) path ref' w
             = (Ok text, w')).
Proof.
  intros Hnew.
  destruct (code_source_new_inv _ _ _ _ _ Hnew)
    as (-> & parsed & owner & repo & rest & _ & _ & _ & ->).
  unfold CodeSourceService.read_file, GitHubClient_as_storage.
  cbn [cs_read_file CodeSourceService.code_client]. split.
  - intros e Egh. rewrite read_file_cases, Egh. reflexivity.
  - intros ref' text. rewrite !read_file_success. reflexivity.
Qed.

End ServiceMore.

(** An address with an empty second segment is accepted. *)
Lemma code_source_new_shape_witness :
  @CodeSourceService.new Sample.ascii_lib nat Sample.GitHubAPI Sample.conf "github"
    "https://github.com/a//b" "main"
  = Ok (CodeSourceService.mk (GitHubClient.mk "a" "" (Some "token") "main" Sample.github))
  /\ "github" = "github"
  /\ "a" <> ""
  /\ PyStr.count "/" "a" = 0
  /\ PyStr.count "/" "" = 0.
Proof.
  split; [reflexivity|].
  destruct (@code_source_new_shape Sample.ascii_lib nat Sample.GitHubAPI Sample.conf "github"
              "https://github.com/a//b" "main"
              (CodeSourceService.mk
                 (GitHubClient.mk "a" "" (Some "token") "main" Sample.github)) eq_refl)
    as (Hs & Ho & Hco & Hcr & _).
  repeat split; assumption.
Defined.

(** The reader of the command line: the repository o/r of the sample,
    read at a path the provider does not know. *)
Lemma service_read_file_witness :
  @CodeSourceService.read_file Sample.ascii_lib nat
    (CodeSourceService.mk (GitHubClient.mk "o" "r" (Some "token") "v2" Sample.github))
    "Makefile" 0%nat
  = (Raise (NotFound "Makefile" "v2"), 1%nat).
Proof.
  destruct (@service_read_file Sample.ascii_lib nat Sample.GitHubAPI Sample.conf "github"
              "https://github.com/o/r" "v2" "Makefile"
              (CodeSourceService.mk
                 (GitHubClient.mk "o" "r" (Some "token") "v2" Sample.github))
              0%nat 1%nat eq_refl) as [Hfail _].
  apply (Hfail GraphQLException). reflexivity.
Defined.

(** ** The configuration is loaded at every call *)

Section ConfigFacts.
Context {World : Type}.
Variable load : M World AppConfig.

Lemma get_config_empty (w : World) :
  get_config load (None, w)
  = match load w with (r, w') => (r, (None, w')) end.
Proof.
  unfold get_config, load_config. cbn [fst snd].
  destruct (load w) as [[config|e] w']; reflexivity.
Qed.

(** X19.  [get_config] never fills the module's cache: starting with
    [_CONFIG] unset, any number of calls leaves it unset, and the calls
    return what as many runs of the loader return, each call running the
    loader again; only a cache that is already set is returned without
    loading. *)
Theorem get_config_never_caches (n : nat) (w : World) (cached : AppConfig) :
  repeatedly n (get_config load) (None, w)
  = match repeatedly n load w with (r, w') => (r, (None, w')) end
  /\ get_config load (Some cached, w) = (Ok cached, (Some cached, w)).
Proof.
  split; [|reflexivity]. revert w. induction n as [|n IH]; intros w; [reflexivity|].
  cbn [repeatedly]. unfold bind at 1 3. rewrite get_config_empty.
  destruct (load w) as [[config|e] w1]; [|reflexivity].
  unfold bind at 1 2. rewrite IH.
  destruct (repeatedly n load w1) as [[rest|e] w2]; reflexivity.
Qed.

End ConfigFacts.

Example three_calls_three_loads :
  repeatedly 3 (get_config SampleSearch.load) (None, 0%nat)
  = (Ok [Sample.conf; Sample.conf; Sample.conf], (None, 3%nat)).
Proof. reflexivity. Qed.

(** ** [read_file] returns, and the reader of the command line *)

(** X20.  [read_file] returns a text exactly when the provider answers the
    contents request with an object that has all the fields of the model,
    type "file" and encoding "base64", and whose content is ASCII and
    decodes from base64 and then from UTF-8 to that text; the world is the
    one the provider call left. *)
Theorem read_file_returns_iff `{PyLib} {World} (self : GitHubClient.t World)
    (path : string) (ref : option string) (w w' : World) (text : string) :
  GitHubClient.read_file self path ref w = (Ok text, w')
  <-> exists data f bytes,
        GitHubClient._gh self (contents_request self path) w = (Ok data, w')
        /\ GitHubFileContentModel.new data = Ok f
        /\ GitHubFileContentModel.type f = "file"
        /\ GitHubFileContentModel.encoding f = "base64"
        /\ PyStr.isascii (GitHubFileContentModel.content f) = true
        /\ b64decode (GitHubFileContentModel.content f) = Some bytes
        /\ decode_utf8 bytes = Some text.
Proof. apply read_file_success. Qed.

Section ReaderFacts.
Context `{PyLib} {World : Type}.
Variable GitHubAPI : string -> option string -> request -> M World json.
Variable print : string -> M World unit.

(** X21.  With the URL of the reader parsed as Python parses it,
    [start_reader] reads the path Makefile of the repository
    langchain-ai/langgraph through a client whose default revision is
    "main", with the token of the configuration; it prints the text when
    the read returns, and when the read fails it raises the error of the
    read and prints nothing. *)
Theorem start_reader_reads_makefile (cfg : AppConfig) (w : World) :
  urlparse "https://github.com/langchain-ai/langgraph/"
  = Some (mkParseResult "https" "github.com" "/langchain-ai/langgraph/" "" "" "") ->
  start_reader GitHubAPI print cfg w
  = match GitHubClient.read_file
            (GitHubClient.mk "langchain-ai" "langgraph" (Some (cfg_token (github cfg))) "main"
               (GitHubAPI "langchain-ai/langgraph" (Some (cfg_token (github cfg)))))
            "Makefile" None w with
    | (Ok content, w') => print content w'
    | (Raise e, w') => (Raise e, w')
    end.
Proof.
  intros Hurl. unfold start_reader, CodeSourceService.new.
  change (String.eqb "github" "github") with true. cbv iota. rewrite Hurl.
  cbn [or_raise rbind netloc url_path]. rewrite bind_lift.
  change (String.eqb "github.com" "github.com") with true.
  cbn [negb PyStr.strip PyStr.lstrip PyStr.rstrip PyStr.split Ascii.eqb Bool.eqb length
       Z.of_nat Pos.of_succ_nat Pos.succ Z.ltb Z.compare Pos.compare Pos.compare_cont firstn].
  unfold bind at 1, CodeSourceService.read_file, GitHubClient_as_storage.
  cbn [cs_read_file CodeSourceService.code_client CodeSourceService.GitHubClient_init].
  reflexivity.
Qed.

End ReaderFacts.

(** The reader against the sample provider, which knows no such
    repository; printing would count as a call. *)
Lemma start_reader_reads_makefile_witness :
  @start_reader Sample.ascii_lib nat Sample.GitHubAPI (fun _ calls => (Ok tt, S calls))
    Sample.conf 0%nat
  = (Raise (NotFound "Makefile" "main"), 1%nat).
Proof.
  rewrite (@start_reader_reads_makefile Sample.ascii_lib nat Sample.GitHubAPI
             (fun _ calls => (Ok tt, S calls)) Sample.conf 0%nat eq_refl).
  reflexivity.
Defined.
